(** * Two-hop postal-code / weather pipeline: a shallow embedding

    The development follows the Go sources of the repository:

    - the entry service (service A, [zipCodeHandler], [isValidZipCode]);
    - the resolution service (service B, [temperatureHandler],
      [getLocation], [getWeather]), in its instrumented and in its plain
      variant.

    Go strings are byte sequences and are modelled as [string] (a list of
    8-bit [ascii]).  [float64] is modelled by the binary64 primitive floats.
    Library calls the handlers make (regexp, encoding/json, net/http,
    OpenTelemetry) are modelled by small executable definitions restricted
    to the behaviour the handlers rely on; each states what it leaves out. *)

From Stdlib Require Import PrimFloat.
From Stdlib Require Import String Ascii List Bool Arith Lia.
From stdpp Require Import gmap strings list.

Import ListNotations.
Set Warnings "-inexact-float".
Open Scope string_scope.
Open Scope nat_scope.

(** ** Bytes and strings *)

Definition isDigit (c : ascii) : bool :=
  (48 <=? nat_of_ascii c) && (nat_of_ascii c <=? 57).

Fixpoint allDigits (s : string) : bool :=
  match s with
  | EmptyString => true
  | String c s' => isDigit c && allDigits s'
  end.

(** The shape rule of the specification: exactly eight bytes, all of them
    ASCII digits. *)
Definition eightDigits (s : string) : bool :=
  (String.length s =? 8) && allDigits s.

Fixpoint dropS (n : nat) (s : string) : string :=
  match n, s with
  | 0, _ => s
  | S _, EmptyString => EmptyString
  | S m, String _ s' => dropS m s'
  end.

(** [digitPrefix n s]: the first [n] bytes of [s] exist and are digits. *)
Fixpoint digitPrefix (n : nat) (s : string) : bool :=
  match n, s with
  | 0, _ => true
  | S _, EmptyString => false
  | S m, String c s' => isDigit c && digitPrefix m s'
  end.

(** ** regexp: the fragment of RE2 syntax the validator uses

    [regexp.MatchString(pattern, s)] compiles [pattern] and reports whether
    [s] contains a match.  The model covers literals, [^], [$], [\d] and the
    counted repetition [{n}]; a pattern using any other operator is outside
    the fragment ([Unsupported]).  Matching steps over bytes, which agrees
    with stepping over UTF-8 runes for ASCII literals and [\d]. *)

Module Regexp.

Inductive node : Type :=
| EmptyMatch
| Lit (c : ascii)
| Digit
| BeginText
| EndText
| Repeat (n : nat) (r : node)
| Cat (r1 r2 : node).

Inductive error : Type :=
| ErrTrailingBackslash
| ErrInvalidEscape (c : ascii)
| ErrMissingRepeatArgument
| ErrInvalidRepeatSize.

Inductive parsed : Type :=
| Ok (r : node)
| Err (e : error)
| Unsupported.

(** Decimal count of a repetition: the digits up to the closing brace. *)
Fixpoint readCount (acc : nat) (seen : bool) (s : string) : option (nat * string) :=
  match s with
  | EmptyString => None
  | String c s' =>
      if isDigit c then readCount (10 * acc + (nat_of_ascii c - 48)) true s'
      else if Ascii.eqb c "}" then (if seen then Some (acc, s') else None)
      else None
  end.

Definition isMeta (c : ascii) : bool :=
  existsb (Ascii.eqb c) (list_ascii_of_string "*+?()[]|.").

Definition isPunct (c : ascii) : bool :=
  existsb (Ascii.eqb c) (list_ascii_of_string "\.+*?()|[]{}^$-").

(** [parseSeq fuel s acc last]: [acc] is the concatenation parsed so far
    without its last atom, [last] the last atom (the operand of a
    following repetition), if any. *)
Definition snoc (acc : node) (last : option node) : node :=
  match last with
  | None => acc
  | Some a => match acc with EmptyMatch => a | _ => Cat acc a end
  end.

Fixpoint parseSeq (fuel : nat) (s : string) (acc : node) (last : option node) : parsed :=
  match fuel with
  | 0 => Unsupported
  | S fuel' =>
      match s with
      | EmptyString => Ok (snoc acc last)
      | String c s' =>
          if Ascii.eqb c "^" then parseSeq fuel' s' (snoc acc last) (Some BeginText)
          else if Ascii.eqb c "$" then parseSeq fuel' s' (snoc acc last) (Some EndText)
          else if Ascii.eqb c "\" then
            match s' with
            | EmptyString => Err ErrTrailingBackslash
            | String d s'' =>
                if Ascii.eqb d "d" then parseSeq fuel' s'' (snoc acc last) (Some Digit)
                else if isPunct d then parseSeq fuel' s'' (snoc acc last) (Some (Lit d))
                else if isDigit d then Unsupported
                else if existsb (Ascii.eqb d) (list_ascii_of_string "AbBCDpPQEsSwWzafnrtvx") then Unsupported
                else Err (ErrInvalidEscape d)
            end
          else if Ascii.eqb c "{" then
            match readCount 0 false s' with
            | Some (n, rest) =>
                match last with
                | None => Err ErrMissingRepeatArgument
                | Some a =>
                    if 1000 <? n then Err ErrInvalidRepeatSize
                    else parseSeq fuel' rest acc (Some (Repeat n a))
                end
            | None => Unsupported
            end
          else if isMeta c then Unsupported
          else parseSeq fuel' s' (snoc acc last) (Some (Lit c))
      end
  end.

Definition Compile (pattern : string) : parsed :=
  parseSeq (S (String.length pattern)) pattern EmptyMatch None.

(** Backtracking matcher in continuation style; [pos] is the byte offset
    in the whole text, which [^] inspects. *)
Fixpoint matchK (r : node) (pos : nat) (s : string)
         (k : nat -> string -> bool) {struct r} : bool :=
  match r with
  | EmptyMatch => k pos s
  | Lit c =>
      match s with
      | String c' s' => if Ascii.eqb c c' then k (S pos) s' else false
      | EmptyString => false
      end
  | Digit =>
      match s with
      | String c' s' => if isDigit c' then k (S pos) s' else false
      | EmptyString => false
      end
  | BeginText => if pos =? 0 then k pos s else false
  | EndText => match s with EmptyString => k pos s | String _ _ => false end
  | Repeat n r1 =>
      (fix rep (m : nat) (p : nat) (t : string) {struct m} : bool :=
         match m with
         | 0 => k p t
         | S m' => matchK r1 p t (rep m')
         end) n pos s
  | Cat r1 r2 => matchK r1 pos s (fun p t => matchK r2 p t k)
  end.

Definition matchHere (r : node) (pos : nat) (s : string) : bool :=
  matchK r pos s (fun _ _ => true).

(** Unanchored search: a match may start at any offset. *)
Fixpoint searchFrom (r : node) (pos : nat) (s : string) : bool :=
  matchHere r pos s ||
  match s with
  | EmptyString => false
  | String _ s' => searchFrom r (S pos) s'
  end.

(** [regexp.MatchString]: [None] when the pattern is outside the modelled
    fragment, otherwise the pair (matched, err) the Go function returns. *)
Definition MatchString (pattern s : string) : option (bool * option error) :=
  match Compile pattern with
  | Ok r => Some (searchFrom r 0 s, None)
  | Err e => Some (false, Some e)
  | Unsupported => None
  end.

End Regexp.

(** The pattern literal of [isValidZipCode]. *)
Definition zipPattern : string := "^\d{8}$".

(** [isValidZipCode] (service-a/main.go): the error of [MatchString] is
    dropped and the boolean returned. *)
Definition isValidZipCode (zipCode : string) : bool :=
  match Regexp.MatchString zipPattern zipCode with
  | Some (matched, _) => matched
  | None => false
  end.

(** ** Go errors

    The [error] values the handlers can hold.  [ErrorText e] below stands
    for the text [e.Error()] prints. *)

Inductive goError : Type :=
| ErrEOF                                         (* io.EOF: empty body *)
| ErrJSONSyntax                                  (* *json.SyntaxError *)
| ErrUnmarshalType (value : string) (field : string)
                                                 (* *json.UnmarshalTypeError *)
| ErrUnsupportedValue                            (* *json.UnsupportedValueError *)
| ErrTransport (msg : string).                   (* *url.Error of client.Get *)

(** ** encoding/json

    JSON documents are modelled after parsing: [value] is the syntax tree
    and [JStr s] holds the decoded Go string.  [JNum f] is a number literal
    that [strconv.ParseFloat] maps to [f]; a literal out of the float64
    range is [JNum infinity] (ParseFloat returns an infinity with a range
    error there).  Key matching folds ASCII case only. *)

Module JSON.

#[warnings="-register-all"] Inductive value : Type :=
| JNull
| JBool (b : bool)
| JNum (f : float)
| JStr (s : string)
| JArr (l : list value)
| JObj (kvs : list (string * value)).

Definition kindOf (v : value) : string :=
  match v with
  | JNull => "null"
  | JBool _ => "bool"
  | JNum _ => "number"
  | JStr _ => "string"
  | JArr _ => "array"
  | JObj _ => "object"
  end.

Definition upperByte (c : ascii) : ascii :=
  let n := nat_of_ascii c in
  if (97 <=? n) && (n <=? 122) then ascii_of_nat (n - 32) else c.

(** [foldName]: the case-folded form under which field names are
    compared when no exact match exists. *)
Fixpoint foldName (s : string) : string :=
  match s with
  | EmptyString => EmptyString
  | String c s' => String (upperByte c) (foldName s')
  end.

(** A struct field as the decoder sees it: its JSON name and how a JSON
    value is stored into it. *)
Record field (T : Type) : Type := Field {
  fname : string;
  fstore : value -> T -> T * option goError
}.
Arguments Field {T} _ _.
Arguments fname {T} _.
Arguments fstore {T} _ _ _.

(** Exact name first, case-insensitive second. *)
Definition findField {T} (fields : list (field T)) (key : string) : option (field T) :=
  match List.find (fun f => String.eqb (fname f) key) fields with
  | Some f => Some f
  | None => List.find (fun f => String.eqb (foldName (fname f)) (foldName key)) fields
  end.

(** [saveError]: only the first error is kept. *)
Definition saveError (saved new : option goError) : option goError :=
  match saved with
  | Some e => Some e
  | None => new
  end.

(** Decoding an object into a struct: keys are processed in order,
    unknown keys are skipped, a type mismatch is saved and decoding goes
    on. *)
Definition decodeObject {T} (fields : list (field T))
           (kvs : list (string * value)) (init : T) : T * option goError :=
  fold_left
    (fun (acc : T * option goError) (kv : string * value) =>
       match findField fields (fst kv) with
       | Some f =>
           let '(t, e) := fstore f (snd kv) (fst acc) in
           (t, saveError (snd acc) e)
       | None => acc
       end)
    kvs (init, None).

(** [Unmarshal] of a document into a struct value. *)
Definition unmarshalStruct {T} (fields : list (field T)) (j : value) (init : T)
  : T * option goError :=
  match j with
  | JNull => (init, None)
  | JObj kvs => decodeObject fields kvs init
  | _ => (init, Some (ErrUnmarshalType (kindOf j) ""))
  end.

Definition storeString (name : string) (v : value) (cur : string)
  : string * option goError :=
  match v with
  | JStr s => (s, None)
  | JNull => (cur, None)
  | _ => (cur, Some (ErrUnmarshalType (kindOf v) name))
  end.

Definition storeFloat (name : string) (v : value) (cur : float)
  : float * option goError :=
  match v with
  | JNum f => if is_finite f then (f, None)
              else (cur, Some (ErrUnmarshalType "number" name))
  | JNull => (cur, None)
  | _ => (cur, Some (ErrUnmarshalType (kindOf v) name))
  end.

(** Encoding a float64: NaN and the infinities are not representable. *)
Definition encodeFloat (f : float) : option value :=
  if is_finite f then Some (JNum f) else None.

End JSON.

(** ** net/http *)

(** What a body's bytes are to a [json.Decoder]: a sequence of pieces,
    each either a line of text at whose first byte the decoder reports a
    syntax error, or a JSON value.  Every line [http.Error] writes in this
    program is such a text: none begins with white space, a digit, a quote,
    a bracket, a minus sign or a complete literal.  The empty body stands
    for a stream that ends before any value begins.  A document cut short
    in the middle, for which the decoder returns [io.ErrUnexpectedEOF], is
    not among the bodies represented. *)
Inductive message : Type :=
| Msg (s : string)
| ErrorText (e : goError).

Inductive chunk : Type :=
| ChunkText (m : message)      (* [fmt.Fprintln(w, m)] of [http.Error] *)
| ChunkJSON (j : JSON.value).  (* one encoded document and its newline *)

Definition Body : Type := list chunk.

(** [json.NewDecoder(body).Decode(&v)] for a struct target: the decoder
    reads the first value of the stream and leaves the rest. *)
Definition Decode {T} (fields : list (JSON.field T)) (body : Body) (init : T)
  : T * option goError :=
  match body with
  | [] => (init, Some ErrEOF)
  | ChunkText _ :: _ => (init, Some ErrJSONSyntax)
  | ChunkJSON j :: _ => JSON.unmarshalStruct fields j init
  end.

(** [http.Header] under the canonical key spelling. *)
Definition canonicalByte (up : bool) (c : ascii) : ascii :=
  let n := nat_of_ascii c in
  if up then (if (97 <=? n) && (n <=? 122) then ascii_of_nat (n - 32) else c)
  else (if (65 <=? n) && (n <=? 90) then ascii_of_nat (n + 32) else c).

Fixpoint canonicalFrom (up : bool) (s : string) : string :=
  match s with
  | EmptyString => EmptyString
  | String c s' => String (canonicalByte up c) (canonicalFrom (Ascii.eqb c "-") s')
  end.

(** [textproto.CanonicalMIMEHeaderKey] on keys made of token bytes. *)
Definition CanonicalMIMEHeaderKey (k : string) : string := canonicalFrom true k.

Definition Header_Get (h : gmap string (list string)) (key : string) : string :=
  match h !! CanonicalMIMEHeaderKey key with
  | Some (v :: _) => v
  | _ => ""
  end.

Definition Header_Set (h : gmap string (list string)) (key value : string)
  : gmap string (list string) :=
  <[CanonicalMIMEHeaderKey key := [value]]> h.

(** [url.Values.Get]: the first value of a key of the parsed query. *)
Fixpoint Query_Get (q : list (string * string)) (key : string) : string :=
  match q with
  | [] => ""
  | (k, v) :: q' => if String.eqb k key then v else Query_Get q' key
  end.

Definition hexDigitUpper (n : nat) : ascii :=
  if n <? 10 then ascii_of_nat (48 + n) else ascii_of_nat (55 + n).

Definition unreserved (c : ascii) : bool :=
  let n := nat_of_ascii c in
  ((97 <=? n) && (n <=? 122)) || ((65 <=? n) && (n <=? 90)) || isDigit c
  || existsb (Ascii.eqb c) (list_ascii_of_string "-_.~").

(** [url.QueryEscape]. *)
Fixpoint QueryEscape (s : string) : string :=
  match s with
  | EmptyString => EmptyString
  | String c s' =>
      if unreserved c then String c (QueryEscape s')
      else if Ascii.eqb c " " then String "+" (QueryEscape s')
      else String "%" (String (hexDigitUpper (nat_of_ascii c / 16))
                         (String (hexDigitUpper (nat_of_ascii c mod 16)) (QueryEscape s')))
  end.

(** The response a client reads. *)
Record Response : Type := mkResponse {
  StatusCode : nat;
  RespHeader : gmap string (list string);
  RespBody : Body
}.

(** [http.ResponseWriter]: the header map, whether the status line went
    out, with which status and header snapshot, and the bytes written.
    The snapshot holds the entries the handler had declared when the status
    was fixed.  The server may add entries of its own to what goes on the
    wire (a Date, a Content-Length, and, when the handler declared no
    Content-Type, one sniffed from the first bytes written, which is never
    application/json); those are not part of the snapshot. *)
Record ResponseWriter : Type := mkWriter {
  wHeader : gmap string (list string);
  wroteHeader : bool;
  wStatus : nat;
  wSent : gmap string (list string);
  wBody : Body
}.

Definition newWriter : ResponseWriter :=
  mkWriter ∅ false 0 ∅ [].

(** Informational codes other than 101 are sent at once and leave the
    final status open.  [WriteHeader] panics on a code outside 100..999,
    which a handler here can only be handed by a peer whose status line
    carries a code below 100; the model stores such a code like any other,
    so what it says of a relayed status is meant for codes in 100..999. *)
Definition informational (code : nat) : bool :=
  (100 <=? code) && (code <=? 199) && negb (code =? 101).

Definition WriteHeader (code : nat) (w : ResponseWriter) : ResponseWriter :=
  if wroteHeader w then w
  else if informational code then w
  else mkWriter (wHeader w) true code (wHeader w) (wBody w).

Definition Write (c : chunk) (w : ResponseWriter) : ResponseWriter :=
  let w1 := if wroteHeader w then w else WriteHeader 200 w in
  mkWriter (wHeader w1) (wroteHeader w1) (wStatus w1) (wSent w1) (wBody w1 ++ [c])%list.

Definition SetHeader (key value : string) (w : ResponseWriter) : ResponseWriter :=
  mkWriter (Header_Set (wHeader w) key value) (wroteHeader w) (wStatus w) (wSent w) (wBody w).

(** [http.Error(w, error, code)]. *)
Definition http_Error (w : ResponseWriter) (m : message) (code : nat) : ResponseWriter :=
  let w1 := SetHeader "Content-Type" "text/plain; charset=utf-8" w in
  let w2 := SetHeader "X-Content-Type-Options" "nosniff" w1 in
  Write (ChunkText m) (WriteHeader code w2).

(** [json.NewEncoder(w).Encode(v)], given the result of marshalling [v]:
    nothing is written when marshalling fails. *)
Definition Encode (marshalled : option JSON.value) (w : ResponseWriter) : ResponseWriter :=
  match marshalled with
  | Some j => Write (ChunkJSON j) w
  | None => w
  end.

(** The response the server sends once the handler has returned. *)
Definition finish (w : ResponseWriter) : Response :=
  if wroteHeader w then mkResponse (wStatus w) (wSent w) (wBody w)
  else mkResponse 200 (wHeader w) (wBody w).

Definition StatusOK : nat := 200.
Definition StatusBadRequest : nat := 400.
Definition StatusNotFound : nat := 404.
Definition StatusMethodNotAllowed : nat := 405.
Definition StatusPreconditionFailed : nat := 412.
Definition StatusInternalServerError : nat := 500.

(** ** OpenTelemetry: span contexts and the W3C trace-context propagator

    A trace id is represented by the 32 lowercase hexadecimal digits its
    [String()] prints, a span id by 16.  The [tracestate] header is not
    modelled: no handler reads it. *)

Definition isLowerHex (c : ascii) : bool :=
  let n := nat_of_ascii c in
  isDigit c || ((97 <=? n) && (n <=? 102)).

Fixpoint allLowerHex (s : string) : bool :=
  match s with
  | EmptyString => true
  | String c s' => isLowerHex c && allLowerHex s'
  end.

Fixpoint allZero (s : string) : bool :=
  match s with
  | EmptyString => true
  | String c s' => Ascii.eqb c "0" && allZero s'
  end.

Definition hexPart (n : nat) (s : string) : bool :=
  (String.length s =? n) && allLowerHex s.

Definition hexVal (c : ascii) : nat :=
  let n := nat_of_ascii c in
  if isDigit c then n - 48 else n - 87.

Fixpoint hexValue (acc : nat) (s : string) : nat :=
  match s with
  | EmptyString => acc
  | String c s' => hexValue (16 * acc + hexVal c) s'
  end.

Record SpanContext : Type := mkSpanContext {
  TraceID : string;
  SpanID : string;
  Sampled : bool;
  Remote : bool
}.

Definition zeroTraceID : string := "00000000000000000000000000000000".
Definition zeroSpanID : string := "0000000000000000".

(** [trace.SpanContext{}] *)
Definition emptySpanContext : SpanContext :=
  mkSpanContext zeroTraceID zeroSpanID false false.

Definition IsValid (sc : SpanContext) : bool :=
  (hexPart 32 (TraceID sc) && negb (allZero (TraceID sc)))
  && (hexPart 16 (SpanID sc) && negb (allZero (SpanID sc))).

(** A [context.Context], reduced to the span it carries. *)
Record Context : Type := mkContext { currentSpan : SpanContext }.

(** [context.Background()] *)
Definition Background : Context := mkContext emptySpanContext.

(** [strings.Cut(h, "-")] *)
Fixpoint cut (h : string) : string * string :=
  match h with
  | EmptyString => (EmptyString, EmptyString)
  | String c h' =>
      if Ascii.eqb c "-" then (EmptyString, h')
      else let '(part, rest) := cut h' in (String c part, rest)
  end.

Definition extractPart (n : nat) (h : string) : option (string * string) :=
  let '(part, rest) := cut h in
  if hexPart n part then Some (part, rest) else None.

Definition traceparentHeader : string := "traceparent".

(** [TraceContext.extract] *)
Definition extract (carrier : gmap string (list string)) : SpanContext :=
  let h := Header_Get carrier traceparentHeader in
  if String.eqb h "" then emptySpanContext else
  match extractPart 2 h with
  | None => emptySpanContext
  | Some (ver, h1) =>
      let version := hexValue 0 ver in
      if 254 <? version then emptySpanContext else
      match extractPart 32 h1 with
      | None => emptySpanContext
      | Some (tid, h2) =>
          match extractPart 16 h2 with
          | None => emptySpanContext
          | Some (sid, h3) =>
              match extractPart 2 h3 with
              | None => emptySpanContext
              | Some (opts, h4) =>
                  let flags := hexValue 0 opts in
                  if (version =? 0) && (negb (String.eqb h4 "") || (2 <? flags))
                  then emptySpanContext
                  else
                    let sc := mkSpanContext tid sid (Nat.odd flags) true in
                    if IsValid sc then sc else emptySpanContext
              end
          end
      end
  end.

(** [TraceContext.Extract]: an invalid or absent header leaves the context
    as it is. *)
Definition Extract (ctx : Context) (carrier : gmap string (list string)) : Context :=
  let sc := extract carrier in
  if IsValid sc then mkContext sc else ctx.

(** [TraceContext.Inject]: the traceparent entry.  The real propagator
    also writes the tracestate entry when the span context carries a
    non-empty trace state; that entry is outside this model, and nothing
    here speaks about it. *)
Definition Inject (ctx : Context) (carrier : gmap string (list string))
  : gmap string (list string) :=
  let sc := currentSpan ctx in
  if IsValid sc then
    Header_Set carrier traceparentHeader
      ("00-" ++ TraceID sc ++ "-" ++ SpanID sc ++ "-" ++ (if Sampled sc then "01" else "00"))
  else carrier.

(** The SDK's id generator.  [stream] lists the outcomes of its random
    source in the order they are drawn: a trace id and a span id at each
    draw. *)
Record IDGenerator : Type := mkIDGenerator {
  stream : nat -> string * string;
  drawn : nat
}.

Definition NewIDs (g : IDGenerator) : (string * string) * IDGenerator :=
  (stream g (drawn g), mkIDGenerator (stream g) (S (drawn g))).

Definition NewSpanID (g : IDGenerator) : string * IDGenerator :=
  (snd (stream g (drawn g)), mkIDGenerator (stream g) (S (drawn g))).

(** The span context of a span started under [parent]: the trace of a
    valid parent is continued with the parent's sampling decision, anything
    else starts a sampled root. *)
Definition newSpanContext (parent : SpanContext) (g : IDGenerator)
  : SpanContext * IDGenerator :=
  if IsValid parent then
    let p := NewSpanID g in
    (mkSpanContext (TraceID parent) (fst p) (Sampled parent) false, snd p)
  else
    let p := NewIDs g in
    (mkSpanContext (fst (fst p)) (snd (fst p)) true false, snd p).

(** ** Process state and observable events *)

Inductive target : Type :=
| Downstream          (* the resolution service, called by the entry service *)
| LocationProvider    (* viacep *)
| WeatherProvider.    (* weatherapi *)

(** A span object: the span context it exposes, and the number of the id
    draw that created it, which tells two span objects apart even when the
    random source repeats an id. *)
Record Span : Type := mkSpan {
  spanHandle : nat;
  spanContext : SpanContext
}.

Inductive Event : Type :=
| SpanStarted (name : string) (sp : Span) (parent : SpanContext)
| SpanEnded (sp : Span)
| RequestSent (t : target) (url : string) (hdr : gmap string (list string))
| ResponseReceived (t : target) (res : goError + Response)
| BodyClosed (t : target).

(** The state of one service process: the id generator of its tracer
    provider and the events so far, oldest first. *)
Record State : Type := mkState {
  idgen : IDGenerator;
  log : list Event
}.

Definition M (A : Type) : Type := State -> A * State.

Definition ret {A} (a : A) : M A := fun st => (a, st).

Definition bind {A B} (m : M A) (k : A -> M B) : M B :=
  fun st => let '(a, st') := m st in k a st'.

Declare Scope go_scope.
Delimit Scope go_scope with go.
Notation "x <- m ;; k" := (bind m (fun x => k))
  (at level 90, m at next level, right associativity) : go_scope.
Notation "m ;;; k" := (bind m (fun _ => k))
  (at level 90, right associativity) : go_scope.
Open Scope go_scope.

Definition emit (e : Event) : M unit :=
  fun st => (tt, mkState (idgen st) (log st ++ [e])%list).

(** [defer d]: [d] runs when the rest of the function body has produced
    its result, whichever return statement produced it. *)
Definition withDefer {A} (d : M unit) (body : M A) : M A :=
  a <- body ;; d ;;; ret a.

(** [tracer.Start(ctx, name)] *)
Definition tracer_Start (ctx : Context) (name : string) : M (Context * Span) :=
  fun st =>
    let p := newSpanContext (currentSpan ctx) (idgen st) in
    let sp := mkSpan (drawn (idgen st)) (fst p) in
    ((mkContext (fst p), sp),
     mkState (snd p) (log st ++ [SpanStarted name sp (currentSpan ctx)])%list).

(** [span.End()] *)
Definition span_End (sp : Span) : M unit := emit (SpanEnded sp).

(** A span the otelhttp wrappers start on their own: ids are drawn from
    the same provider; these spans are not part of the handler's log. *)
Definition otelhttp_span (ctx : Context) : M Context :=
  fun st =>
    let p := newSpanContext (currentSpan ctx) (idgen st) in
    (mkContext (fst p), mkState (snd p) (log st)).

(** An inbound request as the handler sees it. *)
Record Request : Type := mkRequest {
  Method : string;
  ReqHeader : gmap string (list string);
  Query : list (string * string);
  ReqBody : Body;
  ReqContext : Context
}.

(** [otelhttp.NewHandler(h, name)]: the server span continues the trace
    of the inbound headers, if any, and becomes the request's context. *)
Definition otelhttp_NewHandler {A} (h : Request -> M A) (r : Request) : M A :=
  ctx <- otelhttp_span (Extract (ReqContext r) (ReqHeader r)) ;;
  h (mkRequest (Method r) (ReqHeader r) (Query r) (ReqBody r) ctx).

(** [viper.GetString] of the environment the handlers read. *)
Record Config : Type := mkConfig { REQUEST_NAME_OTEL : string }.

(** [client.Get(url)] over a plain [http.Transport]: no header is added.
    [server] is the remote end: what the call to a URL returns.
    [RequestSent] records the call with the URL it was given.  A URL that
    [http.NewRequest] cannot parse (a malformed percent escape or a control
    byte in the path) makes the real call return the parse error before
    anything reaches the network; here that case is one of the errors
    [server] may return, and its [RequestSent] event stands for the attempt
    alone. *)
Definition client_Get (t : target) (server : string -> goError + Response)
           (url : string) : M (goError + Response) :=
  emit (RequestSent t url ∅) ;;;
  let res := server url in
  emit (ResponseReceived t res) ;;;
  ret res.

(** [client.Get(url)] over [otelhttp.NewTransport]: the request is built by
    [http.NewRequest], so its context is [context.Background()]; the
    transport starts its span from that context and injects it into the
    outbound headers. *)
Definition client_Get_otel (t : target)
           (server : string -> gmap string (list string) -> goError + Response)
           (url : string) : M (goError + Response) :=
  ctx <- otelhttp_span Background ;;
  let hdr := Inject ctx ∅ in
  emit (RequestSent t url hdr) ;;;
  let res := server url hdr in
  emit (ResponseReceived t res) ;;;
  ret res.

Definition isErr (err : option goError) : bool :=
  match err with Some _ => true | None => false end.

Definition withHeader (r : Request) (h : gmap string (list string)) : Request :=
  mkRequest (Method r) h (Query r) (ReqBody r) (ReqContext r).

(** ** The resolution service (service B) *)

Module ServiceB.

Record LocationInfoAndCity : Type := mkLocationInfoAndCity {
  City : string;
  TempC : float;
  TempF : float;
  TempK : float
}.

Record LocationInfo : Type := mkLocationInfo { Localidade : string }.

Record CurrentInfo : Type := mkCurrentInfo { Temperature : float }.

Record WeatherInfo : Type := mkWeatherInfo { Current : CurrentInfo }.

Definition zeroWeatherInfo : WeatherInfo := mkWeatherInfo (mkCurrentInfo 0%float).

Definition locationFields : list (JSON.field LocationInfo) :=
  [ JSON.Field "localidade"
      (fun v l => let '(s, e) := JSON.storeString "LocationInfo.localidade" v (Localidade l)
                  in (mkLocationInfo s, e)) ].

Definition currentFields : list (JSON.field CurrentInfo) :=
  [ JSON.Field "temp_c"
      (fun v c => let '(f, e) := JSON.storeFloat "WeatherInfo.current.temp_c" v (Temperature c)
                  in (mkCurrentInfo f, e)) ].

Definition weatherFields : list (JSON.field WeatherInfo) :=
  [ JSON.Field "current"
      (fun v w =>
         match v with
         | JSON.JObj kvs =>
             let '(c, e) := JSON.decodeObject currentFields kvs (Current w) in
             (mkWeatherInfo c, e)
         | JSON.JNull => (w, None)
         | _ => (w, Some (ErrUnmarshalType (JSON.kindOf v) "WeatherInfo.current"))
         end) ].

(** [json.Marshal] of a [LocationInfoAndCity]. *)
Definition marshal (r : LocationInfoAndCity) : option JSON.value :=
  match JSON.encodeFloat (TempC r), JSON.encodeFloat (TempF r), JSON.encodeFloat (TempK r) with
  | Some c, Some f, Some k =>
      Some (JSON.JObj [("city", JSON.JStr (City r)); ("temp_C", c); ("temp_F", f); ("temp_K", k)])
  | _, _, _ => None
  end.

(** The two providers: what a GET of a URL returns. *)
Record Providers : Type := mkProviders {
  viacep : string -> goError + Response;
  weatherapi : string -> goError + Response
}.

Definition locationURL (zipCode : string) : string :=
  "https://viacep.com.br/ws/" ++ zipCode ++ "/json/".

Definition weatherURL (city : string) : string :=
  "https://api.weatherapi.com/v1/current.json?key=6c0e6aefacc44ed0a69130616242705&q="
  ++ QueryEscape city.

(** [getLocation] once a response is there: the decoding of its body. *)
Definition decodeLocation (resp : Response) : string * option goError :=
  let '(location, err) := Decode locationFields (RespBody resp) (mkLocationInfo "") in
  match err with
  | Some e => ("", Some e)
  | None => (Localidade location, None)
  end.

Definition decodeWeather (resp : Response) : WeatherInfo * option goError :=
  let '(weather, err) := Decode weatherFields (RespBody resp) zeroWeatherInfo in
  match err with
  | Some e => (zeroWeatherInfo, Some e)
  | None => (weather, None)
  end.

(** The part of [getLocation] after [client.Get] has returned. *)
Definition locationResult (res : goError + Response) : M (string * option goError) :=
  match res with
  | inl err => ret ("", Some err)
  | inr resp => withDefer (emit (BodyClosed LocationProvider)) (ret (decodeLocation resp))
  end.

Definition weatherResult (res : goError + Response) : M (WeatherInfo * option goError) :=
  match res with
  | inl err => ret (zeroWeatherInfo, Some err)
  | inr resp => withDefer (emit (BodyClosed WeatherProvider)) (ret (decodeWeather resp))
  end.

(** The values [getLocation] and [getWeather] return for a reply. *)
Definition locationValue (res : goError + Response) : string * option goError :=
  match res with
  | inl err => ("", Some err)
  | inr resp => decodeLocation resp
  end.

Definition weatherValue (res : goError + Response) : WeatherInfo * option goError :=
  match res with
  | inl err => (zeroWeatherInfo, Some err)
  | inr resp => decodeWeather resp
  end.

(** [getLocation] (instrumented service B) *)
Definition getLocation (env : Providers) (ctx : Context) (zipCode : string)
  : M (string * option goError) :=
  p <- tracer_Start ctx "Chamada externa: getLocation" ;;
  let span := snd p in
  withDefer (span_End span)
    (let url := locationURL zipCode in
     res <- client_Get LocationProvider (viacep env) url ;;
     locationResult res).

(** [getWeather] (instrumented service B) *)
Definition getWeather (env : Providers) (ctx : Context) (city : string)
  : M (WeatherInfo * option goError) :=
  p <- tracer_Start ctx "Chamada externa: getWeather" ;;
  let span := snd p in
  withDefer (span_End span)
    (let completeUrl := weatherURL city in
     res <- client_Get WeatherProvider (weatherapi env) completeUrl ;;
     weatherResult res).

(** The composed response of [temperatureHandler].  The arithmetic is
    binary64 with a rounding after each operation (the product is not
    fused with the sum); [1.8] is the float64 nearest to the constant. *)
Definition response2 (city : string) (weather : WeatherInfo) : LocationInfoAndCity :=
  let tempC := Temperature (Current weather) in
  let tempF := (tempC * 1.8 + 32)%float in
  let tempK := (tempC + 273)%float in
  mkLocationInfoAndCity city tempC tempF tempK.

(** [temperatureHandler] (instrumented service B).  The result is the
    response writer and the request, whose header map [Inject] updates. *)
Definition temperatureHandler (cfg : Config) (env : Providers)
           (w : ResponseWriter) (r : Request) : M (ResponseWriter * Request) :=
  let carrier := ReqHeader r in
  let ctx := ReqContext r in
  let ctx := Extract ctx carrier in
  p <- tracer_Start ctx ("SPAN_INICIAL " ++ REQUEST_NAME_OTEL cfg) ;;
  let ctx := fst p in
  let spanInicial := snd p in
  span_End spanInicial ;;;
  let r := withHeader r (Inject ctx (ReqHeader r)) in
  let zipCode := Query_Get (Query r) "zipcode" in
  if negb (String.length zipCode =? 8) then
    ret (http_Error w (Msg "invalid zipcode") StatusPreconditionFailed, r)
  else
    p <- getLocation env ctx zipCode ;;
    let city := fst p in
    let err := snd p in
    if isErr err || String.eqb city "" then
      ret (http_Error w (Msg "can not find zipcode") StatusNotFound, r)
    else
      p <- getWeather env ctx city ;;
      let weather := fst p in
      let err := snd p in
      if isErr err then
        ret (http_Error w (Msg "failed to get weather info") StatusInternalServerError, r)
      else
        let w := SetHeader "Content-Type" "application/json" w in
        ret (Encode (marshal (response2 city weather)) w, r).

End ServiceB.

(** ** The resolution service without tracing calls (service-b/main.go)

    The [fmt.Println] lines of this variant write to standard output only
    and are left out. *)

Module ServiceBPlain.

Import ServiceB.

Definition getLocation (env : Providers) (zipCode : string) : M (string * option goError) :=
  let url := locationURL zipCode in
  res <- client_Get LocationProvider (viacep env) url ;;
  locationResult res.

Definition getWeather (env : Providers) (city : string) : M (WeatherInfo * option goError) :=
  let completeUrl := weatherURL city in
  res <- client_Get WeatherProvider (weatherapi env) completeUrl ;;
  weatherResult res.

Definition temperatureHandler (env : Providers) (w : ResponseWriter) (r : Request)
  : M ResponseWriter :=
  let zipCode := Query_Get (Query r) "zipcode" in
  if negb (String.length zipCode =? 8) then
    ret (http_Error w (Msg "invalid zipcode") 422)
  else
    p <- getLocation env zipCode ;;
    let city := fst p in
    let err := snd p in
    if isErr err || String.eqb city "" then
      ret (http_Error w (Msg "can not find zipcode") 404)
    else
      p <- getWeather env city ;;
      let weather := fst p in
      let err := snd p in
      if isErr err then
        ret (http_Error w (Msg "failed to get weather info") 500)
      else
        let w := SetHeader "Content-Type" "application/json" w in
        ret (Encode (marshal (response2 city weather)) w).

End ServiceBPlain.

(** ** The entry service (service A) *)

Module ServiceA.

Record ZipCodeRequest : Type := mkZipCodeRequest { CEP : string }.

Record ZipCodeResponse : Type := mkZipCodeResponse {
  City : string;
  TempC : float;
  TempF : float;
  TempK : float
}.

Definition zeroZipCodeResponse : ZipCodeResponse :=
  mkZipCodeResponse "" 0%float 0%float 0%float.

Definition requestFields : list (JSON.field ZipCodeRequest) :=
  [ JSON.Field "cep"
      (fun v q => let '(s, e) := JSON.storeString "ZipCodeRequest.cep" v (CEP q)
                  in (mkZipCodeRequest s, e)) ].

Definition responseFields : list (JSON.field ZipCodeResponse) :=
  [ JSON.Field "city"
      (fun v z => let '(s, e) := JSON.storeString "ZipCodeResponse.city" v (City z)
                  in (mkZipCodeResponse s (TempC z) (TempF z) (TempK z), e));
    JSON.Field "temp_C"
      (fun v z => let '(f, e) := JSON.storeFloat "ZipCodeResponse.temp_C" v (TempC z)
                  in (mkZipCodeResponse (City z) f (TempF z) (TempK z), e));
    JSON.Field "temp_F"
      (fun v z => let '(f, e) := JSON.storeFloat "ZipCodeResponse.temp_F" v (TempF z)
                  in (mkZipCodeResponse (City z) (TempC z) f (TempK z), e));
    JSON.Field "temp_K"
      (fun v z => let '(f, e) := JSON.storeFloat "ZipCodeResponse.temp_K" v (TempK z)
                  in (mkZipCodeResponse (City z) (TempC z) (TempF z) f, e)) ].

(** [json.Marshal] of a [ZipCodeResponse]. *)
Definition marshal (z : ZipCodeResponse) : option JSON.value :=
  match JSON.encodeFloat (TempC z), JSON.encodeFloat (TempF z), JSON.encodeFloat (TempK z) with
  | Some c, Some f, Some k =>
      Some (JSON.JObj [("city", JSON.JStr (City z)); ("temp_C", c); ("temp_F", f); ("temp_K", k)])
  | _, _, _ => None
  end.

(** The downstream endpoint: what a GET of a URL with the given headers
    returns. *)
Definition Downstream_t : Type := string -> gmap string (list string) -> goError + Response.

Definition downstreamURL (cep : string) : string :=
  "http://service-b:8081/zipcode?zipcode=" ++ cep.

(** [zipCodeHandler] once a downstream response is there. *)
Definition relayResponse (w : ResponseWriter) (resp : Response) : ResponseWriter :=
  if StatusCode resp =? StatusNotFound then
    http_Error w (Msg "can not find zipcode") StatusNotFound
  else
    let '(zipCodeResponse, err) :=
      Decode responseFields (RespBody resp) zeroZipCodeResponse in
    match err with
    | Some e => http_Error w (ErrorText e) StatusInternalServerError
    | None =>
        let w := WriteHeader (StatusCode resp) w in
        let w := SetHeader "Content-Type" "application/json" w in
        Encode (marshal zipCodeResponse) w
    end.

(** The part of [zipCodeHandler] after [client.Get] has returned. *)
Definition relay (w : ResponseWriter) (res : goError + Response) : M ResponseWriter :=
  match res with
  | inl err => ret (http_Error w (ErrorText err) StatusInternalServerError)
  | inr resp => withDefer (emit (BodyClosed Downstream)) (ret (relayResponse w resp))
  end.

(** The writer [relay] returns for a reply. *)
Definition relayValue (w : ResponseWriter) (res : goError + Response) : ResponseWriter :=
  match res with
  | inl err => http_Error w (ErrorText err) StatusInternalServerError
  | inr resp => relayResponse w resp
  end.

(** [zipCodeHandler] (instrumented service A).  The result is the response
    writer and the request, whose header map [Inject] updates. *)
Definition zipCodeHandler (cfg : Config) (serviceB : Downstream_t)
           (w : ResponseWriter) (r : Request) : M (ResponseWriter * Request) :=
  let carrier := ReqHeader r in
  let ctx := ReqContext r in
  let ctx := Extract ctx carrier in
  p <- tracer_Start ctx ("SPAN_INICIAL " ++ REQUEST_NAME_OTEL cfg) ;;
  let ctx := fst p in
  let spanInicial := snd p in
  span_End spanInicial ;;;
  let r := withHeader r (Inject ctx (ReqHeader r)) in
  if negb (String.eqb (Method r) "POST") then
    ret (http_Error w (Msg "Only POST method is allowed") StatusMethodNotAllowed, r)
  else
    let '(req, err) := Decode requestFields (ReqBody r) (mkZipCodeRequest "") in
    match err with
    | Some e => ret (http_Error w (ErrorText e) StatusBadRequest, r)
    | None =>
        if negb (isValidZipCode (CEP req)) then
          ret (http_Error w (Msg "invalid zipcode") StatusPreconditionFailed, r)
        else
          p <- tracer_Start ctx "Chamada externa: getTemperatureByZipCode" ;;
          let span := snd p in
          withDefer (span_End span)
            (let url := downstreamURL (CEP req) in
             res <- client_Get_otel Downstream serviceB url ;;
             w' <- relay w res ;;
             ret (w', r))
    end.

End ServiceA.

(** ** The entry service without tracing calls (second file of service A)

    This variant installs no tracer provider and no propagator, so the
    otelhttp transport of its client adds no header to the request. *)

Module ServiceAPlain.

Import ServiceA.

Definition relayResponse (w : ResponseWriter) (resp : Response) : ResponseWriter :=
  let '(zipCodeResponse, err) :=
    Decode responseFields (RespBody resp) zeroZipCodeResponse in
  match err with
  | Some e => http_Error w (ErrorText e) StatusInternalServerError
  | None =>
      let w := WriteHeader (StatusCode resp) w in
      let w := SetHeader "Content-Type" "application/json" w in
      Encode (marshal zipCodeResponse) w
  end.

Definition relay (w : ResponseWriter) (res : goError + Response) : M ResponseWriter :=
  match res with
  | inl err => ret (http_Error w (ErrorText err) StatusInternalServerError)
  | inr resp => withDefer (emit (BodyClosed Downstream)) (ret (relayResponse w resp))
  end.

Definition zipCodeHandler (serviceB : Downstream_t) (w : ResponseWriter) (r : Request)
  : M ResponseWriter :=
  if negb (String.eqb (Method r) "POST") then
    ret (http_Error w (Msg "Only POST method is allowed") StatusMethodNotAllowed)
  else
    let '(req, err) := Decode requestFields (ReqBody r) (mkZipCodeRequest "") in
    match err with
    | Some e => ret (http_Error w (ErrorText e) StatusBadRequest)
    | None =>
        if negb (isValidZipCode (CEP req)) then
          ret (http_Error w (Msg "invalid zipcode") 422)
        else
          let url := downstreamURL (CEP req) in
          res <- client_Get Downstream (fun u => serviceB u ∅) url ;;
          relay w res
    end.

End ServiceAPlain.

(** ** The two services wired together *)

(** [url.ParseQuery] of the raw query, for keys and values that need no
    unescaping. *)
Fixpoint parseQuery (s : string) (cur : string) (key : option string)
  : list (string * string) :=
  match s with
  | EmptyString =>
      match key with
      | Some k => [(k, cur)]
      | None => if String.eqb cur "" then [] else [(cur, "")]
      end
  | String c s' =>
      if Ascii.eqb c "&" then
        match key with
        | Some k => (k, cur) :: parseQuery s' "" None
        | None => if String.eqb cur "" then parseQuery s' "" None
                  else (cur, "") :: parseQuery s' "" None
        end
      else if Ascii.eqb c "=" then
        match key with
        | None => parseQuery s' "" (Some cur)
        | Some _ => parseQuery s' (cur ++ String c "") key
        end
      else parseQuery s' (cur ++ String c "") key
  end.

Fixpoint rawQuery (url : string) : string :=
  match url with
  | EmptyString => EmptyString
  | String c url' => if Ascii.eqb c "?" then url' else rawQuery url'
  end.

(** The request service B's server hands to its handler for a GET of
    [url] with headers [hdr]. *)
Definition inbound (url : string) (hdr : gmap string (list string)) : Request :=
  mkRequest "GET" hdr (parseQuery (rawQuery url) "" None) [] Background.

Definition initState (s : nat -> string * string) : State :=
  mkState (mkIDGenerator s 0) [].

(** Service B as service A's downstream endpoint: the handler registered
    in [main], run in B's own process. *)
Definition serviceB_run (cfgB : Config) (envB : ServiceB.Providers)
           (streamB : nat -> string * string)
           (url : string) (hdr : gmap string (list string))
  : (ResponseWriter * Request) * State :=
  otelhttp_NewHandler (ServiceB.temperatureHandler cfgB envB newWriter)
    (inbound url hdr) (initState streamB).

Definition serviceB_endpoint (cfgB : Config) (envB : ServiceB.Providers)
           (streamB : nat -> string * string) : ServiceA.Downstream_t :=
  fun url hdr => inr (finish (fst (fst (serviceB_run cfgB envB streamB url hdr)))).

(** Service A's handler as registered in [main]. *)
Definition serviceA_run (cfgA : Config) (serviceB : ServiceA.Downstream_t)
           (streamA : nat -> string * string) (r : Request)
  : (ResponseWriter * Request) * State :=
  otelhttp_NewHandler (ServiceA.zipCodeHandler cfgA serviceB newWriter) r (initState streamA).

Fixpoint hasPrefix (p s : string) : bool :=
  match p, s with
  | EmptyString, _ => true
  | String a p', String b s' => Ascii.eqb a b && hasPrefix p' s'
  | String _ _, EmptyString => false
  end.

(** The trace id a handler works under: that of its receipt-marker span. *)
Fixpoint observedTraceID (l : list Event) : option string :=
  match l with
  | [] => None
  | SpanStarted name sp _ :: l' =>
      if hasPrefix "SPAN_INICIAL " name then Some (TraceID (spanContext sp))
      else observedTraceID l'
  | _ :: l' => observedTraceID l'
  end.

(** The outbound request to the downstream endpoint, if one was sent. *)
Fixpoint sentDownstream (l : list Event) : option (string * gmap string (list string)) :=
  match l with
  | [] => None
  | RequestSent Downstream url hdr :: _ => Some (url, hdr)
  | _ :: l' => sentDownstream l'
  end.

(** The events of a log that are outbound requests. *)
Definition isRequestSent (e : Event) : bool :=
  match e with RequestSent _ _ _ => true | _ => false end.

Definition requestsSent (l : list Event) : list Event := List.filter isRequestSent l.

Definition hexDigitLower (n : nat) : ascii :=
  if n <? 10 then ascii_of_nat (48 + n) else ascii_of_nat (87 + n).

Fixpoint hexPad (width n : nat) (acc : string) : string :=
  match width with
  | 0 => acc
  | S w => hexPad w (n / 16) (String (hexDigitLower (n mod 16)) acc)
  end.

(** A random source whose [n]-th draw is the number [base + n]. *)
Definition counterStream (base : nat) (n : nat) : string * string :=
  (hexPad 32 (base + n) "", hexPad 16 (base + n) "").

(** ** Reference values used in the statements *)

(** The syntax tree of [zipPattern]. *)
Definition zipRe : Regexp.node :=
  Regexp.Cat (Regexp.Cat Regexp.BeginText (Regexp.Repeat 8 Regexp.Digit)) Regexp.EndText.

Definition isEmptyString (s : string) : bool :=
  match s with EmptyString => true | String _ _ => false end.

Definition isEmptyList {A} (l : list A) : bool :=
  match l with [] => true | _ :: _ => false end.

(** ** Traces: the events a run appends to the log *)

Definition closeEvents (t : target) (res : goError + Response) : list Event :=
  match res with
  | inl _ => []
  | inr _ => [BodyClosed t]
  end.

(** The events of one remote call wrapped in a span of its own. *)
Definition callEvents (name : string) (t : target) (sp : Span) (parent : SpanContext)
           (url : string) (hdr : gmap string (list string)) (res : goError + Response)
  : list Event :=
  ([SpanStarted name sp parent; RequestSent t url hdr; ResponseReceived t res]
     ++ closeEvents t res ++ [SpanEnded sp])%list.

(** Events of a given span object. *)
Definition isEndOf (h : nat) (e : Event) : bool :=
  match e with
  | SpanEnded sp => spanHandle sp =? h
  | _ => false
  end.

Definition endsOf (h : nat) (l : list Event) : nat := List.length (List.filter (isEndOf h) l).

Definition isStartOf (h : nat) (e : Event) : bool :=
  match e with
  | SpanStarted _ sp _ => spanHandle sp =? h
  | _ => false
  end.

Definition startsOf (h : nat) (l : list Event) : nat :=
  List.length (List.filter (isStartOf h) l).

(** Every span started in [evs] is ended exactly once in [evs], after its
    start. *)
Definition endedOnce (evs : list Event) : Prop :=
  forall pre name sp parent post,
    evs = (pre ++ SpanStarted name sp parent :: post)%list ->
    endsOf (spanHandle sp) pre = 0 /\ endsOf (spanHandle sp) post = 1.

Definition memb (h : nat) (l : list nat) : bool := existsb (Nat.eqb h) l.

Definition removeb (h : nat) (l : list nat) : list nat :=
  List.filter (fun x => negb (x =? h)) l.

Definition disjointb (open closed : list nat) : Prop :=
  forall x, memb x open = true -> memb x closed = false.

(** A checker for [endedOnce]: [open] holds the spans started and not yet
    ended, [closed] those already ended. *)
Fixpoint spansClosed (open closed : list nat) (l : list Event) : bool :=
  match l with
  | [] => isEmptyList open
  | SpanStarted _ sp _ :: l' =>
      negb (memb (spanHandle sp) open) && negb (memb (spanHandle sp) closed)
      && spansClosed (spanHandle sp :: open) closed l'
  | SpanEnded sp :: l' =>
      memb (spanHandle sp) open
      && spansClosed (removeb (spanHandle sp) open) (spanHandle sp :: closed) l'
  | _ :: l' => spansClosed open closed l'
  end.

(** Every request to the weather provider comes after a reply of the
    location provider. *)
Definition locationBeforeWeather (evs : list Event) : Prop :=
  forall pre url hdr post,
    evs = (pre ++ RequestSent WeatherProvider url hdr :: post)%list ->
    exists res, In (ResponseReceived LocationProvider res) pre.

Fixpoint weatherAfterLocation (seen : bool) (l : list Event) : bool :=
  match l with
  | [] => true
  | ResponseReceived LocationProvider _ :: l' => weatherAfterLocation true l'
  | RequestSent WeatherProvider _ _ :: l' => seen && weatherAfterLocation seen l'
  | _ :: l' => weatherAfterLocation seen l'
  end.

Definition isRequestTo (t : target) (e : Event) : bool :=
  match e, t with
  | RequestSent Downstream _ _, Downstream => true
  | RequestSent LocationProvider _ _, LocationProvider => true
  | RequestSent WeatherProvider _ _, WeatherProvider => true
  | _, _ => false
  end.

Definition requestsTo (t : target) (l : list Event) : list Event :=
  List.filter (isRequestTo t) l.

(** The span object [tracer.Start] creates in a state, and the generator
    it leaves behind. *)
Definition startSpan (ctx : Context) (g : IDGenerator) : Span :=
  mkSpan (drawn g) (fst (newSpanContext (currentSpan ctx) g)).

Definition afterStart (ctx : Context) (g : IDGenerator) : IDGenerator :=
  snd (newSpanContext (currentSpan ctx) g).

Definition markerName (cfg : Config) : string := "SPAN_INICIAL " ++ REQUEST_NAME_OTEL cfg.

(** The receipt marker both handlers open and close at once. *)
Definition markerEvents (cfg : Config) (sp : Span) (parent : SpanContext) : list Event :=
  [SpanStarted (markerName cfg) sp parent; SpanEnded sp].

(** The context a handler works under after its marker span. *)
Definition handlerContext (r : Request) (g : IDGenerator) : Context :=
  mkContext (spanContext (startSpan (Extract (ReqContext r) (ReqHeader r)) g)).

Definition handlerRequest (r : Request) (g : IDGenerator) : Request :=
  withHeader r (Inject (handlerContext r g) (ReqHeader r)).

Definition handlerGen (r : Request) (g : IDGenerator) : IDGenerator :=
  afterStart (Extract (ReqContext r) (ReqHeader r)) g.

Definition handlerMarker (cfg : Config) (r : Request) (g : IDGenerator) : list Event :=
  markerEvents cfg (startSpan (Extract (ReqContext r) (ReqHeader r)) g)
    (currentSpan (Extract (ReqContext r) (ReqHeader r))).

(** The request body as [zipCodeHandler] decodes it. *)
Definition decodedRequest (r : Request) : ServiceA.ZipCodeRequest * option goError :=
  Decode ServiceA.requestFields (ReqBody r) (ServiceA.mkZipCodeRequest "").

(** The outbound headers of the otelhttp transport: the context of a root
    span drawn from generator [g], injected into an empty header map. *)
Definition transportHeader (g : IDGenerator) : gmap string (list string) :=
  Inject (mkContext (fst (newSpanContext (currentSpan Background) g))) ∅.

(** The events of the downstream call of [zipCodeHandler], started from
    generator [g] under [ctx]. *)
Definition downstreamEvents (serviceB : ServiceA.Downstream_t) (ctx : Context)
           (g : IDGenerator) (cep : string) : list Event :=
  let hdr := transportHeader (afterStart ctx g) in
  callEvents "Chamada externa: getTemperatureByZipCode" Downstream (startSpan ctx g)
    (currentSpan ctx) (ServiceA.downstreamURL cep) hdr
    (serviceB (ServiceA.downstreamURL cep) hdr).

(** The events of [getLocation] and [getWeather] started from generator
    [g] under [ctx]. *)
Definition locationEvents (env : ServiceB.Providers) (ctx : Context) (g : IDGenerator)
           (zipCode : string) : list Event :=
  callEvents "Chamada externa: getLocation" LocationProvider (startSpan ctx g)
    (currentSpan ctx) (ServiceB.locationURL zipCode) ∅
    (ServiceB.viacep env (ServiceB.locationURL zipCode)).

Definition weatherEvents (env : ServiceB.Providers) (ctx : Context) (g : IDGenerator)
           (city : string) : list Event :=
  callEvents "Chamada externa: getWeather" WeatherProvider (startSpan ctx g)
    (currentSpan ctx) (ServiceB.weatherURL city) ∅
    (ServiceB.weatherapi env (ServiceB.weatherURL city)).

(** The events a run added to the log it started from. *)
Definition newEvents (st st' : State) : list Event :=
  List.skipn (List.length (log st)) (log st').

(** ** Sample inputs *)

Definition cfgA : Config := mkConfig "service-a-request".
Definition cfgB : Config := mkConfig "service-b-request".

Definition okResponse (j : JSON.value) : goError + Response :=
  inr (mkResponse StatusOK ∅ [ChunkJSON j]).

Definition localityDoc (city : string) : JSON.value :=
  JSON.JObj [("cep", JSON.JStr "01310-900"); ("localidade", JSON.JStr city)].

Definition weatherDoc (c : float) : JSON.value :=
  JSON.JObj [("current", JSON.JObj [("temp_c", JSON.JNum c)])].

Definition connectionRefused : goError := ErrTransport "dial tcp: connect: connection refused".

(** Both providers answer: locality "Sao Paulo", 25 degrees Celsius. *)
Definition providersHappy : ServiceB.Providers :=
  ServiceB.mkProviders (fun _ => okResponse (localityDoc "Sao Paulo"))
                       (fun _ => okResponse (weatherDoc 25)).

(** The location provider knows no locality for the code. *)
Definition providersUnknown : ServiceB.Providers :=
  ServiceB.mkProviders (fun _ => okResponse (localityDoc ""))
                       (fun _ => okResponse (weatherDoc 25)).

(** The location provider cannot be reached. *)
Definition providersLocationDown : ServiceB.Providers :=
  ServiceB.mkProviders (fun _ => inl connectionRefused)
                       (fun _ => okResponse (weatherDoc 25)).

(** The weather provider cannot be reached. *)
Definition providersWeatherDown : ServiceB.Providers :=
  ServiceB.mkProviders (fun _ => okResponse (localityDoc "Sao Paulo"))
                       (fun _ => inl connectionRefused).

(** [GET /zipcode?zipcode=<zip>] as service B's handler receives it. *)
Definition requestB (zip : string) : Request :=
  mkRequest "GET" ∅ [("zipcode", zip)] [] Background.

(** [POST /zipcode] with the given headers and body. *)
Definition requestA (hdr : gmap string (list string)) (body : Body) : Request :=
  mkRequest "POST" hdr [] body Background.

Definition cepBody (cep : string) : Body :=
  [ChunkJSON (JSON.JObj [("cep", JSON.JStr cep)])].

Definition sampleTraceparent : string :=
  "00-4bf92f3577b34da6a3ce929d0e0e4736-00f067aa0ba902b7-01".

Definition sampleHeader : gmap string (list string) :=
  {[ "Traceparent" := [sampleTraceparent] ]}.

(** The events of one remote call made without a span. *)
Definition plainCallEvents (t : target) (url : string) (res : goError + Response)
  : list Event :=
  ([RequestSent t url ∅; ResponseReceived t res] ++ closeEvents t res)%list.

(** What the downstream call of [zipCodeHandler] returns for request [r]
    when the handler starts from generator [g]. *)
Definition downstreamReply (serviceB : ServiceA.Downstream_t) (r : Request) (g : IDGenerator)
  : goError + Response :=
  serviceB (ServiceA.downstreamURL (ServiceA.CEP (fst (decodedRequest r))))
    (transportHeader (afterStart (handlerContext r g) (handlerGen r g))).

(** The document [json.Marshal] writes for the four response fields. *)
Definition responseDoc (city : string) (c f k : float) : JSON.value :=
  JSON.JObj [("city", JSON.JStr city); ("temp_C", JSON.JNum c);
             ("temp_F", JSON.JNum f); ("temp_K", JSON.JNum k)].


(** The resolution service of this repository as the downstream endpoint,
    with a given pair of providers. *)
Definition realServiceB (env : ServiceB.Providers) : ServiceA.Downstream_t :=
  serviceB_endpoint cfgB env (counterStream 4096).


(** ** Further notions used in the statements *)

(** A span id the SDK's generator may hand out: sixteen lowercase
    hexadecimal digits, not all zero. *)
Definition validSpanID (s : string) : bool :=
  hexPart 16 s && negb (allZero s).

Definition validTraceID (s : string) : bool :=
  hexPart 32 s && negb (allZero s).

(** The bytes [url.QueryEscape] can produce. *)
Definition queryByte (c : ascii) : bool :=
  unreserved c || Ascii.eqb c "+" || Ascii.eqb c "%".

(** Two replies of a provider that differ at most in the status line, the
    headers and the text of a transport error. *)
Definition sameOutcome (a b : goError + Response) : Prop :=
  match a, b with
  | inl _, inl _ => True
  | inr ra, inr rb => RespBody ra = RespBody rb
  | _, _ => False
  end.

(** The statuses the resolution service can answer with. *)
Definition statusB (code : nat) : bool :=
  (code =? StatusOK) || (code =? StatusNotFound)
  || (code =? StatusPreconditionFailed) || (code =? StatusInternalServerError).

Definition requestHeaders (e : Event) : gmap string (list string) :=
  match e with
  | RequestSent _ _ hdr => hdr
  | _ => ∅
  end.

(** An object key the decoder does not match to the field [name]. *)
Definition otherKey (name : string) (kv : string * JSON.value) : bool :=
  negb (String.eqb (JSON.foldName (fst kv)) (JSON.foldName name)).

(** The three numbers of a decoded response are finite float64 values. *)
Definition finiteResponse (z : ServiceA.ZipCodeResponse) : Prop :=
  is_finite (ServiceA.TempC z) = true
  /\ is_finite (ServiceA.TempF z) = true
  /\ is_finite (ServiceA.TempK z) = true.

(** The fixed part of the weather provider's URL, up to the value of its
    [q] parameter. *)
Definition weatherBase : string :=
  "https://api.weatherapi.com/v1/current.json?key=6c0e6aefacc44ed0a69130616242705&q=".

(** ** Process start-up: [initProvider] and [main]

    The two instrumented services share this code up to the tracer name,
    the handler's name and the port.  A process is a computation over the
    process-wide settings and a log of steps that may not return to its
    caller: [None] as result means that [os.Exit] was called, or that a
    call blocks for the rest of the process's life; in both cases nothing
    after it runs, deferred calls included. *)

Module Startup.

Inductive Exporter : Type := OTLPExporter (endpoint : string).

Inductive Processor : Type := BatchSpanProcessor (e : Exporter).

Inductive ProviderOption : Type :=
| WithBatcher (e : Exporter)
| WithResource (serviceName : string)
| WithSpanProcessor (p : Processor).

Record TracerProvider : Type := mkTracerProvider {
  processors : list Processor;
  resource : string
}.

(** [sdktrace.NewTracerProvider(opts...)]: [WithBatcher e] registers a new
    batch processor for [e], [WithSpanProcessor p] registers [p]. *)
Definition applyOption (tp : TracerProvider) (o : ProviderOption) : TracerProvider :=
  match o with
  | WithBatcher e => mkTracerProvider (processors tp ++ [BatchSpanProcessor e])%list (resource tp)
  | WithResource n => mkTracerProvider (processors tp) n
  | WithSpanProcessor p => mkTracerProvider (processors tp ++ [p])%list (resource tp)
  end.

Definition NewTracerProvider (opts : list ProviderOption) : TracerProvider :=
  fold_left applyOption opts (mkTracerProvider [] "").

(** The exporters an ended, sampled span is handed to: one per registered
    processor. *)
Definition exportersOnEnd (tp : TracerProvider) : list Exporter :=
  List.map (fun p => match p with BatchSpanProcessor e => e end) (processors tp).

Inductive startError : Type :=
| Wrapped (prefix : string) (cause : goError)   (* fmt.Errorf(prefix + ": %w", cause) *)
| Plain (cause : goError).

Inductive Step : Type :=
| SignalNotify                      (* signal.Notify and signal.NotifyContext *)
| Listen (addr : string)            (* http.ListenAndServe has returned *)
| Serving (addr : string)           (* http.ListenAndServe serves and does not return *)
| Fatal (e : startError)            (* log.Fatal prints *)
| Exit (code : nat)                 (* os.Exit *)
| Deferred (name : string)          (* a deferred call runs *)
| Select                            (* the select statement is reached *)
| Println (s : string).

(** The process-wide settings [main] and [initProvider] write. *)
Record Globals : Type := mkGlobals {
  tracerProvider : option TracerProvider;   (* otel.SetTracerProvider *)
  traceContextPropagator : bool;            (* otel.SetTextMapPropagator *)
  routes : list (string * string)           (* http.Handle: pattern, handler *)
}.

Definition noGlobals : Globals := mkGlobals None false [].

(** What the environment decides: the configuration read by viper, whether
    the resource and the exporter can be created, the error
    [ListenAndServe] returns if it returns (it never returns nil), and
    which case of the select statement would be ready.  Whether
    [ListenAndServe] returns at all is a separate argument of [main]. *)
Record Boot : Type := mkBoot {
  OTEL_SERVICE_NAME : string;
  OTEL_EXPORTER_OTLP_ENDPOINT : string;
  resourceNew : option goError;
  exporterNew : option goError;
  listenAndServe : goError;
  interrupted : bool
}.

Record PState : Type := mkPState {
  globals : Globals;
  steps : list Step
}.

Definition Proc (A : Type) : Type := PState -> option A * PState.

Definition pret {A} (a : A) : Proc A := fun s => (Some a, s).

Definition pbind {A B} (m : Proc A) (k : A -> Proc B) : Proc B :=
  fun s =>
    match m s with
    | (Some a, s') => k a s'
    | (None, s') => (None, s')
    end.

Definition pseq {A B} (m : Proc A) (k : Proc B) : Proc B := pbind m (fun _ => k).

Definition step (x : Step) : Proc unit :=
  fun s => (Some tt, mkPState (globals s) (steps s ++ [x])%list).

Definition setGlobals (f : Globals -> Globals) : Proc unit :=
  fun s => (Some tt, mkPState (f (globals s)) (steps s)).

(** [os.Exit(code)] *)
Definition os_Exit {A} (code : nat) : Proc A :=
  fun s => (None, mkPState (globals s) (steps s ++ [Exit code])%list).

(** [log.Fatal(err)]: print, then [os.Exit(1)]. *)
Definition log_Fatal {A} (e : startError) : Proc A :=
  pseq (step (Fatal e)) (os_Exit 1).

(** [defer d]: [d] runs when the rest of the function returns; it does not
    run when the process exits. *)
Definition pdefer {A} (d : Proc unit) (body : Proc A) : Proc A :=
  pbind body (fun a => pseq d (pret a)).

(** [initProvider] *)
Definition initProvider (boot : Boot) (serviceName collectorURL : string)
  : Proc (TracerProvider + startError) :=
  match resourceNew boot with
  | Some err => pret (inr (Wrapped "failed to create resource" err))
  | None =>
      match exporterNew boot with
      | Some err => pret (inr (Wrapped "failed to create http connection to collector" err))
      | None =>
          let texp := OTLPExporter collectorURL in
          let bsp := BatchSpanProcessor texp in
          let tp := NewTracerProvider
                      [WithBatcher texp; WithResource serviceName; WithSpanProcessor bsp] in
          pseq (setGlobals (fun g => mkGlobals (Some tp) (traceContextPropagator g) (routes g)))
            (pseq (setGlobals (fun g => mkGlobals (tracerProvider g) true (routes g)))
               (pret (inl tp)))
      end
  end.

(** [http.Handle(pattern, handler)] *)
Definition http_Handle (pattern handler : string) : Proc unit :=
  setGlobals (fun g => mkGlobals (tracerProvider g) (traceContextPropagator g)
                         (routes g ++ [(pattern, handler)])%list).

(** A call that never returns. *)
Definition pblock {A} : Proc A := fun s => (None, s).

(** [http.ListenAndServe(addr, nil)]: the call blocks while the server
    serves, and returns only with an error (the listener cannot be opened,
    or accepting fails for good).  [stops] tells whether it returns in this
    run of the process. *)
Definition http_ListenAndServe (stops : bool) (boot : Boot) (addr : string) : Proc goError :=
  if stops then pseq (step (Listen addr)) (pret (listenAndServe boot))
  else pseq (step (Serving addr)) pblock.

(** [main] of an instrumented service: [handler] is the name the
    "/zipcode" handler is registered under, [addr] the listening address,
    [stops] whether [ListenAndServe] returns. *)
Definition main (handler addr : string) (stops : bool) (boot : Boot) : Proc unit :=
  pseq (step SignalNotify)
    (pdefer (step (Deferred "cancel"))
       (pbind (initProvider boot (OTEL_SERVICE_NAME boot) (OTEL_EXPORTER_OTLP_ENDPOINT boot))
          (fun r =>
             match r with
             | inr err => log_Fatal err
             | inl shutdown =>
                 pdefer (step (Deferred "shutdown"))
                   (pseq (http_Handle "/metrics" "promhttp.Handler")
                      (pseq (http_Handle "/zipcode" handler)
                         (pbind (http_ListenAndServe stops boot addr)
                            (fun err =>
                               pseq (@log_Fatal unit (Plain err))
                                 (pseq (step Select)
                                    (pseq (step (Println
                                             (if interrupted boot
                                              then "Shutting down gracefully, CTRL+C pressed..."
                                              else "Shutting down due to other reason...")))
                                       (pdefer (step (Deferred "shutdownCancel"))
                                          (pret tt))))))))
             end))).

(** [main] of service A and of service B. *)
Definition mainA : bool -> Boot -> Proc unit := main "ZipCodeHandler" ":8080".
Definition mainB : bool -> Boot -> Proc unit := main "TemperatureHandler" ":8081".

Definition start : PState := mkPState noGlobals [].

Definition isDeferred (x : Step) : bool :=
  match x with
  | Deferred _ | Select | Println _ => true
  | _ => false
  end.

End Startup.

(** * Properties *)

(** ** The validator *)

Section Validator.

Import Regexp.

Lemma matchK_repeat_digit (n : nat) :
  forall (pos : nat) (s : string) (k : nat -> string -> bool),
    matchK (Repeat n Digit) pos s k
    = if digitPrefix n s then k (pos + n) (dropS n s) else false.
Proof.
  induction n as [|n IH]; intros pos s k.
  - simpl. now rewrite Nat.add_0_r.
  - change (matchK (Repeat (S n) Digit) pos s k)
      with (matchK Digit pos s (fun p t => matchK (Repeat n Digit) p t k)).
    destruct s as [|c s]; simpl; [reflexivity|].
    destruct (isDigit c); simpl; [|reflexivity].
    change ((fix rep (m p : nat) (t : string) {struct m} : bool :=
               match m with
               | 0 => k p t
               | S m' =>
                   match t with
                   | "" => false
                   | String c' s' => if isDigit c' then rep m' (S p) s' else false
                   end
               end) n (S pos) s)
      with (matchK (Repeat n Digit) (S pos) s k).
    rewrite IH. now rewrite Nat.add_succ_r.
Qed.

Lemma eightDigits_prefix (n : nat) :
  forall s : string,
    (String.length s =? n) && allDigits s
    = digitPrefix n s && isEmptyString (dropS n s).
Proof.
  induction n as [|n IH]; intros [|c s]; simpl; try reflexivity.
  rewrite <- andb_assoc, <- IH.
  destruct (isDigit c); simpl; [reflexivity|].
  now rewrite andb_false_r.
Qed.

Lemma matchHere_zipRe (pos : nat) (s : string) :
  matchHere zipRe pos s = (pos =? 0) && eightDigits s.
Proof.
  unfold matchHere, zipRe, eightDigits.
  rewrite eightDigits_prefix.
  change (matchK (Cat (Cat BeginText (Repeat 8 Digit)) EndText) pos s (fun _ _ => true))
    with (if pos =? 0
          then matchK (Repeat 8 Digit) pos s
                 (fun p t => matchK EndText p t (fun _ _ => true))
          else false).
  destruct (pos =? 0); [|reflexivity].
  rewrite matchK_repeat_digit.
  destruct (digitPrefix 8 s); [|reflexivity].
  cbn [andb]. now destruct (dropS 8 s).
Qed.

Lemma searchFrom_zipRe_later (s : string) :
  forall pos : nat, searchFrom zipRe (S pos) s = false.
Proof.
  induction s as [|c s IH]; intros pos; cbn [searchFrom];
    rewrite matchHere_zipRe; cbn [Nat.eqb andb orb]; auto.
Qed.

Lemma searchFrom_zipRe (s : string) :
  searchFrom zipRe 0 s = eightDigits s.
Proof.
  destruct s as [|c s]; cbn [searchFrom]; rewrite matchHere_zipRe; cbn [Nat.eqb andb].
  - now rewrite orb_false_r.
  - now rewrite searchFrom_zipRe_later, orb_false_r.
Qed.

Lemma Compile_zipPattern : Compile zipPattern = Ok zipRe.
Proof. reflexivity. Qed.

Lemma MatchString_zipPattern (s : string) :
  MatchString zipPattern s = Some (eightDigits s, None).
Proof.
  unfold MatchString. rewrite Compile_zipPattern. now rewrite searchFrom_zipRe.
Qed.

End Validator.

Lemma isValidZipCode_eightDigits (zipCode : string) :
  isValidZipCode zipCode = eightDigits zipCode.
Proof.
  unfold isValidZipCode. now rewrite MatchString_zipPattern.
Qed.

(** The shape rule, spelled out: eight bytes, each an ASCII digit. *)
Lemma allDigits_Forall (s : string) :
  allDigits s = true <-> Forall (fun c => isDigit c = true) (list_ascii_of_string s).
Proof.
  induction s as [|c s IH]; simpl.
  - split; auto.
  - rewrite andb_true_iff, IH. split.
    + intros [Hc Hs]. now constructor.
    + intros H. inversion H; subst. auto.
Qed.

Lemma eightDigits_iff (s : string) :
  eightDigits s = true
  <-> String.length s = 8 /\ Forall (fun c => isDigit c = true) (list_ascii_of_string s).
Proof.
  unfold eightDigits. rewrite andb_true_iff, Nat.eqb_eq, allDigits_Forall. tauto.
Qed.

(** C9: [isValidZipCode] returns a boolean for every input string, and the
    error it discards is always nil: the fixed pattern compiles, so
    [regexp.MatchString] returns a nil error together with the very boolean
    [isValidZipCode] hands back, and that boolean is the eight-digit shape
    test, so dropping the error never changes a classification. *)
Theorem C9_isValidZipCode_total_error_nil :
  forall zipCode : string,
    exists matched : bool,
      Regexp.MatchString zipPattern zipCode = Some (matched, None)
      /\ isValidZipCode zipCode = matched
      /\ matched = eightDigits zipCode.
Proof.
  intros zipCode. exists (eightDigits zipCode).
  split; [apply MatchString_zipPattern|].
  split; [apply isValidZipCode_eightDigits|reflexivity].
Qed.

(** ** Checkers on event logs *)

Section LogCheckers.

Lemma memb_cons (h x : nat) (l : list nat) :
  memb h (x :: l) = (h =? x) || memb h l.
Proof. reflexivity. Qed.

Lemma memb_removeb (h x : nat) (l : list nat) :
  memb h (removeb x l) = negb (h =? x) && memb h l.
Proof.
  induction l as [|y l IH]; simpl.
  - now rewrite andb_false_r.
  - destruct (y =? x) eqn:Eyx; simpl.
    + rewrite IH. apply Nat.eqb_eq in Eyx. subst y.
      destruct (h =? x); reflexivity.
    + rewrite IH. destruct (h =? y) eqn:Ehy; simpl.
      * apply Nat.eqb_eq in Ehy. subst y. now rewrite Eyx.
      * reflexivity.
Qed.

Lemma endsOf_cons (h : nat) (e : Event) (l : list Event) :
  endsOf h (e :: l) = (if isEndOf h e then 1 else 0) + endsOf h l.
Proof. unfold endsOf. simpl. now destruct (isEndOf h e). Qed.

Lemma startsOf_cons (h : nat) (e : Event) (l : list Event) :
  startsOf h (e :: l) = (if isStartOf h e then 1 else 0) + startsOf h l.
Proof. unfold startsOf. simpl. now destruct (isStartOf h e). Qed.

Lemma startsOf_middle (h : nat) (pre post : list Event) name sp parent :
  spanHandle sp = h ->
  startsOf h (pre ++ SpanStarted name sp parent :: post) <> 0.
Proof.
  intros <-. induction pre as [|e pre IH]; simpl.
  - rewrite startsOf_cons. simpl. now rewrite Nat.eqb_refl.
  - rewrite startsOf_cons. lia.
Qed.

(** A span already ended is neither ended nor started again. *)
Lemma spansClosed_closed (l : list Event) :
  forall open closed h,
    disjointb open closed ->
    spansClosed open closed l = true ->
    memb h closed = true ->
    endsOf h l = 0 /\ startsOf h l = 0.
Proof.
  induction l as [|e l IH]; intros open closed h Hd Hc Hh; [now split|].
  rewrite endsOf_cons, startsOf_cons.
  destruct e as [name sp parent|sp|t url hdr|t res|t]; cbn [spansClosed] in Hc;
    cbn [isEndOf isStartOf]; try (apply (IH open closed h Hd Hc Hh)).
  - apply andb_true_iff in Hc as [Hc Hl]. apply andb_true_iff in Hc as [Ho Hcl].
    apply negb_true_iff in Ho, Hcl.
    destruct (spanHandle sp =? h) eqn:E.
    + apply Nat.eqb_eq in E. congruence.
    + apply (IH (spanHandle sp :: open) closed h); auto.
      intros x Hx. rewrite memb_cons in Hx. apply orb_true_iff in Hx as [Hx|Hx]; auto.
      apply Nat.eqb_eq in Hx. now subst x.
  - apply andb_true_iff in Hc as [Ho Hl].
    destruct (spanHandle sp =? h) eqn:E.
    + apply Nat.eqb_eq in E. rewrite E in Ho. apply Hd in Ho. congruence.
    + apply (IH (removeb (spanHandle sp) open) (spanHandle sp :: closed) h); auto.
      * intros x Hx. rewrite memb_removeb in Hx. apply andb_true_iff in Hx as [Hne Hx].
        rewrite memb_cons. apply negb_true_iff in Hne. rewrite Hne. simpl. auto.
      * rewrite memb_cons, Hh. apply orb_true_r.
Qed.

(** A span that is open is ended exactly once and not started again. *)
Lemma spansClosed_open (l : list Event) :
  forall open closed h,
    disjointb open closed ->
    spansClosed open closed l = true ->
    memb h open = true ->
    endsOf h l = 1 /\ startsOf h l = 0.
Proof.
  induction l as [|e l IH]; intros open closed h Hd Hc Hh.
  - simpl in Hc. destruct open; [discriminate Hh|discriminate Hc].
  - rewrite endsOf_cons, startsOf_cons.
    destruct e as [name sp parent|sp|t url hdr|t res|t]; cbn [spansClosed] in Hc;
      cbn [isEndOf isStartOf]; try (apply (IH open closed h Hd Hc Hh)).
    + apply andb_true_iff in Hc as [Hc Hl]. apply andb_true_iff in Hc as [Ho Hcl].
      apply negb_true_iff in Ho, Hcl.
      destruct (spanHandle sp =? h) eqn:E.
      * apply Nat.eqb_eq in E. congruence.
      * apply (IH (spanHandle sp :: open) closed h); auto.
        -- intros x Hx. rewrite memb_cons in Hx. apply orb_true_iff in Hx as [Hx|Hx]; auto.
           apply Nat.eqb_eq in Hx. now subst x.
        -- rewrite memb_cons, Hh. apply orb_true_r.
    + apply andb_true_iff in Hc as [Ho Hl].
      assert (Hd' : disjointb (removeb (spanHandle sp) open) (spanHandle sp :: closed)).
      { intros x Hx. rewrite memb_removeb in Hx. apply andb_true_iff in Hx as [Hne Hx].
        rewrite memb_cons. apply negb_true_iff in Hne. rewrite Hne. simpl. auto. }
      destruct (spanHandle sp =? h) eqn:E.
      * apply Nat.eqb_eq in E.
        destruct (spansClosed_closed l _ _ h Hd' Hl) as [He Hs].
        { rewrite memb_cons, E, Nat.eqb_refl. reflexivity. }
        rewrite He, Hs. split; reflexivity.
      * apply (IH _ _ h Hd' Hl).
        rewrite memb_removeb, Hh. rewrite Nat.eqb_sym, E. reflexivity.
Qed.

Lemma spansClosed_fresh (l : list Event) :
  forall open closed pre name sp parent post,
    disjointb open closed ->
    spansClosed open closed l = true ->
    l = (pre ++ SpanStarted name sp parent :: post)%list ->
    endsOf (spanHandle sp) pre = 0 /\ endsOf (spanHandle sp) post = 1.
Proof.
  induction l as [|e l IH]; intros open closed pre name sp parent post Hd Hc Hl.
  - destruct pre; discriminate Hl.
  - destruct pre as [|e' pre]; simpl in Hl; injection Hl as He Hl'; subst e.
    + subst l. cbn [spansClosed] in Hc.
      apply andb_true_iff in Hc as [Hc Hrest]. apply andb_true_iff in Hc as [Ho Hcl].
      apply negb_true_iff in Ho, Hcl.
      split; [reflexivity|].
      apply (spansClosed_open post (spanHandle sp :: open) closed); auto.
      * intros x Hx. rewrite memb_cons in Hx. apply orb_true_iff in Hx as [Hx|Hx]; auto.
        apply Nat.eqb_eq in Hx. now subst x.
      * rewrite memb_cons, Nat.eqb_refl. reflexivity.
    + rewrite endsOf_cons.
      destruct e' as [name' sp' parent'|sp'|t url hdr|t res|t]; cbn [spansClosed] in Hc;
        cbn [isEndOf]; try (apply (IH open closed pre name sp parent post Hd Hc Hl')).
      * apply andb_true_iff in Hc as [Hc Hrest]. apply andb_true_iff in Hc as [Ho Hcl].
        apply negb_true_iff in Ho, Hcl.
        apply (IH (spanHandle sp' :: open) closed pre name sp parent post); auto.
        intros x Hx. rewrite memb_cons in Hx. apply orb_true_iff in Hx as [Hx|Hx]; auto.
        apply Nat.eqb_eq in Hx. now subst x.
      * apply andb_true_iff in Hc as [Ho Hrest].
        assert (Hd' : disjointb (removeb (spanHandle sp') open) (spanHandle sp' :: closed)).
        { intros x Hx. rewrite memb_removeb in Hx. apply andb_true_iff in Hx as [Hne Hx].
          rewrite memb_cons. apply negb_true_iff in Hne. rewrite Hne. simpl. auto. }
        destruct (spanHandle sp' =? spanHandle sp) eqn:E.
        -- exfalso. apply Nat.eqb_eq in E.
           destruct (spansClosed_closed l _ _ (spanHandle sp) Hd' Hrest) as [_ Hs].
           { rewrite memb_cons, E, Nat.eqb_refl. reflexivity. }
           subst l. now apply (startsOf_middle (spanHandle sp) pre post name sp parent).
        -- apply (IH _ _ pre name sp parent post Hd' Hrest Hl').
Qed.

Lemma spansClosed_endedOnce (evs : list Event) :
  spansClosed [] [] evs = true -> endedOnce evs.
Proof.
  intros Hc pre name sp parent post Hl.
  apply (spansClosed_fresh evs [] [] pre name sp parent post); auto.
  intros x Hx. discriminate Hx.
Qed.

Lemma weatherAfterLocation_sound (l : list Event) :
  forall seen pre url hdr post,
    weatherAfterLocation seen l = true ->
    l = (pre ++ RequestSent WeatherProvider url hdr :: post)%list ->
    seen = true \/ exists res, In (ResponseReceived LocationProvider res) pre.
Proof.
  induction l as [|e l IH]; intros seen pre url hdr post Hc Hl.
  - destruct pre; discriminate Hl.
  - destruct pre as [|e' pre]; simpl in Hl; injection Hl as He Hl'; subst e.
    + cbn [weatherAfterLocation] in Hc. apply andb_true_iff in Hc as [Hs _]. now left.
    + destruct e' as [name sp parent|sp|t u h|t res|t]; cbn [weatherAfterLocation] in Hc.
      * destruct (IH _ _ _ _ _ Hc Hl') as [H|[res H]]; [now left|right; exists res; now right].
      * destruct (IH _ _ _ _ _ Hc Hl') as [H|[res H]]; [now left|right; exists res; now right].
      * destruct t.
        -- destruct (IH _ _ _ _ _ Hc Hl') as [H|[res H]]; [now left|right; exists res; now right].
        -- destruct (IH _ _ _ _ _ Hc Hl') as [H|[res H]]; [now left|right; exists res; now right].
        -- apply andb_true_iff in Hc as [Hs Hc].
           destruct (IH _ _ _ _ _ Hc Hl') as [H|[res H]]; [now left|right; exists res; now right].
      * destruct t.
        -- destruct (IH _ _ _ _ _ Hc Hl') as [H|[res' H]]; [now left|right; exists res'; now right].
        -- right. exists res. now left.
        -- destruct (IH _ _ _ _ _ Hc Hl') as [H|[res' H]]; [now left|right; exists res'; now right].
      * destruct (IH _ _ _ _ _ Hc Hl') as [H|[res H]]; [now left|right; exists res; now right].
Qed.

Lemma weatherAfterLocation_ordered (evs : list Event) :
  weatherAfterLocation false evs = true -> locationBeforeWeather evs.
Proof.
  intros Hc pre url hdr post Hl.
  destruct (weatherAfterLocation_sound evs false pre url hdr post Hc Hl) as [H|H];
    [discriminate H|exact H].
Qed.

End LogCheckers.

(** ** Runs of the resolution service *)

Ltac go_run :=
  cbv beta iota zeta delta
    [bind ret emit withDefer span_End tracer_Start client_Get client_Get_otel otelhttp_span];
  cbn [fst snd idgen log].

Section ServiceBRuns.

Import ServiceB.

Variable cfg : Config.
Variable env : Providers.

Lemma newSpanContext_drawn (parent : SpanContext) (g : IDGenerator) :
  drawn (snd (newSpanContext parent g)) = S (drawn g).
Proof. unfold newSpanContext. now destruct (IsValid parent). Qed.

Lemma locationResult_run (res : goError + Response) (st : State) :
  locationResult res st
  = (locationValue res,
     mkState (idgen st) (log st ++ closeEvents LocationProvider res)).
Proof.
  destruct st as [g l]. destruct res as [err|resp]; simpl.
  - unfold ret. now rewrite app_nil_r.
  - reflexivity.
Qed.

Lemma weatherResult_run (res : goError + Response) (st : State) :
  weatherResult res st
  = (weatherValue res,
     mkState (idgen st) (log st ++ closeEvents WeatherProvider res)).
Proof.
  destruct st as [g l]. destruct res as [err|resp]; simpl.
  - unfold ret. now rewrite app_nil_r.
  - reflexivity.
Qed.

Lemma getLocation_run (ctx : Context) (zipCode : string) (st : State) :
  getLocation env ctx zipCode st
  = (locationValue (viacep env (locationURL zipCode)),
     mkState (afterStart ctx (idgen st))
       (log st ++ locationEvents env ctx (idgen st) zipCode)).
Proof.
  unfold getLocation. go_run.
  rewrite locationResult_run. cbn [fst snd idgen log].
  unfold locationEvents, callEvents, afterStart, startSpan.
  f_equal. f_equal. rewrite <- !app_assoc. reflexivity.
Qed.

Lemma getWeather_run (ctx : Context) (city : string) (st : State) :
  getWeather env ctx city st
  = (weatherValue (weatherapi env (weatherURL city)),
     mkState (afterStart ctx (idgen st))
       (log st ++ weatherEvents env ctx (idgen st) city)).
Proof.
  unfold getWeather. go_run.
  rewrite weatherResult_run. cbn [fst snd idgen log].
  unfold weatherEvents, callEvents, afterStart, startSpan.
  f_equal. f_equal. rewrite <- !app_assoc. reflexivity.
Qed.

(** The handler, run to completion: result, generator and appended
    events in each of its four exits. *)
Lemma temperatureHandler_run (w : ResponseWriter) (r : Request) (st : State) :
  temperatureHandler cfg env w r st
  = let g1 := handlerGen r (idgen st) in
    let ctx1 := handlerContext r (idgen st) in
    let r1 := handlerRequest r (idgen st) in
    let zipCode := Query_Get (Query r) "zipcode" in
    let marker := handlerMarker cfg r (idgen st) in
    if negb (String.length zipCode =? 8) then
      ((http_Error w (Msg "invalid zipcode") StatusPreconditionFailed, r1),
       mkState g1 (log st ++ marker))
    else
      let lv := locationValue (viacep env (locationURL zipCode)) in
      let g2 := afterStart ctx1 g1 in
      let locEvs := locationEvents env ctx1 g1 zipCode in
      if isErr (snd lv) || String.eqb (fst lv) "" then
        ((http_Error w (Msg "can not find zipcode") StatusNotFound, r1),
         mkState g2 (log st ++ marker ++ locEvs))
      else
        let wv := weatherValue (weatherapi env (weatherURL (fst lv))) in
        let g3 := afterStart ctx1 g2 in
        let wEvs := weatherEvents env ctx1 g2 (fst lv) in
        if isErr (snd wv) then
          ((http_Error w (Msg "failed to get weather info") StatusInternalServerError, r1),
           mkState g3 (log st ++ marker ++ locEvs ++ wEvs))
        else
          ((Encode (marshal (response2 (fst lv) (fst wv)))
              (SetHeader "Content-Type" "application/json" w), r1),
           mkState g3 (log st ++ marker ++ locEvs ++ wEvs)).
Proof.
  unfold temperatureHandler. go_run. cbv zeta.
  change (Query (withHeader r ?h)) with (Query r).
  destruct (negb (String.length (Query_Get (Query r) "zipcode") =? 8)).
  - unfold handlerMarker, markerEvents, markerName, handlerGen, handlerRequest,
      handlerContext, startSpan, afterStart.
    rewrite <- !app_assoc. reflexivity.
  - rewrite getLocation_run. cbn [fst snd idgen log].
    fold (handlerContext r (idgen st)).
    destruct (isErr (snd (locationValue (viacep env (locationURL (Query_Get (Query r) "zipcode")))))
              || String.eqb (fst (locationValue (viacep env (locationURL (Query_Get (Query r) "zipcode"))))) "").
    + unfold handlerMarker, markerEvents, markerName, handlerGen, handlerRequest,
        handlerContext, startSpan, afterStart.
      rewrite <- !app_assoc. reflexivity.
    + rewrite getWeather_run. cbn [fst snd idgen log].
      destruct (isErr (snd (weatherValue (weatherapi env
                 (weatherURL (fst (locationValue (viacep env
                    (locationURL (Query_Get (Query r) "zipcode"))))))))));
        unfold handlerMarker, markerEvents, markerName, handlerGen, handlerRequest,
          handlerContext, startSpan, afterStart;
        rewrite <- !app_assoc; reflexivity.
Qed.

End ServiceBRuns.

Lemma newEvents_app (st : State) (g : IDGenerator) (evs : list Event) :
  newEvents st (mkState g (log st ++ evs)) = evs.
Proof.
  unfold newEvents. cbn [log].
  induction (log st) as [|e l IH]; [reflexivity|exact IH].
Qed.

Lemma isErr_true (err : option goError) : isErr err = true <-> err <> None.
Proof. destruct err; simpl; split; congruence. Qed.

(** ** The resolution service: ordering of the two provider calls *)

Section ServiceBClaims.

Import ServiceB.

Variable cfg : Config.
Variable env : Providers.

Lemma marker_location_ordered (r : Request) (g : IDGenerator) (ctx : Context)
      (g' : IDGenerator) (zipCode : string) :
  weatherAfterLocation false (handlerMarker cfg r g ++ locationEvents env ctx g' zipCode) = true
  /\ requestsTo WeatherProvider
       (handlerMarker cfg r g ++ locationEvents env ctx g' zipCode) = [].
Proof.
  unfold handlerMarker, markerEvents, locationEvents, callEvents, closeEvents.
  destruct (viacep env (locationURL zipCode)); split; reflexivity.
Qed.

Lemma marker_location_weather_ordered (r : Request) (g : IDGenerator) (ctx : Context)
      (g1 g2 : IDGenerator) (zipCode city : string) :
  weatherAfterLocation false
    (handlerMarker cfg r g ++ locationEvents env ctx g1 zipCode
       ++ weatherEvents env ctx g2 city) = true.
Proof.
  unfold handlerMarker, markerEvents, locationEvents, weatherEvents, callEvents, closeEvents.
  destruct (viacep env (locationURL zipCode)), (weatherapi env (weatherURL city));
    reflexivity.
Qed.

(** C6: within one request handled by the resolution service, a request to
    the weather provider is only ever sent after the location provider's
    call has returned; and when the location call returned an error or an
    empty locality, no request to the weather provider is sent at all and
    the answer is 404 with the message "can not find zipcode". *)
Theorem C6_location_completes_before_weather (r : Request) (st : State) :
  let run := temperatureHandler cfg env newWriter r st in
  let evs := newEvents st (snd run) in
  let zipCode := Query_Get (Query r) "zipcode" in
  let lv := locationValue (viacep env (locationURL zipCode)) in
  locationBeforeWeather evs
  /\ (String.length zipCode = 8 ->
      isErr (snd lv) = true \/ fst lv = "" ->
      requestsTo WeatherProvider evs = []
      /\ StatusCode (finish (fst (fst run))) = StatusNotFound
      /\ RespBody (finish (fst (fst run))) = [ChunkText (Msg "can not find zipcode")]).
Proof.
  cbv zeta. rewrite temperatureHandler_run. cbv zeta.
  destruct (negb (String.length (Query_Get (Query r) "zipcode") =? 8)) eqn:Elen.
  - cbn [fst snd]. rewrite newEvents_app. split.
    + apply weatherAfterLocation_ordered. reflexivity.
    + intros Hlen. apply negb_true_iff, Nat.eqb_neq in Elen. contradiction.
  - destruct (isErr (snd (locationValue (viacep env (locationURL (Query_Get (Query r) "zipcode")))))
              || String.eqb (fst (locationValue (viacep env (locationURL (Query_Get (Query r) "zipcode"))))) "")
      eqn:Eloc.
    + cbn [fst snd]. rewrite newEvents_app. split.
      * apply weatherAfterLocation_ordered. apply marker_location_ordered.
      * intros _ _. split; [apply marker_location_ordered|]. split; reflexivity.
    + assert (Hno : isErr (snd (locationValue (viacep env
                        (locationURL (Query_Get (Query r) "zipcode"))))) = true
                    \/ fst (locationValue (viacep env
                        (locationURL (Query_Get (Query r) "zipcode")))) = "" -> False).
      { apply orb_false_iff in Eloc as [He Hc]. intros [H|H]; [congruence|].
        rewrite H in Hc. discriminate Hc. }
      destruct (isErr (snd (weatherValue _))); cbn [fst snd]; rewrite newEvents_app;
        (split; [apply weatherAfterLocation_ordered, marker_location_weather_ordered
                |intros _ H; destruct (Hno H)]).
Qed.

End ServiceBClaims.

(** ** Runs of the entry service *)

Section ServiceARuns.

Import ServiceA.

Variable cfg : Config.
Variable serviceB : Downstream_t.

Lemma relay_run (w : ResponseWriter) (res : goError + Response) (st : State) :
  relay w res st
  = (relayValue w res, mkState (idgen st) (log st ++ closeEvents Downstream res)).
Proof.
  destruct st as [g l]. destruct res as [err|resp]; simpl.
  - unfold ret. now rewrite app_nil_r.
  - reflexivity.
Qed.

(** The handler, run to completion: result, generator and appended
    events in each of its exits. *)
Lemma zipCodeHandler_run (w : ResponseWriter) (r : Request) (st : State) :
  zipCodeHandler cfg serviceB w r st
  = let g1 := handlerGen r (idgen st) in
    let ctx1 := handlerContext r (idgen st) in
    let r1 := handlerRequest r (idgen st) in
    let marker := handlerMarker cfg r (idgen st) in
    if negb (String.eqb (Method r) "POST") then
      ((http_Error w (Msg "Only POST method is allowed") StatusMethodNotAllowed, r1),
       mkState g1 (log st ++ marker))
    else
      match snd (decodedRequest r) with
      | Some e =>
          ((http_Error w (ErrorText e) StatusBadRequest, r1), mkState g1 (log st ++ marker))
      | None =>
          let cep := CEP (fst (decodedRequest r)) in
          if negb (isValidZipCode cep) then
            ((http_Error w (Msg "invalid zipcode") StatusPreconditionFailed, r1),
             mkState g1 (log st ++ marker))
          else
            let g2 := afterStart ctx1 g1 in
            let hdr := transportHeader g2 in
            let res := serviceB (downstreamURL cep) hdr in
            ((relayValue w res, r1),
             mkState (afterStart Background g2)
               (log st ++ marker ++ downstreamEvents serviceB ctx1 g1 cep))
      end.
Proof.
  unfold zipCodeHandler. go_run. cbv zeta.
  change (Method (withHeader r ?h)) with (Method r).
  change (ReqBody (withHeader r ?h)) with (ReqBody r).
  destruct (negb (String.eqb (Method r) "POST")).
  - unfold handlerMarker, markerEvents, markerName, handlerGen, handlerRequest,
      handlerContext, startSpan, afterStart.
    rewrite <- !app_assoc. reflexivity.
  - unfold decodedRequest.
    destruct (Decode requestFields (ReqBody r) (mkZipCodeRequest "")) as [req [e|]];
      cbn [fst snd].
    + unfold handlerMarker, markerEvents, markerName, handlerGen, handlerRequest,
        handlerContext, startSpan, afterStart.
      rewrite <- !app_assoc. reflexivity.
    + destruct (negb (isValidZipCode (CEP req))).
      * unfold handlerMarker, markerEvents, markerName, handlerGen, handlerRequest,
          handlerContext, startSpan, afterStart.
        rewrite <- !app_assoc. reflexivity.
      * go_run. rewrite relay_run. cbn [fst snd idgen log].
        unfold handlerMarker, markerEvents, markerName, handlerGen, handlerRequest,
          handlerContext, downstreamEvents, transportHeader, callEvents, startSpan, afterStart.
        rewrite <- !app_assoc. reflexivity.
Qed.

End ServiceARuns.

(** ** The resolution service: classification of location failures *)

Lemma newWriter_error_status (m : message) (code : nat) :
  informational code = false ->
  StatusCode (finish (http_Error newWriter m code)) = code
  /\ RespBody (finish (http_Error newWriter m code)) = [ChunkText m].
Proof.
  intros Hc. unfold http_Error, finish, Write, WriteHeader, SetHeader, newWriter.
  cbn [wroteHeader wHeader wStatus wSent wBody]. rewrite Hc.
  cbn [wroteHeader wHeader wStatus wSent wBody]. split; reflexivity.
Qed.

(** C3, as the code has it: for every valid postal code (eight ASCII
    digits), a failure of the location call (the transport fails, or the
    body does not decode) and a successful call that yields an empty
    locality both end in NotFound: 404 with the message "can not find
    zipcode".  The handler does not tell the outcomes apart, although
    [getLocation] does: it returns a non-nil error for a failure and the
    empty string with a nil error for an empty locality. *)
Theorem C3_location_failure_and_empty_locality_are_404
        (cfg : Config) (env : ServiceB.Providers) (r : Request) (st : State) :
  let run := ServiceB.temperatureHandler cfg env newWriter r st in
  let zipCode := Query_Get (Query r) "zipcode" in
  let reply := ServiceB.viacep env (ServiceB.locationURL zipCode) in
  let decoded resp :=
    Decode ServiceB.locationFields (RespBody resp) (ServiceB.mkLocationInfo "") in
  eightDigits zipCode = true ->
  (exists err, reply = inl err)
  \/ (exists resp e, reply = inr resp /\ snd (decoded resp) = Some e)
  \/ (exists resp, reply = inr resp /\ snd (decoded resp) = None
                   /\ ServiceB.Localidade (fst (decoded resp)) = "") ->
  (StatusCode (finish (fst (fst run))) = StatusNotFound
   /\ RespBody (finish (fst (fst run))) = [ChunkText (Msg "can not find zipcode")])
  /\ (forall ctx st',
         let got := fst (ServiceB.getLocation env ctx zipCode st') in
         ((exists err, reply = inl err) -> snd got <> None)
         /\ ((exists resp e, reply = inr resp /\ snd (decoded resp) = Some e) -> snd got <> None)
         /\ ((exists resp, reply = inr resp /\ snd (decoded resp) = None
                           /\ ServiceB.Localidade (fst (decoded resp)) = "") ->
             got = ("", None))).
Proof.
  cbv zeta. intros Hzip Hcase.
  set (zipCode := Query_Get (Query r) "zipcode") in *.
  assert (Hlen : String.length zipCode = 8) by (now apply eightDigits_iff in Hzip).
  assert (Hval : forall ctx st',
             fst (ServiceB.getLocation env ctx zipCode st')
             = ServiceB.locationValue (ServiceB.viacep env (ServiceB.locationURL zipCode))).
  { intros ctx st'. now rewrite getLocation_run. }
  split.
  - rewrite temperatureHandler_run. cbv zeta. fold zipCode.
    rewrite Hlen. cbn [Nat.eqb negb].
    assert (Hbad : isErr (snd (ServiceB.locationValue
                     (ServiceB.viacep env (ServiceB.locationURL zipCode))))
                   || String.eqb (fst (ServiceB.locationValue
                     (ServiceB.viacep env (ServiceB.locationURL zipCode)))) "" = true).
    { destruct Hcase as [[err H]|[[resp [e [H He]]]|[resp [H [He Hl]]]]]; rewrite H;
        cbn [ServiceB.locationValue]; try reflexivity; unfold ServiceB.decodeLocation.
      - destruct (Decode _ _ _) as [loc err]. cbn [snd] in He. subst err. reflexivity.
      - destruct (Decode _ _ _) as [loc err]. cbn [fst snd] in He, Hl. subst err.
        cbn [fst snd isErr orb]. now rewrite Hl. }
    rewrite Hbad. cbn [fst snd]. now apply newWriter_error_status.
  - intros ctx st'. rewrite Hval. split; [|split].
    + intros [err H]. rewrite H. discriminate.
    + intros [resp [e [H He]]]. rewrite H. cbn [ServiceB.locationValue].
      unfold ServiceB.decodeLocation. destruct (Decode _ _ _) as [loc err].
      cbn [snd] in He. subst err. discriminate.
    + intros [resp [H [He Hl]]]. rewrite H. cbn [ServiceB.locationValue].
      unfold ServiceB.decodeLocation. destruct (Decode _ _ _) as [loc err].
      cbn [fst snd] in He, Hl. subst err. now rewrite Hl.
Qed.

Lemma C3_location_failure_and_empty_locality_are_404_witness :
  StatusCode (finish (fst (fst (ServiceB.temperatureHandler cfgB providersLocationDown
                                  newWriter (requestB "01310900")
                                  (initState (counterStream 1))))))
  = StatusNotFound.
Proof.
  apply (C3_location_failure_and_empty_locality_are_404
           cfgB providersLocationDown (requestB "01310900") (initState (counterStream 1))).
  - reflexivity.
  - left. exists connectionRefused. reflexivity.
Defined.

(** C3, as stated, fails: with the location provider unreachable and a
    well-formed postal code, the answer is 404 and not the 500 of
    UpstreamError. *)
Lemma C3_counterexample :
  ~ (forall (cfg : Config) (env : ServiceB.Providers) (r : Request) (st : State) (err : goError),
        eightDigits (Query_Get (Query r) "zipcode") = true ->
        ServiceB.viacep env (ServiceB.locationURL (Query_Get (Query r) "zipcode")) = inl err ->
        StatusCode (finish (fst (fst (ServiceB.temperatureHandler cfg env newWriter r st))))
        = StatusInternalServerError).
Proof.
  intros H.
  specialize (H cfgB providersLocationDown (requestB "01310900")
                (initState (counterStream 1)) connectionRefused eq_refl eq_refl).
  vm_compute in H. discriminate H.
Qed.

(** ** Runs of the resolution service without tracing calls *)

Section ServiceBPlainRuns.

Import ServiceB.

Variable env : Providers.

Lemma plain_getLocation_run (zipCode : string) (st : State) :
  ServiceBPlain.getLocation env zipCode st
  = (locationValue (viacep env (locationURL zipCode)),
     mkState (idgen st)
       (log st ++ plainCallEvents LocationProvider (locationURL zipCode)
                    (viacep env (locationURL zipCode)))).
Proof.
  unfold ServiceBPlain.getLocation. go_run.
  rewrite locationResult_run. cbn [fst snd idgen log].
  unfold plainCallEvents. rewrite <- !app_assoc. reflexivity.
Qed.

Lemma plain_getWeather_run (city : string) (st : State) :
  ServiceBPlain.getWeather env city st
  = (weatherValue (weatherapi env (weatherURL city)),
     mkState (idgen st)
       (log st ++ plainCallEvents WeatherProvider (weatherURL city)
                    (weatherapi env (weatherURL city)))).
Proof.
  unfold ServiceBPlain.getWeather. go_run.
  rewrite weatherResult_run. cbn [fst snd idgen log].
  unfold plainCallEvents. rewrite <- !app_assoc. reflexivity.
Qed.

Lemma plain_temperatureHandler_run (w : ResponseWriter) (r : Request) (st : State) :
  ServiceBPlain.temperatureHandler env w r st
  = let zipCode := Query_Get (Query r) "zipcode" in
    if negb (String.length zipCode =? 8) then
      (http_Error w (Msg "invalid zipcode") 422, st)
    else
      let lv := locationValue (viacep env (locationURL zipCode)) in
      let locEvs := plainCallEvents LocationProvider (locationURL zipCode)
                      (viacep env (locationURL zipCode)) in
      if isErr (snd lv) || String.eqb (fst lv) "" then
        (http_Error w (Msg "can not find zipcode") 404,
         mkState (idgen st) (log st ++ locEvs))
      else
        let wv := weatherValue (weatherapi env (weatherURL (fst lv))) in
        let wEvs := plainCallEvents WeatherProvider (weatherURL (fst lv))
                      (weatherapi env (weatherURL (fst lv))) in
        if isErr (snd wv) then
          (http_Error w (Msg "failed to get weather info") 500,
           mkState (idgen st) (log st ++ locEvs ++ wEvs))
        else
          (Encode (marshal (response2 (fst lv) (fst wv)))
             (SetHeader "Content-Type" "application/json" w),
           mkState (idgen st) (log st ++ locEvs ++ wEvs)).
Proof.
  unfold ServiceBPlain.temperatureHandler. cbv zeta.
  destruct (negb (String.length (Query_Get (Query r) "zipcode") =? 8)); [reflexivity|].
  go_run. rewrite plain_getLocation_run. cbn [fst snd idgen log].
  destruct (isErr (snd (locationValue (viacep env (locationURL (Query_Get (Query r) "zipcode")))))
            || String.eqb (fst (locationValue (viacep env (locationURL (Query_Get (Query r) "zipcode"))))) "");
    [reflexivity|].
  rewrite plain_getWeather_run. cbn [fst snd idgen log].
  destruct (isErr (snd (weatherValue _))); rewrite <- !app_assoc; reflexivity.
Qed.

End ServiceBPlainRuns.

(** ** The composed response *)

Lemma encode_finite (city : string) (c f k : float) :
  is_finite c = true -> is_finite f = true -> is_finite k = true ->
  ServiceB.marshal (ServiceB.mkLocationInfoAndCity city c f k)
  = Some (JSON.JObj [("city", JSON.JStr city); ("temp_C", JSON.JNum c);
                     ("temp_F", JSON.JNum f); ("temp_K", JSON.JNum k)]).
Proof.
  intros Hc Hf Hk. unfold ServiceB.marshal, JSON.encodeFloat.
  cbn [ServiceB.TempC ServiceB.TempF ServiceB.TempK ServiceB.City].
  now rewrite Hc, Hf, Hk.
Qed.

(** C4: for every Celsius reading [c] the handler composes the response
    with Celsius [c] unchanged, Fahrenheit [c * 1.8 + 32] and Kelvin
    [c + 273] (not [+ 273.15]), in the instrumented and in the plain
    variant; when the three numbers are finite this is the JSON document
    sent with status 200.  For [c = 25]: Fahrenheit 77 and Kelvin 298. *)
Theorem C4_response_scales
        (cfg : Config) (env : ServiceB.Providers) (r : Request) (st : State)
        (city : string) (weather : ServiceB.WeatherInfo) :
  let c := ServiceB.Temperature (ServiceB.Current weather) in
  let zipCode := Query_Get (Query r) "zipcode" in
  let composed := ServiceB.mkLocationInfoAndCity city c (c * 1.8 + 32)%float (c + 273)%float in
  let sent := Encode (ServiceB.marshal composed)
                (SetHeader "Content-Type" "application/json" newWriter) in
  let document := JSON.JObj [("city", JSON.JStr city); ("temp_C", JSON.JNum c);
                             ("temp_F", JSON.JNum (c * 1.8 + 32)%float);
                             ("temp_K", JSON.JNum (c + 273)%float)] in
  String.length zipCode = 8 ->
  ServiceB.locationValue (ServiceB.viacep env (ServiceB.locationURL zipCode)) = (city, None) ->
  city <> "" ->
  ServiceB.weatherValue (ServiceB.weatherapi env (ServiceB.weatherURL city)) = (weather, None) ->
  ServiceB.response2 city weather = composed
  /\ fst (fst (ServiceB.temperatureHandler cfg env newWriter r st)) = sent
  /\ fst (ServiceBPlain.temperatureHandler env newWriter r st) = sent
  /\ (is_finite c = true -> is_finite (c * 1.8 + 32)%float = true ->
      is_finite (c + 273)%float = true ->
      StatusCode (finish sent) = StatusOK /\ RespBody (finish sent) = [ChunkJSON document])
  /\ (c = 25%float ->
      ServiceB.TempC composed = 25%float /\ ServiceB.TempF composed = 77%float
      /\ ServiceB.TempK composed = 298%float /\ ServiceB.TempK composed <> 298.15%float).
Proof.
  cbv zeta. intros Hlen Hloc Hcity Hw.
  assert (Hne : String.eqb city "" = false) by now apply String.eqb_neq.
  split; [reflexivity|]. split; [|split; [|split]].
  - rewrite temperatureHandler_run. cbv zeta.
    rewrite Hlen, Hloc. cbn [Nat.eqb negb fst snd isErr orb]. rewrite Hne, Hw.
    reflexivity.
  - rewrite plain_temperatureHandler_run. cbv zeta.
    rewrite Hlen, Hloc. cbn [Nat.eqb negb fst snd isErr orb]. rewrite Hne, Hw.
    reflexivity.
  - intros Hc Hf Hk. rewrite (encode_finite _ _ _ _ Hc Hf Hk). split; reflexivity.
  - intros Hc. cbn [ServiceB.TempC ServiceB.TempF ServiceB.TempK]. rewrite Hc.
    repeat split; try reflexivity.
    intros H. apply (f_equal (fun x => PrimFloat.eqb x 298.15)) in H.
    vm_compute in H. discriminate H.
Qed.

Lemma C4_response_scales_witness :
  RespBody (finish (fst (fst (ServiceB.temperatureHandler cfgB providersHappy newWriter
                                (requestB "01310900") (initState (counterStream 1))))))
  = [ChunkJSON (JSON.JObj [("city", JSON.JStr "Sao Paulo"); ("temp_C", JSON.JNum 25);
                           ("temp_F", JSON.JNum 77); ("temp_K", JSON.JNum 298)])].
Proof.
  destruct (C4_response_scales cfgB providersHappy (requestB "01310900")
              (initState (counterStream 1)) "Sao Paulo"
              (ServiceB.mkWeatherInfo (ServiceB.mkCurrentInfo 25)))
    as [_ [Hsent [_ [Hdoc _]]]].
  - reflexivity.
  - reflexivity.
  - discriminate.
  - reflexivity.
  - rewrite Hsent. apply Hdoc; reflexivity.
Defined.

(** ** Span lifecycle *)

Section SpanLifecycle.

Lemma spansClosed_marker (cfg : Config) (sp : Span) (parent : SpanContext)
      (closed : list nat) (rest : list Event) :
  memb (spanHandle sp) closed = false ->
  spansClosed [] closed (markerEvents cfg sp parent ++ rest)
  = spansClosed [] (spanHandle sp :: closed) rest.
Proof.
  intros Hc. unfold markerEvents. cbn [app spansClosed memb existsb removeb List.filter].
  rewrite Hc, Nat.eqb_refl. reflexivity.
Qed.

Lemma spansClosed_call (name : string) (t : target) (sp : Span) (parent : SpanContext)
      (url : string) (hdr : gmap string (list string)) (res : goError + Response)
      (closed : list nat) (rest : list Event) :
  memb (spanHandle sp) closed = false ->
  spansClosed [] closed (callEvents name t sp parent url hdr res ++ rest)
  = spansClosed [] (spanHandle sp :: closed) rest.
Proof.
  intros Hc. unfold callEvents, closeEvents.
  destruct res; cbn [app spansClosed memb existsb removeb List.filter];
    rewrite Hc, Nat.eqb_refl; reflexivity.
Qed.

Lemma afterStart_drawn (ctx : Context) (g : IDGenerator) :
  drawn (afterStart ctx g) = S (drawn g).
Proof. apply newSpanContext_drawn. Qed.

Lemma handlerGen_drawn (r : Request) (g : IDGenerator) :
  drawn (handlerGen r g) = S (drawn g).
Proof. apply newSpanContext_drawn. Qed.

Lemma memb_one (h x : nat) : h <> x -> memb h [x] = false.
Proof. intros H. unfold memb. simpl. apply Nat.eqb_neq in H. now rewrite H. Qed.

Lemma memb_two (h x y : nat) : h <> x -> h <> y -> memb h [x; y] = false.
Proof.
  intros Hx Hy. unfold memb. simpl.
  apply Nat.eqb_neq in Hx, Hy. now rewrite Hx, Hy.
Qed.

Lemma callEvents_bracket (name : string) (t : target) (sp : Span) (parent : SpanContext)
      (url : string) (hdr : gmap string (list string)) (res : goError + Response) :
  callEvents name t sp parent url hdr res
  = (SpanStarted name sp parent
       :: ([RequestSent t url hdr; ResponseReceived t res] ++ closeEvents t res)
       ++ [SpanEnded sp])%list.
Proof. unfold callEvents. now rewrite <- app_assoc. Qed.

(** C8: every span a handler or a resolver starts is ended exactly once,
    after its start, on every exit path and whatever the remote calls
    returned; the spans wrapping [getLocation], [getWeather] and the
    downstream call are started first and ended last by their wrapping
    function (their [End] is the last event before its return). *)
Theorem C8_spans_ended_exactly_once
        (cfgA' cfgB' : Config) (env : ServiceB.Providers) (serviceB : ServiceA.Downstream_t)
        (rA rB : Request) (stA stB st : State) (ctx : Context) (zipCode city : string) :
  endedOnce (newEvents stB (snd (ServiceB.temperatureHandler cfgB' env newWriter rB stB)))
  /\ endedOnce (newEvents stA (snd (ServiceA.zipCodeHandler cfgA' serviceB newWriter rA stA)))
  /\ (endedOnce (newEvents st (snd (ServiceB.getLocation env ctx zipCode st)))
      /\ exists sp middle,
          newEvents st (snd (ServiceB.getLocation env ctx zipCode st))
          = (SpanStarted "Chamada externa: getLocation" sp (currentSpan ctx)
               :: middle ++ [SpanEnded sp])%list)
  /\ (endedOnce (newEvents st (snd (ServiceB.getWeather env ctx city st)))
      /\ exists sp middle,
          newEvents st (snd (ServiceB.getWeather env ctx city st))
          = (SpanStarted "Chamada externa: getWeather" sp (currentSpan ctx)
               :: middle ++ [SpanEnded sp])%list)
  /\ (snd (decodedRequest rA) = None ->
      String.eqb (Method rA) "POST" = true ->
      isValidZipCode (ServiceA.CEP (fst (decodedRequest rA))) = true ->
      exists marker sp parent middle,
        newEvents stA (snd (ServiceA.zipCodeHandler cfgA' serviceB newWriter rA stA))
        = (marker ++ SpanStarted "Chamada externa: getTemperatureByZipCode" sp parent
             :: middle ++ [SpanEnded sp])%list).
Proof.
  split; [|split; [|split; [|split]]].
  - rewrite temperatureHandler_run. cbv zeta.
    assert (H1 : S (drawn (idgen stB)) <> drawn (idgen stB)) by lia.
    assert (H2 : S (S (drawn (idgen stB))) <> S (drawn (idgen stB))) by lia.
    assert (H3 : S (S (drawn (idgen stB))) <> drawn (idgen stB)) by lia.
    destruct (negb _); [|destruct (_ || _); [|destruct (isErr _)]];
      cbn [fst snd]; rewrite newEvents_app; apply spansClosed_endedOnce;
      unfold handlerMarker, locationEvents, weatherEvents.
    + rewrite <- (app_nil_r (markerEvents _ _ _)), spansClosed_marker; reflexivity.
    + rewrite spansClosed_marker by reflexivity.
      rewrite <- (app_nil_r (callEvents _ _ _ _ _ _ _)), spansClosed_call; [reflexivity|].
      cbn [startSpan spanHandle]. rewrite handlerGen_drawn. now apply memb_one.
    + rewrite spansClosed_marker by reflexivity.
      rewrite spansClosed_call
        by (cbn [startSpan spanHandle]; rewrite handlerGen_drawn; now apply memb_one).
      rewrite <- (app_nil_r (callEvents _ _ _ _ _ _ _)), spansClosed_call; [reflexivity|].
      cbn [startSpan spanHandle]. rewrite afterStart_drawn, handlerGen_drawn.
      now apply memb_two.
    + rewrite spansClosed_marker by reflexivity.
      rewrite spansClosed_call
        by (cbn [startSpan spanHandle]; rewrite handlerGen_drawn; now apply memb_one).
      rewrite <- (app_nil_r (callEvents _ _ _ _ _ _ _)), spansClosed_call; [reflexivity|].
      cbn [startSpan spanHandle]. rewrite afterStart_drawn, handlerGen_drawn.
      now apply memb_two.
  - rewrite zipCodeHandler_run. cbv zeta.
    assert (H1 : S (drawn (idgen stA)) <> drawn (idgen stA)) by lia.
    destruct (negb _); [|destruct (snd (decodedRequest rA)); [|destruct (negb _)]];
      cbn [fst snd]; rewrite newEvents_app; apply spansClosed_endedOnce;
      unfold handlerMarker, downstreamEvents; cbv zeta.
    + rewrite <- (app_nil_r (markerEvents _ _ _)), spansClosed_marker; reflexivity.
    + rewrite <- (app_nil_r (markerEvents _ _ _)), spansClosed_marker; reflexivity.
    + rewrite <- (app_nil_r (markerEvents _ _ _)), spansClosed_marker; reflexivity.
    + rewrite spansClosed_marker by reflexivity.
      rewrite <- (app_nil_r (callEvents _ _ _ _ _ _ _)), spansClosed_call; [reflexivity|].
      cbn [startSpan spanHandle]. rewrite handlerGen_drawn. now apply memb_one.
  - rewrite getLocation_run. cbn [snd]. rewrite newEvents_app. split.
    + apply spansClosed_endedOnce. unfold locationEvents.
      rewrite <- (app_nil_r (callEvents _ _ _ _ _ _ _)), spansClosed_call; reflexivity.
    + unfold locationEvents. rewrite callEvents_bracket. eauto.
  - rewrite getWeather_run. cbn [snd]. rewrite newEvents_app. split.
    + apply spansClosed_endedOnce. unfold weatherEvents.
      rewrite <- (app_nil_r (callEvents _ _ _ _ _ _ _)), spansClosed_call; reflexivity.
    + unfold weatherEvents. rewrite callEvents_bracket. eauto.
  - intros Hdec Hpost Hvalid. rewrite zipCodeHandler_run. cbv zeta.
    rewrite Hpost, Hdec, Hvalid. cbn [negb fst snd]. rewrite newEvents_app.
    unfold downstreamEvents. cbv zeta. rewrite callEvents_bracket. eauto.
Qed.
End SpanLifecycle.

(** ** The entry service: relaying the downstream result *)

Section Relay.

Import ServiceA.

Lemma relay_document (w : ResponseWriter) (status : nat) (hdr : gmap string (list string))
      (city : string) (c f k : float) :
  status <> StatusNotFound ->
  is_finite c = true -> is_finite f = true -> is_finite k = true ->
  relayResponse w (mkResponse status hdr [ChunkJSON (responseDoc city c f k)])
  = Encode (Some (responseDoc city c f k))
      (SetHeader "Content-Type" "application/json" (WriteHeader status w)).
Proof.
  intros Hs Hc Hf Hk. unfold relayResponse. cbn [StatusCode RespBody].
  apply Nat.eqb_neq in Hs. rewrite Hs.
  unfold Decode, responseDoc, JSON.unmarshalStruct, JSON.decodeObject.
  cbn [fold_left fst snd JSON.findField responseFields List.find JSON.fname JSON.fstore
       String.eqb Ascii.eqb Bool.eqb andb JSON.storeString JSON.storeFloat JSON.saveError
       zeroZipCodeResponse City TempC TempF TempK].
  rewrite Hc, Hf, Hk.
  cbn [fst snd JSON.saveError City TempC TempF TempK].
  unfold marshal, JSON.encodeFloat. cbn [City TempC TempF TempK].
  now rewrite Hc, Hf, Hk.
Qed.

Lemma written_status (code : nat) (j : JSON.value) :
  informational code = false ->
  finish (Encode (Some j) (SetHeader "Content-Type" "application/json"
                             (WriteHeader code newWriter)))
  = mkResponse code ∅ [ChunkJSON j].
Proof.
  intros Hc. unfold Encode, Write, SetHeader, WriteHeader, finish, newWriter.
  cbn [wroteHeader wHeader wStatus wSent wBody]. rewrite Hc.
  cbn [wroteHeader wHeader wStatus wSent wBody]. reflexivity.
Qed.

(** C7, as the code has it: once the request has passed validation, the
    answer to the caller is determined by the reply of the downstream
    call.  A transport failure becomes 500 with the error text; a
    downstream 404 becomes 404 with the fixed message "can not find
    zipcode"; any other reply whose body does not decode into the response
    fields becomes 500 with the decoder's error text in place of the
    downstream body; a downstream 500 becomes 500 in every case; and a
    reply with a final status other than 404 whose body is the document of
    the four response fields is relayed with status and body unchanged. *)
Theorem C7_relay_of_downstream_result
        (cfg : Config) (serviceB : Downstream_t) (r : Request) (st : State) :
  let out := finish (fst (fst (zipCodeHandler cfg serviceB newWriter r st))) in
  let res := downstreamReply serviceB r (idgen st) in
  Method r = "POST" ->
  snd (decodedRequest r) = None ->
  isValidZipCode (CEP (fst (decodedRequest r))) = true ->
  (forall err, res = inl err ->
     StatusCode out = StatusInternalServerError
     /\ RespBody out = [ChunkText (ErrorText err)])
  /\ (forall resp, res = inr resp -> StatusCode resp = StatusNotFound ->
        StatusCode out = StatusNotFound
        /\ RespBody out = [ChunkText (Msg "can not find zipcode")])
  /\ (forall resp e, res = inr resp -> StatusCode resp <> StatusNotFound ->
        snd (Decode responseFields (RespBody resp) zeroZipCodeResponse) = Some e ->
        StatusCode out = StatusInternalServerError
        /\ RespBody out = [ChunkText (ErrorText e)])
  /\ (forall resp, res = inr resp -> StatusCode resp = StatusInternalServerError ->
        StatusCode out = StatusInternalServerError)
  /\ (forall status hdr city c f k,
        res = inr (mkResponse status hdr [ChunkJSON (responseDoc city c f k)]) ->
        status <> StatusNotFound -> informational status = false ->
        is_finite c = true -> is_finite f = true -> is_finite k = true ->
        StatusCode out = status
        /\ RespBody out = [ChunkJSON (responseDoc city c f k)]).
Proof.
  cbv zeta. intros Hpost Hdec Hvalid.
  rewrite zipCodeHandler_run. cbv zeta.
  rewrite Hpost, Hdec, Hvalid. cbn [String.eqb Ascii.eqb Bool.eqb andb negb fst snd].
  fold (downstreamReply serviceB r (idgen st)).
  set (res := downstreamReply serviceB r (idgen st)).
  split; [|split; [|split; [|split]]].
  - intros err ->. cbn [relayValue]. now apply newWriter_error_status.
  - intros resp -> Hs. cbn [relayValue]. unfold relayResponse. rewrite Hs.
    cbn [Nat.eqb]. now apply newWriter_error_status.
  - intros resp e -> Hs He. cbn [relayValue]. unfold relayResponse.
    apply Nat.eqb_neq in Hs. rewrite Hs.
    destruct (Decode responseFields (RespBody resp) zeroZipCodeResponse) as [z err].
    cbn [snd] in He. subst err. now apply newWriter_error_status.
  - intros resp -> Hs. cbn [relayValue]. unfold relayResponse. rewrite Hs.
    cbn [Nat.eqb].
    destruct (Decode responseFields (RespBody resp) zeroZipCodeResponse) as [z [e|]].
    + now apply newWriter_error_status.
    + unfold Encode, Write, SetHeader, WriteHeader, finish, newWriter.
      cbn [wroteHeader wHeader wStatus wSent wBody informational Nat.leb andb].
      destruct (marshal z); reflexivity.
  - intros status hdr city c f k -> Hs Hinf Hc Hf Hk. cbn [relayValue].
    rewrite relay_document by assumption.
    rewrite written_status by assumption. split; reflexivity.
Qed.

End Relay.

Lemma C7_relay_of_downstream_result_witness :
  StatusCode (finish (fst (fst (ServiceA.zipCodeHandler cfgA (realServiceB providersHappy)
                                  newWriter (requestA sampleHeader (cepBody "01310900"))
                                  (initState (counterStream 1))))))
  = StatusOK
  /\ RespBody (finish (fst (fst (ServiceA.zipCodeHandler cfgA (realServiceB providersHappy)
                                   newWriter (requestA sampleHeader (cepBody "01310900"))
                                   (initState (counterStream 1))))))
     = [ChunkJSON (responseDoc "Sao Paulo" 25 77 298)].
Proof.
  destruct (C7_relay_of_downstream_result cfgA (realServiceB providersHappy)
              (requestA sampleHeader (cepBody "01310900")) (initState (counterStream 1)))
    as [_ [_ [_ [_ H]]]].
  - reflexivity.
  - reflexivity.
  - reflexivity.
  - apply (H StatusOK {[ "Content-Type" := ["application/json"] ]} "Sao Paulo"
             25%float 77%float 298%float).
    + vm_compute. reflexivity.
    + discriminate.
    + reflexivity.
    + reflexivity.
    + reflexivity.
    + reflexivity.
Defined.

(** C7, as stated, fails: when the weather provider is down, the
    resolution service answers 500 with the body "failed to get weather
    info"; the entry service answers 500 as well, but with the JSON
    decoder's error text as body, not the downstream body. *)
Lemma C7_counterexample :
  ~ (forall (cfg : Config) (serviceB : ServiceA.Downstream_t) (r : Request) (st : State)
            (resp : Response),
        Method r = "POST" ->
        snd (decodedRequest r) = None ->
        isValidZipCode (ServiceA.CEP (fst (decodedRequest r))) = true ->
        downstreamReply serviceB r (idgen st) = inr resp ->
        StatusCode (finish (fst (fst (ServiceA.zipCodeHandler cfg serviceB newWriter r st))))
        = StatusCode resp
        /\ RespBody (finish (fst (fst (ServiceA.zipCodeHandler cfg serviceB newWriter r st))))
           = RespBody resp).
Proof.
  intros H.
  destruct (H cfgA (realServiceB providersWeatherDown)
              (requestA sampleHeader (cepBody "01310900")) (initState (counterStream 1))
              (mkResponse StatusInternalServerError
                 {[ "Content-Type" := ["text/plain; charset=utf-8"];
                    "X-Content-Type-Options" := ["nosniff"] ]}
                 [ChunkText (Msg "failed to get weather info")]))
    as [_ Hbody].
  - reflexivity.
  - reflexivity.
  - reflexivity.
  - vm_compute. reflexivity.
  - vm_compute in Hbody. discriminate Hbody.
Qed.

(** ** The entry service: bodies without a postal code *)

Section MissingCep.

Import ServiceA.

Lemma findField_cep (key : string) :
  JSON.findField requestFields key
  = if String.eqb (JSON.foldName key) "CEP" then List.head requestFields else None.
Proof.
  unfold JSON.findField, requestFields.
  cbn [List.find JSON.fname List.head].
  destruct (String.eqb "cep" key) eqn:E.
  - apply String.eqb_eq in E. subst key. reflexivity.
  - change (JSON.foldName "cep") with "CEP".
    rewrite (String.eqb_sym "CEP"). now destruct (String.eqb (JSON.foldName key) "CEP").
Qed.





(** What the handler does with that body, whatever the downstream
    service answers: the decoded request holds the postal code, and the
    code passes validation and is sent downstream. *)
Lemma upper_case_key_is_forwarded
      (cfg : Config) (serviceB : Downstream_t) (hdr : gmap string (list string)) (st : State) :
  let r := requestA hdr [ChunkJSON (JSON.JObj [("CEP", JSON.JStr "01310900")])] in
  let run := zipCodeHandler cfg serviceB newWriter r st in
  decodedRequest r = (mkZipCodeRequest "01310900", None)
  /\ exists h,
       requestsSent (newEvents st (snd run))
       = [RequestSent Downstream (downstreamURL "01310900") h].
Proof.
  cbv zeta.
  assert (Hdec : decodedRequest
                   (requestA hdr [ChunkJSON (JSON.JObj [("CEP", JSON.JStr "01310900")])])
                 = (mkZipCodeRequest "01310900", None)) by reflexivity.
  split; [exact Hdec|].
  rewrite zipCodeHandler_run. cbv zeta. rewrite Hdec.
  cbn [Method requestA String.eqb Ascii.eqb Bool.eqb andb negb fst snd CEP].
  change (isValidZipCode "01310900") with true. cbn [negb fst snd].
  rewrite newEvents_app. eexists.
  unfold handlerMarker, markerEvents, downstreamEvents, callEvents, closeEvents.
  destruct (serviceB _ _); reflexivity.
Qed.

End MissingCep.

(** ** Validation in the two services *)

Lemma isValidZipCode_iff (zipCode : string) :
  isValidZipCode zipCode = true
  <-> String.length zipCode = 8
      /\ Forall (fun c => isDigit c = true) (list_ascii_of_string zipCode).
Proof. rewrite isValidZipCode_eightDigits. apply eightDigits_iff. Qed.

(** The resolution service rejects exactly the codes whose length is not
    eight bytes. *)
Lemma temperatureHandler_rejects_by_length
      (cfg : Config) (env : ServiceB.Providers) (r : Request) (st : State) :
  let run := ServiceB.temperatureHandler cfg env newWriter r st in
  String.length (Query_Get (Query r) "zipcode") <> 8 ->
  StatusCode (finish (fst (fst run))) = StatusPreconditionFailed
  /\ RespBody (finish (fst (fst run))) = [ChunkText (Msg "invalid zipcode")]
  /\ requestsSent (newEvents st (snd run)) = [].
Proof.
  cbv zeta. intros Hlen. rewrite temperatureHandler_run. cbv zeta.
  apply Nat.eqb_neq in Hlen. rewrite Hlen. cbn [negb fst snd].
  rewrite newEvents_app. repeat split.
Qed.

Lemma plain_temperatureHandler_rejects_by_length
      (env : ServiceB.Providers) (r : Request) (st : State) :
  let run := ServiceBPlain.temperatureHandler env newWriter r st in
  String.length (Query_Get (Query r) "zipcode") <> 8 ->
  StatusCode (finish (fst run)) = 422
  /\ RespBody (finish (fst run)) = [ChunkText (Msg "invalid zipcode")]
  /\ snd run = st.
Proof.
  cbv zeta. intros Hlen. rewrite plain_temperatureHandler_run. cbv zeta.
  apply Nat.eqb_neq in Hlen. rewrite Hlen. cbn [negb fst snd]. repeat split.
Qed.

(** The entry service answers 412 without any outbound request whenever
    the decoded postal code is not eight ASCII digits. *)
Lemma zipCodeHandler_rejects_by_shape
      (cfg : Config) (serviceB : ServiceA.Downstream_t) (r : Request) (st : State) :
  let run := ServiceA.zipCodeHandler cfg serviceB newWriter r st in
  Method r = "POST" ->
  snd (decodedRequest r) = None ->
  eightDigits (ServiceA.CEP (fst (decodedRequest r))) = false ->
  StatusCode (finish (fst (fst run))) = StatusPreconditionFailed
  /\ RespBody (finish (fst (fst run))) = [ChunkText (Msg "invalid zipcode")]
  /\ requestsSent (newEvents st (snd run)) = [].
Proof.
  cbv zeta. intros Hpost Hdec Hshape. rewrite zipCodeHandler_run. cbv zeta.
  rewrite Hpost, Hdec, isValidZipCode_eightDigits, Hshape.
  cbn [String.eqb Ascii.eqb Bool.eqb andb negb fst snd].
  rewrite newEvents_app. repeat split.
Qed.

Lemma plain_zipCodeHandler_rejects_by_shape
      (serviceB : ServiceA.Downstream_t) (r : Request) (st : State) :
  let run := ServiceAPlain.zipCodeHandler serviceB newWriter r st in
  Method r = "POST" ->
  snd (decodedRequest r) = None ->
  eightDigits (ServiceA.CEP (fst (decodedRequest r))) = false ->
  StatusCode (finish (fst run)) = 422
  /\ RespBody (finish (fst run)) = [ChunkText (Msg "invalid zipcode")]
  /\ snd run = st.
Proof.
  cbv zeta. intros Hpost Hdec Hshape. unfold ServiceAPlain.zipCodeHandler.
  rewrite Hpost. cbn [String.eqb Ascii.eqb Bool.eqb andb negb].
  unfold decodedRequest in Hdec, Hshape.
  destruct (Decode ServiceA.requestFields (ReqBody r) (ServiceA.mkZipCodeRequest ""))
    as [req err].
  cbn [fst snd] in Hdec, Hshape. subst err.
  rewrite isValidZipCode_eightDigits, Hshape. cbn [negb]. repeat split.
Qed.

(** C2 at the input ["abcdefgh"]: the entry service's validator accepts
    exactly the strings of eight ASCII digits, hence rejects it; the
    resolution service, in both variants, tests the length only, accepts
    it, queries the location provider with it and answers 200. *)
Theorem C2_resolution_service_accepts_non_digits :
  (forall zipCode : string,
      isValidZipCode zipCode = true
      <-> String.length zipCode = 8
          /\ Forall (fun c => isDigit c = true) (list_ascii_of_string zipCode))
  /\ isValidZipCode "abcdefgh" = false
  /\ (let run := ServiceB.temperatureHandler cfgB providersHappy newWriter
                   (requestB "abcdefgh") (initState (counterStream 1)) in
      StatusCode (finish (fst (fst run))) = StatusOK
      /\ requestsTo LocationProvider (log (snd run))
         = [RequestSent LocationProvider "https://viacep.com.br/ws/abcdefgh/json/" ∅])
  /\ (let run := ServiceBPlain.temperatureHandler providersHappy newWriter
                   (requestB "abcdefgh") (initState (counterStream 1)) in
      StatusCode (finish (fst run)) = StatusOK
      /\ requestsTo LocationProvider (log (snd run))
         = [RequestSent LocationProvider "https://viacep.com.br/ws/abcdefgh/json/" ∅]).
Proof.
  split; [exact isValidZipCode_iff|].
  split; [reflexivity|].
  split; cbv zeta; split; vm_compute; reflexivity.
Qed.

(** C5 at the input ["abcdefgh"] sent to the resolution service: the code
    fails the shape rule, yet the handler does not answer with the
    validation failure status and sends requests to both providers.  For
    codes whose length is not eight, and in the entry service for every
    code that fails the shape rule, no request is sent (lemmas
    [temperatureHandler_rejects_by_length], [zipCodeHandler_rejects_by_shape]). *)
Theorem C5_resolution_service_calls_providers_on_bad_shape :
  let run := ServiceB.temperatureHandler cfgB providersHappy newWriter
               (requestB "abcdefgh") (initState (counterStream 1)) in
  eightDigits "abcdefgh" = false
  /\ StatusCode (finish (fst (fst run))) <> StatusPreconditionFailed
  /\ List.length (requestsSent (log (snd run))) = 2.
Proof.
  cbv zeta. split; [reflexivity|]. split.
  - vm_compute. discriminate.
  - vm_compute. reflexivity.
Qed.

(** ** Trace context across the hop *)

Lemma newSpanContext_stream (parent : SpanContext) (g : IDGenerator) :
  stream (snd (newSpanContext parent g)) = stream g.
Proof. unfold newSpanContext. now destruct (IsValid parent). Qed.

Lemma afterStart_stream (ctx : Context) (g : IDGenerator) :
  stream (afterStart ctx g) = stream g.
Proof. apply newSpanContext_stream. Qed.

Lemma handlerGen_stream (r : Request) (g : IDGenerator) :
  stream (handlerGen r g) = stream g.
Proof. apply newSpanContext_stream. Qed.

Lemma newSpanContext_root (g : IDGenerator) :
  fst (newSpanContext (currentSpan Background) g)
  = mkSpanContext (fst (stream g (drawn g))) (snd (stream g (drawn g))) true false.
Proof. reflexivity. Qed.

(** The trace context the entry service sends downstream does not depend
    on the inbound request: it is a root span context made of the fourth
    draw of the id generator (after the server span, the marker span and
    the span of the call), whatever trace the request arrived in. *)
Lemma downstream_headers_are_a_fresh_root
      (cfg : Config) (serviceB : ServiceA.Downstream_t)
      (ids : nat -> string * string) (r : Request) :
  Method r = "POST" ->
  snd (decodedRequest r) = None ->
  isValidZipCode (ServiceA.CEP (fst (decodedRequest r))) = true ->
  sentDownstream (log (snd (serviceA_run cfg serviceB ids r)))
  = Some (ServiceA.downstreamURL (ServiceA.CEP (fst (decodedRequest r))),
          Inject (mkContext (mkSpanContext (fst (ids 3)) (snd (ids 3)) true false)) ∅).
Proof.
  intros Hpost Hdec Hvalid.
  unfold serviceA_run, otelhttp_NewHandler. go_run.
  rewrite zipCodeHandler_run. cbv zeta.
  change (decodedRequest (mkRequest (Method r) (ReqHeader r) (Query r) (ReqBody r) ?c))
    with (decodedRequest r).
  cbn [Method]. rewrite Hpost, Hdec, Hvalid.
  cbn [String.eqb Ascii.eqb Bool.eqb andb negb fst snd log initState].
  unfold handlerMarker, markerEvents, downstreamEvents, callEvents. cbv zeta.
  cbn [app sentDownstream]. f_equal. f_equal.
  unfold transportHeader. rewrite newSpanContext_root.
  rewrite afterStart_stream, afterStart_drawn, handlerGen_stream, handlerGen_drawn.
  cbn [idgen]. rewrite newSpanContext_stream, newSpanContext_drawn. reflexivity.
Qed.

(** C1 at a request that arrives in trace 4bf92f3577b34da6a3ce929d0e0e4736
    with a well-formed postal code: the entry service works under that
    trace id; its [Inject] writes the context into the headers of the
    inbound request, while the outbound request carries the context of a
    new root span; the resolution service extracts that one, so the trace
    id it observes differs from the one of the entry service. *)
Theorem C1_trace_id_is_not_carried_across_the_hop :
  let runA := serviceA_run cfgA (realServiceB providersHappy) (counterStream 1)
                (requestA sampleHeader (cepBody "01310900")) in
  let sent := sentDownstream (log (snd runA)) in
  let runB := serviceB_run cfgB providersHappy (counterStream 4096)
                "http://service-b:8081/zipcode?zipcode=01310900"
                {[ "Traceparent" :=
                     ["00-00000000000000000000000000000004-0000000000000004-01"] ]} in
  observedTraceID (log (snd runA)) = Some "4bf92f3577b34da6a3ce929d0e0e4736"
  /\ Header_Get (ReqHeader (snd (fst runA))) "traceparent"
     = "00-4bf92f3577b34da6a3ce929d0e0e4736-0000000000000002-01"
  /\ sent = Some ("http://service-b:8081/zipcode?zipcode=01310900",
                  {[ "Traceparent" :=
                       ["00-00000000000000000000000000000004-0000000000000004-01"] ]})
  /\ observedTraceID (log (snd runB)) = Some "00000000000000000000000000000004"
  /\ observedTraceID (log (snd runB)) <> observedTraceID (log (snd runA))
  /\ StatusCode (finish (fst (fst runA))) = StatusOK.
Proof.
  cbv zeta. repeat split; try (vm_compute; reflexivity).
  vm_compute. discriminate.
Qed.

(** ** Instances at the sample inputs *)

Lemma C6_location_completes_before_weather_witness :
  requestsTo WeatherProvider
    (newEvents (initState (counterStream 1))
       (snd (ServiceB.temperatureHandler cfgB providersUnknown newWriter
               (requestB "01310900") (initState (counterStream 1))))) = []
  /\ StatusCode (finish (fst (fst (ServiceB.temperatureHandler cfgB providersUnknown newWriter
                                     (requestB "01310900") (initState (counterStream 1))))))
     = StatusNotFound
  /\ RespBody (finish (fst (fst (ServiceB.temperatureHandler cfgB providersUnknown newWriter
                                   (requestB "01310900") (initState (counterStream 1))))))
     = [ChunkText (Msg "can not find zipcode")].
Proof.
  apply (C6_location_completes_before_weather cfgB providersUnknown
           (requestB "01310900") (initState (counterStream 1))).
  - reflexivity.
  - right. reflexivity.
Defined.

Lemma C8_spans_ended_exactly_once_witness :
  exists marker sp parent middle,
    newEvents (initState (counterStream 1))
      (snd (ServiceA.zipCodeHandler cfgA (realServiceB providersWeatherDown) newWriter
              (requestA sampleHeader (cepBody "01310900")) (initState (counterStream 1))))
    = (marker ++ SpanStarted "Chamada externa: getTemperatureByZipCode" sp parent
         :: middle ++ [SpanEnded sp])%list.
Proof.
  apply (C8_spans_ended_exactly_once cfgA cfgB providersWeatherDown
           (realServiceB providersWeatherDown)
           (requestA sampleHeader (cepBody "01310900")) (requestB "01310900")
           (initState (counterStream 1)) (initState (counterStream 1))
           (initState (counterStream 1)) Background "01310900" "Sao Paulo").
  - reflexivity.
  - reflexivity.
  - reflexivity.
Defined.

(** ** The propagator round trip *)

Section Propagator.

Lemma lowerHex_not_dash (c : ascii) :
  isLowerHex c = true -> Ascii.eqb c "-" = false.
Proof.
  intros H. destruct (Ascii.eqb c "-") eqn:E; [|reflexivity].
  apply Ascii.eqb_eq in E. subst c. discriminate H.
Qed.

Lemma cut_hex (part rest : string) :
  allLowerHex part = true ->
  cut (part ++ String "-" rest) = (part, rest).
Proof.
  induction part as [|c part IH]; intros H.
  - reflexivity.
  - cbn [allLowerHex] in H. apply andb_true_iff in H as [Hc Hp].
    change (String c part ++ String "-" rest) with (String c (part ++ String "-" rest)).
    cbn [cut]. rewrite (lowerHex_not_dash c Hc), (IH Hp). reflexivity.
Qed.

Lemma cut_no_dash (part : string) :
  allLowerHex part = true -> cut part = (part, "").
Proof.
  induction part as [|c part IH]; intros H; cbn [cut].
  - reflexivity.
  - cbn [allLowerHex] in H. apply andb_true_iff in H as [Hc Hp].
    rewrite (lowerHex_not_dash c Hc), (IH Hp). reflexivity.
Qed.

Lemma extractPart_hex (n : nat) (part rest : string) :
  hexPart n part = true ->
  extractPart n (part ++ String "-" rest) = Some (part, rest).
Proof.
  intros H. unfold extractPart. pose proof H as H'.
  unfold hexPart in H'. apply andb_true_iff in H' as [_ Hhex].
  rewrite (cut_hex part rest Hhex), H. reflexivity.
Qed.

Lemma Header_Get_Set (h : gmap string (list string)) (key value : string) :
  Header_Get (Header_Set h key value) key = value.
Proof. unfold Header_Get, Header_Set. now rewrite lookup_insert_eq. Qed.

(** What [Inject] writes, [extract] reads back: same trace id, span id and
    sampling flag, marked as remote. *)
Lemma extract_Inject (sc : SpanContext) (h : gmap string (list string)) :
  IsValid sc = true ->
  extract (Inject (mkContext sc) h)
  = mkSpanContext (TraceID sc) (SpanID sc) (Sampled sc) true.
Proof.
  intros Hv. unfold Inject. cbn [currentSpan]. rewrite Hv.
  unfold extract. rewrite Header_Get_Set.
  pose proof Hv as Hv'. unfold IsValid in Hv'.
  apply andb_true_iff in Hv' as [Ht Hs].
  apply andb_true_iff in Ht as [Ht _]. apply andb_true_iff in Hs as [Hs _].
  change ("00-" ++ TraceID sc ++ "-" ++ SpanID sc ++ "-"
            ++ (if Sampled sc then "01" else "00"))
    with ("00" ++ String "-" (TraceID sc ++ String "-" (SpanID sc ++ String "-"
            (if Sampled sc then "01" else "00")))).
  replace (String.eqb ("00" ++ String "-" (TraceID sc ++ String "-" (SpanID sc ++ String "-"
            (if Sampled sc then "01" else "00")))) "") with false by reflexivity.
  rewrite (extractPart_hex 2 "00") by reflexivity.
  change (254 <? hexValue 0 "00") with false. cbv iota.
  rewrite (extractPart_hex 32 (TraceID sc)) by exact Ht.
  rewrite (extractPart_hex 16 (SpanID sc)) by exact Hs.
  assert (Hid : forall b, IsValid (mkSpanContext (TraceID sc) (SpanID sc) b true) = true)
    by (intros b; exact Hv).
  destruct (Sampled sc).
  - change (extractPart 2 "01") with (Some ("01", "")). cbv iota beta.
    change (hexValue 0 "00" =? 0) with true. change (hexValue 0 "01") with 1.
    cbn [String.eqb negb orb andb Nat.ltb Nat.leb Nat.odd Nat.even].
    now rewrite Hid.
  - change (extractPart 2 "00") with (Some ("00", "")). cbv iota beta.
    change (hexValue 0 "00" =? 0) with true. change (hexValue 0 "00") with 0.
    cbn [String.eqb negb orb andb Nat.ltb Nat.leb Nat.odd Nat.even].
    now rewrite Hid.
Qed.

Lemma Extract_Inject (ctx : Context) (sc : SpanContext) (h : gmap string (list string)) :
  IsValid sc = true ->
  TraceID (currentSpan (Extract ctx (Inject (mkContext sc) h))) = TraceID sc.
Proof.
  intros Hv. unfold Extract. rewrite (extract_Inject sc h Hv).
  change (IsValid (mkSpanContext (TraceID sc) (SpanID sc) (Sampled sc) true))
    with (IsValid sc).
  now rewrite Hv.
Qed.

End Propagator.

(** ** The trace id each service observes *)

Section ObservedTrace.

Lemma observed_marker (cfg : Config) (sp : Span) (parent : SpanContext) (rest : list Event) :
  observedTraceID (markerEvents cfg sp parent ++ rest) = Some (TraceID (spanContext sp)).
Proof. reflexivity. Qed.

Lemma startSpan_trace (ctx : Context) (g : IDGenerator) :
  IsValid (currentSpan ctx) = true ->
  TraceID (spanContext (startSpan ctx g)) = TraceID (currentSpan ctx).
Proof.
  intros Hv. unfold startSpan, newSpanContext. cbn [spanContext]. now rewrite Hv.
Qed.

Lemma Extract_valid (ctx : Context) (h : gmap string (list string)) :
  IsValid (extract h) = true -> Extract ctx h = mkContext (extract h).
Proof. intros Hv. unfold Extract. now rewrite Hv. Qed.

(** The resolution service works under the trace id of the inbound
    [traceparent] header whenever that header is valid. *)
Lemma resolution_service_observes_inbound_trace
      (cfg : Config) (env : ServiceB.Providers) (ids : nat -> string * string)
      (url : string) (hdr : gmap string (list string)) :
  IsValid (extract hdr) = true ->
  observedTraceID (log (snd (serviceB_run cfg env ids url hdr)))
  = Some (TraceID (extract hdr)).
Proof.
  intros Hv. unfold serviceB_run, otelhttp_NewHandler. go_run.
  rewrite temperatureHandler_run. cbv zeta.
  assert (Hobs : forall rest,
             observedTraceID
               (handlerMarker cfg
                  (mkRequest (Method (inbound url hdr)) (ReqHeader (inbound url hdr))
                     (Query (inbound url hdr)) (ReqBody (inbound url hdr))
                     (mkContext (fst (newSpanContext
                        (currentSpan (Extract (ReqContext (inbound url hdr))
                                        (ReqHeader (inbound url hdr))))
                        (idgen (initState ids))))))
                  (snd (newSpanContext
                     (currentSpan (Extract (ReqContext (inbound url hdr))
                                     (ReqHeader (inbound url hdr))))
                     (idgen (initState ids)))) ++ rest)
             = Some (TraceID (extract hdr))).
  { intros rest. unfold handlerMarker. rewrite observed_marker.
    cbn [ReqContext ReqHeader inbound]. rewrite !(Extract_valid _ hdr Hv).
    now rewrite startSpan_trace. }
  destruct (negb _); [|destruct (_ || _); [|destruct (isErr _)]];
    cbn [fst snd log idgen initState app].
  - rewrite <- (app_nil_r (handlerMarker _ _ _)). apply Hobs.
  - apply Hobs.
  - apply Hobs.
  - apply Hobs.
Qed.

(** The entry service works under the trace id of the inbound header
    whenever that header is valid. *)
Lemma entry_service_observes_inbound_trace
      (cfg : Config) (serviceB : ServiceA.Downstream_t) (ids : nat -> string * string)
      (r : Request) :
  IsValid (extract (ReqHeader r)) = true ->
  observedTraceID (log (snd (serviceA_run cfg serviceB ids r)))
  = Some (TraceID (extract (ReqHeader r))).
Proof.
  intros Hv. unfold serviceA_run, otelhttp_NewHandler. go_run.
  rewrite zipCodeHandler_run. cbv zeta.
  assert (Hobs : forall rest,
             observedTraceID
               (handlerMarker cfg
                  (mkRequest (Method r) (ReqHeader r) (Query r) (ReqBody r)
                     (mkContext (fst (newSpanContext
                        (currentSpan (Extract (ReqContext r) (ReqHeader r)))
                        (idgen (initState ids))))))
                  (snd (newSpanContext
                     (currentSpan (Extract (ReqContext r) (ReqHeader r)))
                     (idgen (initState ids)))) ++ rest)
             = Some (TraceID (extract (ReqHeader r)))).
  { intros rest. unfold handlerMarker. rewrite observed_marker.
    cbn [ReqContext ReqHeader]. rewrite !(Extract_valid _ (ReqHeader r) Hv).
    now rewrite startSpan_trace. }
  destruct (negb _);
    [|destruct (snd (decodedRequest _)); [|destruct (negb _)]];
    cbn [fst snd log idgen initState app];
    try (rewrite <- (app_nil_r (handlerMarker _ _ _))); apply Hobs.
Qed.

(** Across the hop: whatever valid trace the request to the entry service
    arrived in, the resolution service observes the trace id of the
    generator's fourth draw (when that draw is a valid pair of ids), so
    the two trace ids agree only if the random source happens to repeat
    the inbound trace id. *)
Lemma hop_trace_ids
      (cfgA' cfgB' : Config) (env : ServiceB.Providers)
      (idsA idsB : nat -> string * string) (r : Request) :
  Method r = "POST" ->
  snd (decodedRequest r) = None ->
  isValidZipCode (ServiceA.CEP (fst (decodedRequest r))) = true ->
  IsValid (extract (ReqHeader r)) = true ->
  IsValid (mkSpanContext (fst (idsA 3)) (snd (idsA 3)) true false) = true ->
  exists url hdr,
    sentDownstream (log (snd (serviceA_run cfgA' (serviceB_endpoint cfgB' env idsB) idsA r)))
    = Some (url, hdr)
    /\ observedTraceID
         (log (snd (serviceA_run cfgA' (serviceB_endpoint cfgB' env idsB) idsA r)))
       = Some (TraceID (extract (ReqHeader r)))
    /\ observedTraceID (log (snd (serviceB_run cfgB' env idsB url hdr)))
       = Some (fst (idsA 3)).
Proof.
  intros Hpost Hdec Hvalid Hin Hroot.
  eexists _, _. split; [|split].
  - now apply downstream_headers_are_a_fresh_root.
  - now apply entry_service_observes_inbound_trace.
  - rewrite resolution_service_observes_inbound_trace.
    + now rewrite extract_Inject.
    + rewrite extract_Inject by exact Hroot. exact Hroot.
Qed.

End ObservedTrace.

(** * Further properties of the handlers *)

(** ** The entry service: guards before the downstream call *)

Section EntryGuards.

Import ServiceA.

Lemma request_errors_name_cep (kvs : list (string * JSON.value)) :
  forall (acc : ZipCodeRequest * option goError) (e : goError),
    (snd acc = None
     \/ exists v, snd acc = Some (ErrUnmarshalType v "ZipCodeRequest.cep")) ->
    snd (fold_left
           (fun (acc : ZipCodeRequest * option goError) (kv : string * JSON.value) =>
              match JSON.findField requestFields (fst kv) with
              | Some f =>
                  let '(t, e0) := JSON.fstore f (snd kv) (fst acc) in
                  (t, JSON.saveError (snd acc) e0)
              | None => acc
              end) kvs acc) = Some e ->
    exists v, e = ErrUnmarshalType v "ZipCodeRequest.cep".
Proof.
  induction kvs as [|[k v] kvs IH]; intros acc e Hacc Hres; cbn [fold_left] in Hres.
  - destruct Hacc as [Hn|[v Hv]]; [congruence|]. exists v. congruence.
  - eapply IH; [|exact Hres].
    cbn [fst snd]. rewrite findField_cep.
    destruct (String.eqb (JSON.foldName k) "CEP"); [|exact Hacc].
    cbn [List.head requestFields JSON.fstore].
    destruct v as [|b|f|s|l|o]; cbn [JSON.storeString JSON.kindOf snd JSON.saveError];
      destruct Hacc as [Hn|[v' Hv']];
      try (rewrite Hn); try (rewrite Hv'); cbn [JSON.saveError]; eauto.
Qed.

(** X1: a request whose method is not POST is answered 405 "Only POST
    method is allowed" whatever its body is, in both variants of the entry
    service; the body is not consulted and no outbound request is sent. *)
Theorem X1_method_guard
        (cfg : Config) (serviceB : Downstream_t) (r : Request) (st : State) :
  let run := zipCodeHandler cfg serviceB newWriter r st in
  let plain := ServiceAPlain.zipCodeHandler serviceB newWriter r st in
  Method r <> "POST" ->
  (StatusCode (finish (fst (fst run))) = StatusMethodNotAllowed
   /\ RespBody (finish (fst (fst run))) = [ChunkText (Msg "Only POST method is allowed")]
   /\ requestsSent (newEvents st (snd run)) = [])
  /\ (StatusCode (finish (fst plain)) = StatusMethodNotAllowed
      /\ RespBody (finish (fst plain)) = [ChunkText (Msg "Only POST method is allowed")]
      /\ snd plain = st).
Proof.
  cbv zeta. intros Hm. apply String.eqb_neq in Hm. split.
  - rewrite zipCodeHandler_run. cbv zeta. rewrite Hm. cbn [negb fst snd].
    rewrite newEvents_app. repeat split.
  - unfold ServiceAPlain.zipCodeHandler. rewrite Hm. cbn [negb]. repeat split.
Qed.

Lemma X1_method_guard_witness :
  StatusCode (finish (fst (fst (zipCodeHandler cfgA (realServiceB providersHappy) newWriter
                                  (mkRequest "GET" ∅ [] (cepBody "01310900") Background)
                                  (initState (counterStream 1))))))
  = StatusMethodNotAllowed.
Proof.
  apply (X1_method_guard cfgA (realServiceB providersHappy)
           (mkRequest "GET" ∅ [] (cepBody "01310900") Background)
           (initState (counterStream 1))).
  discriminate.
Defined.

(** X2: a POST whose body does not decode into the request is answered 400
    with the decoder's error text and no outbound request is sent, in both
    variants.  The error is EOF for an empty body, and a type error for a
    JSON document that is neither an object nor null and for an object
    whose "cep" holds anything but a string or null. *)
Theorem X2_undecodable_body
        (cfg : Config) (serviceB : Downstream_t) (r : Request) (st : State) (e : goError) :
  let run := zipCodeHandler cfg serviceB newWriter r st in
  let plain := ServiceAPlain.zipCodeHandler serviceB newWriter r st in
  Method r = "POST" ->
  snd (decodedRequest r) = Some e ->
  (StatusCode (finish (fst (fst run))) = StatusBadRequest
   /\ RespBody (finish (fst (fst run))) = [ChunkText (ErrorText e)]
   /\ requestsSent (newEvents st (snd run)) = [])
  /\ (StatusCode (finish (fst plain)) = StatusBadRequest
      /\ RespBody (finish (fst plain)) = [ChunkText (ErrorText e)]
      /\ snd plain = st)
  /\ (ReqBody r = [] -> e = ErrEOF)
  /\ (forall j rest, ReqBody r = ChunkJSON j :: rest ->
        match j with
        | JSON.JNull => False
        | JSON.JObj _ => exists v, e = ErrUnmarshalType v "ZipCodeRequest.cep"
        | _ => e = ErrUnmarshalType (JSON.kindOf j) ""
        end).
Proof.
  cbv zeta. intros Hm Hdec. split; [|split; [|split]].
  - rewrite zipCodeHandler_run. cbv zeta. rewrite Hm, Hdec.
    cbn [String.eqb Ascii.eqb Bool.eqb andb negb fst snd].
    rewrite newEvents_app. repeat split.
  - unfold ServiceAPlain.zipCodeHandler. rewrite Hm.
    cbn [String.eqb Ascii.eqb Bool.eqb andb negb].
    unfold decodedRequest in Hdec.
    destruct (Decode requestFields (ReqBody r) (mkZipCodeRequest "")) as [req err].
    cbn [snd] in Hdec. subst err. repeat split.
  - intros Hb. unfold decodedRequest in Hdec. rewrite Hb in Hdec.
    cbn [Decode snd] in Hdec. congruence.
  - intros j rest Hb. unfold decodedRequest in Hdec. rewrite Hb in Hdec.
    cbn [Decode] in Hdec.
    destruct j as [|b|f|s|l|kvs]; cbn [JSON.unmarshalStruct snd] in Hdec;
      try congruence.
    unfold JSON.decodeObject in Hdec.
    apply (request_errors_name_cep kvs (mkZipCodeRequest "", None));
      [left; reflexivity|exact Hdec].
Qed.

End EntryGuards.

Lemma X2_undecodable_body_witness :
  StatusCode (finish (fst (fst (ServiceA.zipCodeHandler cfgA (realServiceB providersHappy)
                                  newWriter
                                  (requestA ∅ [ChunkText (Msg "cep=01310900")])
                                  (initState (counterStream 1))))))
  = StatusBadRequest
  /\ RespBody (finish (fst (fst (ServiceA.zipCodeHandler cfgA (realServiceB providersHappy)
                                   newWriter
                                   (requestA ∅ [ChunkText (Msg "cep=01310900")])
                                   (initState (counterStream 1))))))
     = [ChunkText (ErrorText ErrJSONSyntax)].
Proof.
  destruct (X2_undecodable_body cfgA (realServiceB providersHappy)
              (requestA ∅ [ChunkText (Msg "cep=01310900")])
              (initState (counterStream 1)) ErrJSONSyntax) as [[Hs [Hb _]] _].
  - reflexivity.
  - reflexivity.
  - split; assumption.
Defined.

(** ** The resolution service: classification and outbound requests *)

Section ResolutionTable.

Import ServiceB.

Variable cfg : Config.
Variable env : Providers.

Lemma temperatureHandler_writer (w : ResponseWriter) (r : Request) (st : State) :
  fst (fst (temperatureHandler cfg env w r st))
  = let zipCode := Query_Get (Query r) "zipcode" in
    if negb (String.length zipCode =? 8) then
      http_Error w (Msg "invalid zipcode") StatusPreconditionFailed
    else
      let lv := locationValue (viacep env (locationURL zipCode)) in
      if isErr (snd lv) || String.eqb (fst lv) "" then
        http_Error w (Msg "can not find zipcode") StatusNotFound
      else
        let wv := weatherValue (weatherapi env (weatherURL (fst lv))) in
        if isErr (snd wv) then
          http_Error w (Msg "failed to get weather info") StatusInternalServerError
        else
          Encode (marshal (response2 (fst lv) (fst wv)))
            (SetHeader "Content-Type" "application/json" w).
Proof.
  rewrite temperatureHandler_run. cbv zeta.
  destruct (negb _); [reflexivity|].
  destruct (_ || _); [reflexivity|].
  destruct (isErr _); reflexivity.
Qed.

Lemma encode_status (m : option JSON.value) :
  StatusCode (finish (Encode m (SetHeader "Content-Type" "application/json" newWriter)))
  = StatusOK.
Proof. destruct m; reflexivity. Qed.

(** X3: the resolution service answers with one of four statuses, and each
    is decided by the first check that fails: 412 exactly when the code is
    not eight bytes long; otherwise 404 exactly when the location call
    failed or gave an empty locality; otherwise 500 exactly when the
    weather call failed; otherwise 200. *)
Theorem X3_resolution_status_table (r : Request) (st : State) :
  let status := StatusCode (finish (fst (fst (temperatureHandler cfg env newWriter r st)))) in
  let zipCode := Query_Get (Query r) "zipcode" in
  let lv := locationValue (viacep env (locationURL zipCode)) in
  let wv := weatherValue (weatherapi env (weatherURL (fst lv))) in
  let badShape := negb (String.length zipCode =? 8) in
  let notFound := isErr (snd lv) || String.eqb (fst lv) "" in
  statusB status = true
  /\ (status = StatusPreconditionFailed <-> badShape = true)
  /\ (status = StatusNotFound <-> badShape = false /\ notFound = true)
  /\ (status = StatusInternalServerError
      <-> badShape = false /\ notFound = false /\ isErr (snd wv) = true)
  /\ (status = StatusOK
      <-> badShape = false /\ notFound = false /\ isErr (snd wv) = false).
Proof.
  cbv zeta. rewrite temperatureHandler_writer. cbv zeta.
  destruct (negb _); [|destruct (_ || _); [|destruct (isErr _)]];
    rewrite ?encode_status;
    (split; [reflexivity|]); repeat split; intros; try discriminate;
    try tauto; try (destruct H as [? ?]; discriminate);
    try (match goal with H : _ /\ _ /\ _ |- _ => destruct H as [? [? ?]]; discriminate end).
Qed.

(** X4: when the location is resolved and the weather call fails (the
    transport fails or the body does not decode), the answer is 500
    "failed to get weather info", in both variants of the service, after
    exactly one request to each provider; nothing of the resolved
    locality is part of the answer. *)
Theorem X4_weather_failure (r : Request) (st : State) (city : string) :
  let run := temperatureHandler cfg env newWriter r st in
  let plain := ServiceBPlain.temperatureHandler env newWriter r st in
  let zipCode := Query_Get (Query r) "zipcode" in
  String.length zipCode = 8 ->
  locationValue (viacep env (locationURL zipCode)) = (city, None) ->
  city <> "" ->
  isErr (snd (weatherValue (weatherapi env (weatherURL city)))) = true ->
  (StatusCode (finish (fst (fst run))) = StatusInternalServerError
   /\ RespBody (finish (fst (fst run))) = [ChunkText (Msg "failed to get weather info")]
   /\ requestsSent (newEvents st (snd run))
      = [RequestSent LocationProvider (locationURL zipCode) ∅;
         RequestSent WeatherProvider (weatherURL city) ∅])
  /\ (StatusCode (finish (fst plain)) = StatusInternalServerError
      /\ RespBody (finish (fst plain)) = [ChunkText (Msg "failed to get weather info")]
      /\ requestsSent (newEvents st (snd plain))
         = [RequestSent LocationProvider (locationURL zipCode) ∅;
            RequestSent WeatherProvider (weatherURL city) ∅]).
Proof.
  cbv zeta. intros Hlen Hloc Hcity Hw.
  assert (Hne : String.eqb city "" = false) by now apply String.eqb_neq.
  split.
  - rewrite temperatureHandler_run. cbv zeta.
    rewrite Hlen, Hloc. cbn [Nat.eqb negb fst snd isErr orb]. rewrite Hne, Hw.
    cbn [fst snd]. rewrite newEvents_app.
    unfold handlerMarker, markerEvents, locationEvents, weatherEvents, callEvents, closeEvents.
    destruct (viacep env _), (weatherapi env _); repeat split.
  - rewrite plain_temperatureHandler_run. cbv zeta.
    rewrite Hlen, Hloc. cbn [Nat.eqb negb fst snd isErr orb]. rewrite Hne, Hw.
    cbn [fst snd]. rewrite newEvents_app.
    unfold plainCallEvents, closeEvents.
    destruct (viacep env _), (weatherapi env _); repeat split.
Qed.

(** X5: in one run the resolution service sends at most one request to
    each provider (nothing is retried), never one to another endpoint, and
    every request it sends has an empty header map: the trace context is
    not passed on to the providers.  No location request is sent for a
    code that is not eight bytes long; for a code of eight digits exactly
    one is sent; and any location request goes to the URL built from the
    raw code. *)
Theorem X5_one_request_per_provider (r : Request) (st : State) :
  let evs := newEvents st (snd (temperatureHandler cfg env newWriter r st)) in
  let zipCode := Query_Get (Query r) "zipcode" in
  List.length (requestsTo LocationProvider evs) <= 1
  /\ List.length (requestsTo WeatherProvider evs) <= 1
  /\ requestsTo Downstream evs = []
  /\ Forall (fun e => requestHeaders e = ∅) evs
  /\ (String.length zipCode <> 8 -> requestsTo LocationProvider evs = [])
  /\ (eightDigits zipCode = true ->
      requestsTo LocationProvider evs = [RequestSent LocationProvider (locationURL zipCode) ∅])
  /\ Forall (fun e => e = RequestSent LocationProvider (locationURL zipCode) ∅)
       (requestsTo LocationProvider evs).
Proof.
  cbv zeta. rewrite temperatureHandler_run. cbv zeta. unfold eightDigits.
  destruct (String.length (Query_Get (Query r) "zipcode") =? 8) eqn:Elen; cbn [negb andb].
  - apply Nat.eqb_eq in Elen.
    destruct (_ || _); [|destruct (isErr _)]; cbn [fst snd]; rewrite newEvents_app;
      unfold handlerMarker, markerEvents, locationEvents, weatherEvents, callEvents, closeEvents;
      destruct (viacep env _); try destruct (weatherapi env _);
      cbn [app requestsTo List.filter isRequestTo List.length];
      repeat split; try lia; try discriminate; try (intros; reflexivity);
      try (intros Hne; now elim Hne);
      repeat (constructor; try reflexivity).
  - cbn [fst snd]. rewrite newEvents_app.
    unfold handlerMarker, markerEvents.
    cbn [app requestsTo List.filter isRequestTo List.length].
    repeat split; try lia; try discriminate; repeat (constructor; try reflexivity).
Qed.

End ResolutionTable.

Lemma X4_weather_failure_witness :
  StatusCode (finish (fst (fst (ServiceB.temperatureHandler cfgB providersWeatherDown newWriter
                                  (requestB "01310900") (initState (counterStream 1))))))
  = StatusInternalServerError.
Proof.
  apply (X4_weather_failure cfgB providersWeatherDown (requestB "01310900")
           (initState (counterStream 1)) "Sao Paulo").
  - reflexivity.
  - reflexivity.
  - discriminate.
  - reflexivity.
Defined.

Lemma X5_one_request_per_provider_witness :
  requestsTo LocationProvider
    (newEvents (initState (counterStream 1))
       (snd (ServiceB.temperatureHandler cfgB providersHappy newWriter
               (requestB "01310900") (initState (counterStream 1)))))
  = [RequestSent LocationProvider (ServiceB.locationURL "01310900") ∅].
Proof.
  destruct (X5_one_request_per_provider cfgB providersHappy (requestB "01310900")
              (initState (counterStream 1))) as [_ [_ [_ [_ [_ [Hsent _]]]]]].
  apply Hsent. reflexivity.
Defined.

(** ** What the resolution service reads of a provider's reply *)

Section ProviderReplies.

Import ServiceB.

Lemma sameOutcome_location (a b : goError + Response) :
  sameOutcome a b ->
  fst (locationValue a) = fst (locationValue b)
  /\ isErr (snd (locationValue a)) = isErr (snd (locationValue b)).
Proof.
  destruct a as [ea|ra], b as [eb|rb]; cbn [sameOutcome]; intros H; try contradiction.
  - split; reflexivity.
  - cbn [locationValue]. unfold decodeLocation. rewrite H. split; reflexivity.
Qed.

Lemma weatherValue_error_zero (a : goError + Response) :
  isErr (snd (weatherValue a)) = true -> fst (weatherValue a) = zeroWeatherInfo.
Proof.
  destruct a as [e|resp]; cbn [weatherValue]; [reflexivity|].
  unfold decodeWeather. destruct (Decode _ _ _) as [w [e|]]; [reflexivity|discriminate].
Qed.

Lemma sameOutcome_weather (a b : goError + Response) :
  sameOutcome a b ->
  fst (weatherValue a) = fst (weatherValue b)
  /\ isErr (snd (weatherValue a)) = isErr (snd (weatherValue b)).
Proof.
  destruct a as [ea|ra], b as [eb|rb]; cbn [sameOutcome]; intros H; try contradiction.
  - split; reflexivity.
  - cbn [weatherValue]. unfold decodeWeather. rewrite H. split; reflexivity.
Qed.

(** X6: the answer of the resolution service depends on a provider's reply
    only through whether the call failed and, if it did not, through the
    body: the status code and the headers of the provider's response and
    the text of a transport error are never consulted.  Two pairs of
    providers whose replies agree in that respect get the same answer. *)
Theorem X6_provider_status_is_ignored
        (cfg : Config) (env env' : Providers) (r : Request) (st st' : State) :
  (forall url, sameOutcome (viacep env url) (viacep env' url)) ->
  (forall url, sameOutcome (weatherapi env url) (weatherapi env' url)) ->
  fst (fst (temperatureHandler cfg env newWriter r st))
  = fst (fst (temperatureHandler cfg env' newWriter r st')).
Proof.
  intros Hloc Hw. rewrite !temperatureHandler_writer. cbv zeta.
  destruct (negb _); [reflexivity|].
  destruct (sameOutcome_location _ _ (Hloc (locationURL (Query_Get (Query r) "zipcode"))))
    as [Hcity Herr].
  rewrite <- Hcity, <- Herr.
  destruct (_ || _); [reflexivity|].
  destruct (sameOutcome_weather _ _
              (Hw (weatherURL (fst (locationValue
                     (viacep env (locationURL (Query_Get (Query r) "zipcode"))))))))
    as [Hval Herr'].
  rewrite <- Hval, <- Herr'. reflexivity.
Qed.

Lemma X6_provider_status_is_ignored_witness :
  fst (fst (temperatureHandler cfgB providersHappy newWriter (requestB "01310900")
              (initState (counterStream 1))))
  = fst (fst (temperatureHandler cfgB
                (mkProviders
                   (fun _ => inr (mkResponse 503 ∅ [ChunkJSON (localityDoc "Sao Paulo")]))
                   (fun _ => inr (mkResponse 401 ∅ [ChunkJSON (weatherDoc 25)])))
                newWriter (requestB "01310900") (initState (counterStream 7)))).
Proof.
  apply (X6_provider_status_is_ignored cfgB providersHappy
           (mkProviders
              (fun _ => inr (mkResponse 503 ∅ [ChunkJSON (localityDoc "Sao Paulo")]))
              (fun _ => inr (mkResponse 401 ∅ [ChunkJSON (weatherDoc 25)])))
           (requestB "01310900") (initState (counterStream 1)) (initState (counterStream 7))).
  - intros url. reflexivity.
  - intros url. reflexivity.
Defined.

Lemma findField_single {T : Type} (f : JSON.field T) (key : string) :
  JSON.findField [f] key
  = if String.eqb (JSON.foldName key) (JSON.foldName (JSON.fname f)) then Some f else None.
Proof.
  unfold JSON.findField. cbn [List.find].
  destruct (String.eqb (JSON.fname f) key) eqn:E.
  - apply String.eqb_eq in E. subst key. now rewrite String.eqb_refl.
  - rewrite (String.eqb_sym (JSON.foldName (JSON.fname f))).
    now destruct (String.eqb (JSON.foldName key) (JSON.foldName (JSON.fname f))).
Qed.

Lemma decodeObject_other_keys {T : Type} (f : JSON.field T)
      (kvs : list (string * JSON.value)) (init : T) :
  forallb (otherKey (JSON.fname f)) kvs = true ->
  JSON.decodeObject [f] kvs init = (init, None).
Proof.
  unfold JSON.decodeObject. generalize (init, @None goError).
  induction kvs as [|[k v] kvs IH]; intros acc Hall; cbn [fold_left]; [reflexivity|].
  cbn [forallb] in Hall. apply andb_true_iff in Hall as [Hk Hall].
  rewrite (IH _ Hall). cbn [fst]. rewrite findField_single.
  unfold otherKey in Hk. cbn [fst] in Hk. apply negb_true_iff in Hk. now rewrite Hk.
Qed.

(** X7: a missing key decodes to the zero value, whatever else the
    provider sent.  When the location provider answers with a JSON object
    that has no "localidade" key (in any letter case), the locality is
    empty and the answer is 404; when the location is resolved and the
    weather provider answers with an object that has no "current" key, the
    reading is 0 and the answer is 200 with temp_C 0, temp_F 32 and
    temp_K 273. *)
Theorem X7_missing_keys_decode_to_zero
        (cfg : Config) (env : Providers) (r : Request) (st : State) :
  let out := finish (fst (fst (temperatureHandler cfg env newWriter r st))) in
  let zipCode := Query_Get (Query r) "zipcode" in
  String.length zipCode = 8 ->
  (forall status hdr kvs rest,
      viacep env (locationURL zipCode)
      = inr (mkResponse status hdr (ChunkJSON (JSON.JObj kvs) :: rest)) ->
      forallb (otherKey "localidade") kvs = true ->
      StatusCode out = StatusNotFound
      /\ RespBody out = [ChunkText (Msg "can not find zipcode")])
  /\ (forall city status hdr kvs rest,
        locationValue (viacep env (locationURL zipCode)) = (city, None) ->
        city <> "" ->
        weatherapi env (weatherURL city)
        = inr (mkResponse status hdr (ChunkJSON (JSON.JObj kvs) :: rest)) ->
        forallb (otherKey "current") kvs = true ->
        StatusCode out = StatusOK
        /\ RespBody out = [ChunkJSON (responseDoc city 0 32 273)]).
Proof.
  cbv zeta. intros Hlen. rewrite temperatureHandler_writer. cbv zeta.
  rewrite Hlen. cbn [Nat.eqb negb]. split.
  - intros status hdr kvs rest Hreply Hkeys. rewrite Hreply.
    cbn [locationValue]. unfold decodeLocation, Decode. cbn [RespBody JSON.unmarshalStruct].
    unfold locationFields. rewrite decodeObject_other_keys by exact Hkeys.
    cbn [fst snd isErr orb Localidade String.eqb]. split; reflexivity.
  - intros city status hdr kvs rest Hloc Hcity Hreply Hkeys.
    apply String.eqb_neq in Hcity. rewrite Hloc. cbn [fst snd isErr orb].
    rewrite Hcity, Hreply.
    cbn [weatherValue]. unfold decodeWeather, Decode. cbn [RespBody JSON.unmarshalStruct].
    unfold weatherFields. rewrite decodeObject_other_keys by exact Hkeys.
    cbn [fst snd isErr]. split; reflexivity.
Qed.

Lemma X7_missing_keys_decode_to_zero_witness :
  RespBody (finish (fst (fst (temperatureHandler cfgB
     (mkProviders
        (fun _ => okResponse (localityDoc "Sao Paulo"))
        (fun _ => inr (mkResponse 401 ∅
                         [ChunkJSON (JSON.JObj [("error", JSON.JObj [("code", JSON.JNum 2006)])])])))
     newWriter (requestB "01310900") (initState (counterStream 1))))))
  = [ChunkJSON (responseDoc "Sao Paulo" 0 32 273)].
Proof.
  destruct (X7_missing_keys_decode_to_zero cfgB
     (mkProviders
        (fun _ => okResponse (localityDoc "Sao Paulo"))
        (fun _ => inr (mkResponse 401 ∅
                         [ChunkJSON (JSON.JObj [("error", JSON.JObj [("code", JSON.JNum 2006)])])])))
     (requestB "01310900") (initState (counterStream 1))) as [_ H].
  - reflexivity.
  - apply (H "Sao Paulo" 401 ∅ [("error", JSON.JObj [("code", JSON.JNum 2006)])] []).
    + reflexivity.
    + discriminate.
    + reflexivity.
    + reflexivity.
Defined.

End ProviderReplies.

(** ** Encoding the answer *)

Section Encoding.

Lemma marshal_not_finite (city : string) (c f k : float) :
  is_finite c = false \/ is_finite f = false \/ is_finite k = false ->
  ServiceB.marshal (ServiceB.mkLocationInfoAndCity city c f k) = None.
Proof.
  intros H. unfold ServiceB.marshal, JSON.encodeFloat.
  cbn [ServiceB.TempC ServiceB.TempF ServiceB.TempK ServiceB.City].
  destruct H as [H|[H|H]]; rewrite H;
    destruct (is_finite c); destruct (is_finite f); destruct (is_finite k);
    try reflexivity; discriminate.
Qed.

(** X8: when the converted reading cannot be encoded (the Fahrenheit or
    Kelvin value is not a finite float64), [Encode] fails, its error is
    dropped, and the resolution service answers 200 with an empty body, in
    both variants; the entry service, handed such a reply, answers 500
    with the decoder's EOF error. *)
Theorem X8_unencodable_reading
        (cfg : Config) (env : ServiceB.Providers) (r : Request) (st : State)
        (city : string) (weather : ServiceB.WeatherInfo) :
  let c := ServiceB.Temperature (ServiceB.Current weather) in
  let zipCode := Query_Get (Query r) "zipcode" in
  let out := finish (fst (fst (ServiceB.temperatureHandler cfg env newWriter r st))) in
  let plain := finish (fst (ServiceBPlain.temperatureHandler env newWriter r st)) in
  String.length zipCode = 8 ->
  ServiceB.locationValue (ServiceB.viacep env (ServiceB.locationURL zipCode)) = (city, None) ->
  city <> "" ->
  ServiceB.weatherValue (ServiceB.weatherapi env (ServiceB.weatherURL city)) = (weather, None) ->
  is_finite (c * 1.8 + 32)%float = false \/ is_finite (c + 273)%float = false ->
  (StatusCode out = StatusOK /\ RespBody out = [])
  /\ (StatusCode plain = StatusOK /\ RespBody plain = [])
  /\ (StatusCode (finish (ServiceA.relayResponse newWriter out)) = StatusInternalServerError
      /\ RespBody (finish (ServiceA.relayResponse newWriter out)) = [ChunkText (ErrorText ErrEOF)]).
Proof.
  cbv zeta. intros Hlen Hloc Hcity Hw Hinf.
  assert (Hne : String.eqb city "" = false) by now apply String.eqb_neq.
  assert (Hm : ServiceB.marshal (ServiceB.response2 city weather) = None).
  { unfold ServiceB.response2. apply marshal_not_finite. right. exact Hinf. }
  assert (Hout : fst (fst (ServiceB.temperatureHandler cfg env newWriter r st))
                 = SetHeader "Content-Type" "application/json" newWriter).
  { rewrite temperatureHandler_writer. cbv zeta.
    rewrite Hlen, Hloc. cbn [Nat.eqb negb fst snd isErr orb]. rewrite Hne, Hw.
    cbn [fst snd isErr]. now rewrite Hm. }
  split; [|split].
  - rewrite Hout. split; reflexivity.
  - rewrite plain_temperatureHandler_run. cbv zeta.
    rewrite Hlen, Hloc. cbn [Nat.eqb negb fst snd isErr orb]. rewrite Hne, Hw.
    cbn [fst snd isErr]. rewrite Hm. split; reflexivity.
  - rewrite Hout. split; reflexivity.
Qed.

Lemma X8_unencodable_reading_witness :
  RespBody (finish (fst (fst (ServiceB.temperatureHandler cfgB
     (ServiceB.mkProviders (fun _ => okResponse (localityDoc "Sao Paulo"))
                           (fun _ => okResponse (weatherDoc 1e308)))
     newWriter (requestB "01310900") (initState (counterStream 1))))))
  = [].
Proof.
  destruct (X8_unencodable_reading cfgB
     (ServiceB.mkProviders (fun _ => okResponse (localityDoc "Sao Paulo"))
                           (fun _ => okResponse (weatherDoc 1e308)))
     (requestB "01310900") (initState (counterStream 1)) "Sao Paulo"
     (ServiceB.mkWeatherInfo (ServiceB.mkCurrentInfo 1e308))) as [[_ H] _].
  - reflexivity.
  - reflexivity.
  - discriminate.
  - reflexivity.
  - left. reflexivity.
  - exact H.
Defined.

(** X10: what the resolution service encodes, the entry service decodes
    and encodes again without loss: for finite numbers the document of a
    composed response decodes into the same four fields, and marshalling
    those yields the same document. *)
Theorem X10_response_round_trip (r : ServiceB.LocationInfoAndCity) :
  let z := ServiceA.mkZipCodeResponse (ServiceB.City r) (ServiceB.TempC r)
             (ServiceB.TempF r) (ServiceB.TempK r) in
  is_finite (ServiceB.TempC r) = true ->
  is_finite (ServiceB.TempF r) = true ->
  is_finite (ServiceB.TempK r) = true ->
  exists j,
    ServiceB.marshal r = Some j
    /\ Decode ServiceA.responseFields [ChunkJSON j] ServiceA.zeroZipCodeResponse = (z, None)
    /\ ServiceA.marshal z = Some j.
Proof.
  cbv zeta. destruct r as [city c f k].
  cbn [ServiceB.City ServiceB.TempC ServiceB.TempF ServiceB.TempK].
  intros Hc Hf Hk. eexists. split; [apply encode_finite; assumption|]. split.
  - unfold Decode, JSON.unmarshalStruct, JSON.decodeObject.
    cbn [fold_left fst snd JSON.findField ServiceA.responseFields List.find JSON.fname
         JSON.fstore String.eqb Ascii.eqb Bool.eqb andb JSON.storeString JSON.storeFloat
         JSON.saveError ServiceA.zeroZipCodeResponse ServiceA.City ServiceA.TempC
         ServiceA.TempF ServiceA.TempK].
    rewrite Hc, Hf, Hk.
    cbn [fst snd JSON.saveError ServiceA.City ServiceA.TempC ServiceA.TempF ServiceA.TempK].
    reflexivity.
  - unfold ServiceA.marshal, JSON.encodeFloat.
    cbn [ServiceA.City ServiceA.TempC ServiceA.TempF ServiceA.TempK].
    now rewrite Hc, Hf, Hk.
Qed.

Lemma X10_response_round_trip_witness :
  exists j,
    ServiceB.marshal (ServiceB.mkLocationInfoAndCity "Sao Paulo" 25 77 298) = Some j
    /\ Decode ServiceA.responseFields [ChunkJSON j] ServiceA.zeroZipCodeResponse
       = (ServiceA.mkZipCodeResponse "Sao Paulo" 25 77 298, None)
    /\ ServiceA.marshal (ServiceA.mkZipCodeResponse "Sao Paulo" 25 77 298) = Some j.
Proof.
  apply (X10_response_round_trip (ServiceB.mkLocationInfoAndCity "Sao Paulo" 25 77 298));
    reflexivity.
Defined.

End Encoding.

(** ** Invariants of decoding *)

Section DecodingInvariants.

Lemma findField_In {T : Type} (fields : list (JSON.field T)) (key : string) (f : JSON.field T) :
  JSON.findField fields key = Some f -> In f fields.
Proof.
  unfold JSON.findField.
  destruct (List.find _ fields) as [g|] eqn:E.
  - intros H. injection H as <-. now apply List.find_some in E.
  - intros H. now apply List.find_some in H.
Qed.

Lemma decodeObject_invariant {T : Type} (P : T -> Prop) (fields : list (JSON.field T))
      (kvs : list (string * JSON.value)) (init : T) :
  (forall f v t, In f fields -> P t -> P (fst (JSON.fstore f v t))) ->
  P init ->
  P (fst (JSON.decodeObject fields kvs init)).
Proof.
  intros Hstep. unfold JSON.decodeObject.
  generalize (@None goError). revert init.
  induction kvs as [|[k v] kvs IH]; intros init e Hinit; cbn [fold_left fst snd].
  - exact Hinit.
  - destruct (JSON.findField fields k) as [f|] eqn:Ef.
    + pose proof (Hstep f v init (findField_In _ _ _ Ef) Hinit) as Hp.
      destruct (JSON.fstore f v init) as [t e']. apply IH. exact Hp.
    + apply IH. exact Hinit.
Qed.

Lemma storeFloat_finite (name : string) (v : JSON.value) (cur : float) :
  is_finite cur = true -> is_finite (fst (JSON.storeFloat name v cur)) = true.
Proof.
  intros Hc. destruct v as [|b|f|s|l|o]; cbn [JSON.storeFloat fst]; try exact Hc.
  destruct (is_finite f) eqn:Ef; cbn [fst]; assumption.
Qed.

Lemma decoded_response_finite (body : Body) :
  finiteResponse (fst (Decode ServiceA.responseFields body ServiceA.zeroZipCodeResponse)).
Proof.
  assert (H0 : finiteResponse ServiceA.zeroZipCodeResponse) by (repeat split).
  destruct body as [|[m|j] rest]; cbn [Decode fst]; try exact H0.
  destruct j as [|b|f|s|l|kvs]; cbn [JSON.unmarshalStruct fst]; try exact H0.
  apply decodeObject_invariant; [|exact H0].
  intros f v t Hin [Hc [Hf Hk]].
  cbn [ServiceA.responseFields In] in Hin.
  destruct Hin as [<-|[<-|[<-|[<-|[]]]]]; cbn [JSON.fstore].
  - destruct (JSON.storeString _ v _) as [s e]. repeat split; assumption.
  - pose proof (storeFloat_finite "ZipCodeResponse.temp_C" v _ Hc) as H.
    destruct (JSON.storeFloat _ v _) as [x e]. repeat split; assumption.
  - pose proof (storeFloat_finite "ZipCodeResponse.temp_F" v _ Hf) as H.
    destruct (JSON.storeFloat _ v _) as [x e]. repeat split; assumption.
  - pose proof (storeFloat_finite "ZipCodeResponse.temp_K" v _ Hk) as H.
    destruct (JSON.storeFloat _ v _) as [x e]. repeat split; assumption.
Qed.

Lemma decoded_weather_finite (res : goError + Response) :
  is_finite (ServiceB.Temperature (ServiceB.Current (fst (ServiceB.weatherValue res)))) = true.
Proof.
  destruct res as [e|resp]; cbn [ServiceB.weatherValue fst]; [reflexivity|].
  unfold ServiceB.decodeWeather.
  assert (H : is_finite (ServiceB.Temperature (ServiceB.Current
                (fst (Decode ServiceB.weatherFields (RespBody resp) ServiceB.zeroWeatherInfo))))
              = true).
  { destruct (RespBody resp) as [|[m|j] rest]; cbn [Decode fst]; try reflexivity.
    destruct j as [|b|f|s|l|kvs]; cbn [JSON.unmarshalStruct fst]; try reflexivity.
    apply (decodeObject_invariant
             (fun w => is_finite (ServiceB.Temperature (ServiceB.Current w)) = true));
      [|reflexivity].
    intros f v t Hin Ht. cbn [ServiceB.weatherFields In] in Hin.
    destruct Hin as [<-|[]]. cbn [JSON.fstore].
    destruct v as [|b|x|s|l|o]; cbn [fst]; try exact Ht.
    pose proof (decodeObject_invariant
                  (fun c => is_finite (ServiceB.Temperature c) = true)
                  ServiceB.currentFields o (ServiceB.Current t)) as Hc.
    destruct (JSON.decodeObject ServiceB.currentFields o (ServiceB.Current t)) as [c e].
    cbn [fst ServiceB.Current] in *. apply Hc; [|exact Ht].
    intros g v' c' Hg Hc'. cbn [ServiceB.currentFields In] in Hg.
    destruct Hg as [<-|[]]. cbn [JSON.fstore].
    pose proof (storeFloat_finite "WeatherInfo.current.temp_c" v' _ Hc') as Hs.
    destruct (JSON.storeFloat _ v' _) as [x e']. exact Hs. }
  destruct (Decode ServiceB.weatherFields (RespBody resp) ServiceB.zeroWeatherInfo)
    as [w [e|]]; [reflexivity|exact H].
Qed.

(** X11: decoding never stores a number that is not a finite float64:
    the reading [getWeather] returns is always finite (0 when nothing was
    stored), and so are the three numbers the entry service decodes from a
    downstream body.  Hence, whenever the downstream body decodes and the
    status is a final one other than 404, the entry service's [Encode]
    cannot fail: the answer carries that status and exactly one JSON
    document. *)
Theorem X11_decoded_numbers_are_finite
        (cfg : Config) (serviceB : ServiceA.Downstream_t) (r : Request) (st : State)
        (env : ServiceB.Providers) (ctx : Context) (city : string) (st' : State) :
  let out := finish (fst (fst (ServiceA.zipCodeHandler cfg serviceB newWriter r st))) in
  is_finite (ServiceB.Temperature (ServiceB.Current
               (fst (fst (ServiceB.getWeather env ctx city st'))))) = true
  /\ (forall body,
         finiteResponse (fst (Decode ServiceA.responseFields body ServiceA.zeroZipCodeResponse)))
  /\ (Method r = "POST" ->
      snd (decodedRequest r) = None ->
      isValidZipCode (ServiceA.CEP (fst (decodedRequest r))) = true ->
      forall resp,
        downstreamReply serviceB r (idgen st) = inr resp ->
        StatusCode resp <> StatusNotFound ->
        informational (StatusCode resp) = false ->
        snd (Decode ServiceA.responseFields (RespBody resp) ServiceA.zeroZipCodeResponse) = None ->
        StatusCode out = StatusCode resp /\ exists j, RespBody out = [ChunkJSON j]).
Proof.
  cbv zeta. split; [|split].
  - rewrite getWeather_run. cbn [fst]. apply decoded_weather_finite.
  - exact decoded_response_finite.
  - intros Hpost Hdec Hvalid resp Hreply Hs Hinf Hbody.
    rewrite zipCodeHandler_run. cbv zeta.
    rewrite Hpost, Hdec, Hvalid. cbn [String.eqb Ascii.eqb Bool.eqb andb negb fst snd].
    fold (downstreamReply serviceB r (idgen st)). rewrite Hreply.
    cbn [ServiceA.relayValue]. unfold ServiceA.relayResponse.
    apply Nat.eqb_neq in Hs. rewrite Hs.
    pose proof (decoded_response_finite (RespBody resp)) as [Hc [Hf Hk]].
    destruct (Decode ServiceA.responseFields (RespBody resp) ServiceA.zeroZipCodeResponse)
      as [z err].
    cbn [fst snd] in *. subst err.
    unfold ServiceA.marshal, JSON.encodeFloat. rewrite Hc, Hf, Hk.
    rewrite written_status by exact Hinf. split; [reflexivity|eauto].
Qed.

Lemma X11_decoded_numbers_are_finite_witness :
  StatusCode (finish (fst (fst (ServiceA.zipCodeHandler cfgA
     (fun _ _ => inr (mkResponse 202 ∅ [ChunkJSON (JSON.JObj [("city", JSON.JStr "x")])]))
     newWriter (requestA ∅ (cepBody "01310900")) (initState (counterStream 1))))))
  = 202
  /\ exists j,
      RespBody (finish (fst (fst (ServiceA.zipCodeHandler cfgA
         (fun _ _ => inr (mkResponse 202 ∅ [ChunkJSON (JSON.JObj [("city", JSON.JStr "x")])]))
         newWriter (requestA ∅ (cepBody "01310900")) (initState (counterStream 1))))))
      = [ChunkJSON j].
Proof.
  destruct (X11_decoded_numbers_are_finite cfgA
       (fun _ _ => inr (mkResponse 202 ∅ [ChunkJSON (JSON.JObj [("city", JSON.JStr "x")])]))
       (requestA ∅ (cepBody "01310900")) (initState (counterStream 1))
       providersHappy Background "x" (initState (counterStream 1))) as [_ [_ H]].
  apply (H eq_refl eq_refl eq_refl
           (mkResponse 202 ∅ [ChunkJSON (JSON.JObj [("city", JSON.JStr "x")])])).
  - reflexivity.
  - discriminate.
  - reflexivity.
  - reflexivity.
Defined.

End DecodingInvariants.

(** ** Headers of the answer *)

Section AnswerHeaders.

(** X9: every answer of the resolution service carries the content type
    of its body: application/json with status 200, and text/plain with
    the nosniff option on every error.  In the entry service the content
    type is set after [WriteHeader], when the header of the answer is
    already fixed: a relayed JSON document is not sent as
    application/json. *)
Theorem X9_content_type
        (cfgA' cfgB' : Config) (env : ServiceB.Providers) (serviceB : ServiceA.Downstream_t)
        (rA rB : Request) (stA stB : State) :
  let outB := finish (fst (fst (ServiceB.temperatureHandler cfgB' env newWriter rB stB))) in
  let outA := finish (fst (fst (ServiceA.zipCodeHandler cfgA' serviceB newWriter rA stA))) in
  (Header_Get (RespHeader outB) "Content-Type"
   = if StatusCode outB =? StatusOK then "application/json" else "text/plain; charset=utf-8")
  /\ (StatusCode outB <> StatusOK ->
      Header_Get (RespHeader outB) "X-Content-Type-Options" = "nosniff")
  /\ (Method rA = "POST" ->
      snd (decodedRequest rA) = None ->
      isValidZipCode (ServiceA.CEP (fst (decodedRequest rA))) = true ->
      forall resp,
        downstreamReply serviceB rA (idgen stA) = inr resp ->
        StatusCode resp <> StatusNotFound ->
        200 <= StatusCode resp <= 999 ->
        snd (Decode ServiceA.responseFields (RespBody resp) ServiceA.zeroZipCodeResponse) = None ->
        Header_Get (RespHeader outA) "Content-Type" <> "application/json").
Proof.
  cbv zeta. split; [|split].
  - rewrite temperatureHandler_writer. cbv zeta.
    destruct (negb _); [reflexivity|].
    destruct (_ || _); [reflexivity|].
    destruct (isErr _); [reflexivity|].
    destruct (ServiceB.marshal _); reflexivity.
  - rewrite temperatureHandler_writer. cbv zeta.
    destruct (negb _); [reflexivity|].
    destruct (_ || _); [reflexivity|].
    destruct (isErr _); [reflexivity|].
    rewrite encode_status. intros H. now destruct H.
  - intros Hpost Hdec Hvalid resp Hreply Hs Hcode Hbody.
    assert (Hinf : informational (StatusCode resp) = false).
    { unfold informational. destruct (StatusCode resp <=? 199) eqn:E.
      - apply Nat.leb_le in E. lia.
      - now rewrite andb_false_r. }
    match goal with |- ?h <> _ => enough (Hget : h = "") by (rewrite Hget; discriminate) end.
    rewrite zipCodeHandler_run. cbv zeta.
    rewrite Hpost, Hdec, Hvalid. cbn [String.eqb Ascii.eqb Bool.eqb andb negb fst snd].
    fold (downstreamReply serviceB rA (idgen stA)). rewrite Hreply.
    cbn [ServiceA.relayValue]. unfold ServiceA.relayResponse.
    apply Nat.eqb_neq in Hs. rewrite Hs.
    destruct (Decode ServiceA.responseFields (RespBody resp) ServiceA.zeroZipCodeResponse)
      as [z err].
    cbn [snd] in Hbody. subst err.
    unfold Encode, Write, SetHeader, WriteHeader, finish, newWriter.
    cbn [wroteHeader wHeader wStatus wSent wBody]. rewrite Hinf.
    destruct (ServiceA.marshal z); reflexivity.
Qed.

Lemma X9_content_type_witness :
  Header_Get (RespHeader (finish (fst (fst (ServiceA.zipCodeHandler cfgA
     (realServiceB providersHappy) newWriter (requestA ∅ (cepBody "01310900"))
     (initState (counterStream 1))))))) "Content-Type"
  <> "application/json".
Proof.
  destruct (X9_content_type cfgA cfgB providersHappy (realServiceB providersHappy)
              (requestA ∅ (cepBody "01310900")) (requestB "01310900")
              (initState (counterStream 1)) (initState (counterStream 1))) as [_ [_ H]].
  apply (H eq_refl eq_refl eq_refl
           (mkResponse StatusOK {[ "Content-Type" := ["application/json"] ]}
              [ChunkJSON (responseDoc "Sao Paulo" 25 77 298)])).
  - vm_compute. reflexivity.
  - discriminate.
  - unfold StatusCode, StatusOK. lia.
  - reflexivity.
Defined.

End AnswerHeaders.

(** ** Results of the two resolvers *)

Section Resolvers.

Import ServiceB.

Lemma locationValue_error_empty (a : goError + Response) :
  snd (locationValue a) <> None -> fst (locationValue a) = "".
Proof.
  destruct a as [e|resp]; cbn [locationValue]; [reflexivity|].
  unfold decodeLocation. destruct (Decode _ _ _) as [l [e|]]; [reflexivity|].
  intros H. now destruct H.
Qed.

(** X12: no partial result comes with an error.  When [getLocation]
    returns a non-nil error its string is empty, and when [getWeather]
    returns a non-nil error its reading is the zero value, even if the
    decoder had already stored a field before it met the error; the same
    holds in the variant without tracing. *)
Theorem X12_no_partial_result_with_error
        (env : Providers) (ctx : Context) (zipCode city : string) (st : State) :
  let l := fst (getLocation env ctx zipCode st) in
  let w := fst (getWeather env ctx city st) in
  let l' := fst (ServiceBPlain.getLocation env zipCode st) in
  let w' := fst (ServiceBPlain.getWeather env city st) in
  (snd l <> None -> fst l = "")
  /\ (snd w <> None -> fst w = zeroWeatherInfo)
  /\ (snd l' <> None -> fst l' = "")
  /\ (snd w' <> None -> fst w' = zeroWeatherInfo).
Proof.
  cbv zeta.
  rewrite getLocation_run, getWeather_run, plain_getLocation_run, plain_getWeather_run.
  cbn [fst].
  assert (Hw : forall a, snd (weatherValue a) <> None -> fst (weatherValue a) = zeroWeatherInfo).
  { intros a H. apply weatherValue_error_zero. destruct (snd (weatherValue a)); [reflexivity|].
    now destruct H. }
  repeat split; auto using locationValue_error_empty.
Qed.

Lemma X12_no_partial_result_with_error_witness :
  fst (getLocation
         (mkProviders
            (fun _ => okResponse (JSON.JObj [("localidade", JSON.JStr "Sao Paulo");
                                             ("localidade", JSON.JNum 5)]))
            (fun _ => okResponse (weatherDoc 25)))
         Background "01310900" (initState (counterStream 1)))
  = ("", Some (ErrUnmarshalType "number" "LocationInfo.localidade")).
Proof.
  pose proof (X12_no_partial_result_with_error
         (mkProviders
            (fun _ => okResponse (JSON.JObj [("localidade", JSON.JStr "Sao Paulo");
                                             ("localidade", JSON.JNum 5)]))
            (fun _ => okResponse (weatherDoc 25)))
         Background "01310900" "Sao Paulo" (initState (counterStream 1))) as [H _].
  cbv zeta in H.
  destruct (getLocation _ Background "01310900" (initState (counterStream 1)))
    as [[s e] st'] eqn:E.
  cbn [fst snd] in H |- *.
  assert (He : e = Some (ErrUnmarshalType "number" "LocationInfo.localidade")).
  { apply (f_equal (fun x => snd (fst x))) in E. vm_compute in E. now symmetry. }
  subst e. rewrite H by discriminate. reflexivity.
Defined.

End Resolvers.

(** ** The two services composed *)

Section Pipeline.

Lemma append_snoc (a : string) (c : ascii) (b : string) :
  (a ++ String c "") ++ b = a ++ String c b.
Proof.
  induction a as [|x a IH].
  - reflexivity.
  - change ((String x a ++ String c "") ++ b) with (String x ((a ++ String c "") ++ b)).
    change (String x a ++ String c b) with (String x (a ++ String c b)).
    now rewrite IH.
Qed.

Lemma digit_not_separator (c : ascii) :
  isDigit c = true -> Ascii.eqb c "&" = false /\ Ascii.eqb c "=" = false.
Proof.
  intros H. split.
  - destruct (Ascii.eqb c "&") eqn:E; [|reflexivity].
    apply Ascii.eqb_eq in E. subst c. discriminate H.
  - destruct (Ascii.eqb c "=") eqn:E; [|reflexivity].
    apply Ascii.eqb_eq in E. subst c. discriminate H.
Qed.

Lemma parseQuery_digits (s : string) :
  forall (cur k : string),
    allDigits s = true -> parseQuery s cur (Some k) = [(k, cur ++ s)].
Proof.
  induction s as [|c s IH]; intros cur k H.
  - cbn [parseQuery]. f_equal. f_equal.
    induction cur as [|x cur IHc]; [reflexivity|].
    change (String x cur ++ "") with (String x (cur ++ "")). now rewrite <- IHc.
  - cbn [allDigits] in H. apply andb_true_iff in H as [Hc Hs].
    destruct (digit_not_separator c Hc) as [Ha He].
    cbn [parseQuery]. rewrite Ha, He. rewrite (IH _ _ Hs). now rewrite append_snoc.
Qed.

(** The code the entry service puts into the URL is the code the
    resolution service reads from the query. *)
Lemma zipcode_survives_the_url (cep : string) (hdr : gmap string (list string)) :
  allDigits cep = true ->
  Query_Get (Query (inbound (ServiceA.downstreamURL cep) hdr)) "zipcode" = cep.
Proof.
  intros H. unfold inbound. cbn [Query].
  change (parseQuery (rawQuery (ServiceA.downstreamURL cep)) "" None)
    with (parseQuery cep "" (Some "zipcode")).
  rewrite (parseQuery_digits cep "" "zipcode" H). reflexivity.
Qed.

Lemma serviceB_endpoint_answer (cfg : Config) (env : ServiceB.Providers)
      (ids : nat -> string * string) (cep : string) (hdr : gmap string (list string)) :
  eightDigits cep = true ->
  serviceB_endpoint cfg env ids (ServiceA.downstreamURL cep) hdr
  = inr (finish
           (let lv := ServiceB.locationValue (ServiceB.viacep env (ServiceB.locationURL cep)) in
            if isErr (snd lv) || String.eqb (fst lv) "" then
              http_Error newWriter (Msg "can not find zipcode") StatusNotFound
            else
              let wv := ServiceB.weatherValue
                          (ServiceB.weatherapi env (ServiceB.weatherURL (fst lv))) in
              if isErr (snd wv) then
                http_Error newWriter (Msg "failed to get weather info") StatusInternalServerError
              else
                Encode (ServiceB.marshal (ServiceB.response2 (fst lv) (fst wv)))
                  (SetHeader "Content-Type" "application/json" newWriter))).
Proof.
  intros Hshape. unfold eightDigits in Hshape.
  apply andb_true_iff in Hshape as [Hlen Hdig].
  unfold serviceB_endpoint, serviceB_run, otelhttp_NewHandler. go_run.
  rewrite temperatureHandler_writer. cbv zeta. cbn [Query].
  change (Query_Get (Query (inbound (ServiceA.downstreamURL cep) hdr)) "zipcode")
    with (Query_Get (Query (inbound (ServiceA.downstreamURL cep) hdr)) "zipcode").
  rewrite (zipcode_survives_the_url cep hdr Hdig), Hlen. reflexivity.
Qed.

(** X13: the two services composed.  For a POST whose body decodes to a
    code of eight digits, the resolution service is asked for exactly that
    code and never rejects it; the caller of the entry service gets 404
    "can not find zipcode" when the location call failed or gave an empty
    locality, 500 with the JSON decoder's syntax error when the weather
    call failed, and otherwise, for a reading [c] whose conversions are
    finite, 200 with the locality, [c], [c * 1.8 + 32] and [c + 273]. *)
Theorem X13_pipeline
        (cfgA' cfgB' : Config) (env : ServiceB.Providers)
        (idsA idsB : nat -> string * string) (r : Request) :
  let out := finish (fst (fst (serviceA_run cfgA' (serviceB_endpoint cfgB' env idsB) idsA r))) in
  let cep := ServiceA.CEP (fst (decodedRequest r)) in
  let lv := ServiceB.locationValue (ServiceB.viacep env (ServiceB.locationURL cep)) in
  let wv := ServiceB.weatherValue (ServiceB.weatherapi env (ServiceB.weatherURL (fst lv))) in
  let c := ServiceB.Temperature (ServiceB.Current (fst wv)) in
  Method r = "POST" ->
  snd (decodedRequest r) = None ->
  isValidZipCode cep = true ->
  (forall hdr, Query_Get (Query (inbound (ServiceA.downstreamURL cep) hdr)) "zipcode" = cep)
  /\ (isErr (snd lv) || String.eqb (fst lv) "" = true ->
      StatusCode out = StatusNotFound
      /\ RespBody out = [ChunkText (Msg "can not find zipcode")])
  /\ (isErr (snd lv) || String.eqb (fst lv) "" = false -> isErr (snd wv) = true ->
      StatusCode out = StatusInternalServerError
      /\ RespBody out = [ChunkText (ErrorText ErrJSONSyntax)])
  /\ (isErr (snd lv) || String.eqb (fst lv) "" = false -> isErr (snd wv) = false ->
      is_finite (c * 1.8 + 32)%float = true -> is_finite (c + 273)%float = true ->
      StatusCode out = StatusOK
      /\ RespBody out
         = [ChunkJSON (responseDoc (fst lv) c (c * 1.8 + 32)%float (c + 273)%float)]).
Proof.
  cbv zeta. intros Hpost Hdec Hvalid.
  pose proof Hvalid as Hshape. rewrite isValidZipCode_eightDigits in Hshape.
  assert (Hdig : allDigits (ServiceA.CEP (fst (decodedRequest r))) = true).
  { unfold eightDigits in Hshape. now apply andb_true_iff in Hshape as [_ H]. }
  assert (Hout : fst (fst (serviceA_run cfgA' (serviceB_endpoint cfgB' env idsB) idsA r))
                 = ServiceA.relayValue newWriter
                     (downstreamReply (serviceB_endpoint cfgB' env idsB)
                        (mkRequest (Method r) (ReqHeader r) (Query r) (ReqBody r)
                           (mkContext (fst (newSpanContext
                              (currentSpan (Extract (ReqContext r) (ReqHeader r)))
                              (idgen (initState idsA))))))
                        (snd (newSpanContext
                           (currentSpan (Extract (ReqContext r) (ReqHeader r)))
                           (idgen (initState idsA)))))).
  { unfold serviceA_run, otelhttp_NewHandler. go_run.
    rewrite zipCodeHandler_run. cbv zeta.
    change (decodedRequest (mkRequest (Method r) (ReqHeader r) (Query r) (ReqBody r) ?c))
      with (decodedRequest r).
    cbn [Method]. rewrite Hpost, Hdec, Hvalid.
    cbn [String.eqb Ascii.eqb Bool.eqb andb negb fst snd]. reflexivity. }
  rewrite Hout. unfold downstreamReply.
  change (decodedRequest (mkRequest (Method r) (ReqHeader r) (Query r) (ReqBody r) ?c))
    with (decodedRequest r).
  rewrite (serviceB_endpoint_answer cfgB' env idsB _ _ Hshape). cbv zeta.
  split; [intros hdr; now apply zipcode_survives_the_url|].
  split; [|split].
  - intros Hnf. rewrite Hnf. split; reflexivity.
  - intros Hnf Hw. rewrite Hnf, Hw. split; reflexivity.
  - intros Hnf Hw Hf Hk. rewrite Hnf, Hw.
    set (lv := ServiceB.locationValue _) in *.
    set (wv := ServiceB.weatherValue _) in *.
    pose proof (decoded_weather_finite
                  (ServiceB.weatherapi env (ServiceB.weatherURL (fst lv)))) as Hc.
    fold wv in Hc.
    unfold ServiceB.response2. rewrite (encode_finite _ _ _ _ Hc Hf Hk).
    cbn [ServiceA.relayValue].
    change (finish (Encode (Some ?j) (SetHeader "Content-Type" "application/json" newWriter)))
      with (mkResponse StatusOK {[ "Content-Type" := ["application/json"] ]} [ChunkJSON j]).
    pose proof (relay_document newWriter StatusOK
                  {[ "Content-Type" := ["application/json"] ]} (fst lv) _ _ _
                  ltac:(discriminate) Hc Hf Hk) as Hr.
    unfold responseDoc in Hr |- *. rewrite Hr.
    rewrite written_status by reflexivity. split; reflexivity.
Qed.

End Pipeline.

Lemma X13_pipeline_witness :
  StatusCode (finish (fst (fst (serviceA_run cfgA
     (serviceB_endpoint cfgB providersHappy (counterStream 4096)) (counterStream 1)
     (requestA sampleHeader (cepBody "01310900"))))))
  = StatusOK
  /\ RespBody (finish (fst (fst (serviceA_run cfgA
       (serviceB_endpoint cfgB providersHappy (counterStream 4096)) (counterStream 1)
       (requestA sampleHeader (cepBody "01310900"))))))
     = [ChunkJSON (responseDoc "Sao Paulo" 25 77 298)].
Proof.
  destruct (X13_pipeline cfgA cfgB providersHappy (counterStream 1) (counterStream 4096)
              (requestA sampleHeader (cepBody "01310900"))) as [_ [_ [_ H]]].
  - reflexivity.
  - reflexivity.
  - reflexivity.
  - apply H; reflexivity.
Defined.

(** ** Spans of one request *)

Section SpansOfARequest.

Lemma startSpan_child (ctx : Context) (g : IDGenerator) :
  IsValid (currentSpan ctx) = true ->
  validSpanID (snd (stream g (drawn g))) = true ->
  TraceID (spanContext (startSpan ctx g)) = TraceID (currentSpan ctx)
  /\ Sampled (spanContext (startSpan ctx g)) = Sampled (currentSpan ctx)
  /\ IsValid (spanContext (startSpan ctx g)) = true.
Proof.
  intros Hv Hs. unfold startSpan, newSpanContext. cbn [spanContext]. rewrite Hv.
  cbn [fst NewSpanID TraceID Sampled]. repeat split.
  unfold IsValid in *. cbn [TraceID SpanID].
  apply andb_true_iff in Hv as [Ht _]. rewrite Ht. exact Hs.
Qed.

(** X14: the spans one request starts belong to one trace.  When the
    context a handler extracts is valid and the generator's next three
    draws are valid span ids, every span the handler, [getLocation] and [getWeather] start
    has the trace id and the sampling flag of that context; the marker
    span is its child, and each call span is a child of the marker span
    (not of the server span, and not of one another). *)
Theorem X14_spans_share_the_trace
        (cfgA' cfgB' : Config) (env : ServiceB.Providers) (serviceB : ServiceA.Downstream_t)
        (r : Request) (st : State) :
  let ctx0 := Extract (ReqContext r) (ReqHeader r) in
  let marker := startSpan ctx0 (idgen st) in
  let evsB := newEvents st (snd (ServiceB.temperatureHandler cfgB' env newWriter r st)) in
  let evsA := newEvents st (snd (ServiceA.zipCodeHandler cfgA' serviceB newWriter r st)) in
  IsValid (currentSpan ctx0) = true ->
  (forall n, n < 3 ->
     validSpanID (snd (stream (idgen st) (drawn (idgen st) + n))) = true) ->
  forall name sp parent,
    In (SpanStarted name sp parent) evsB \/ In (SpanStarted name sp parent) evsA ->
    TraceID (spanContext sp) = TraceID (currentSpan ctx0)
    /\ Sampled (spanContext sp) = Sampled (currentSpan ctx0)
    /\ (sp = marker /\ parent = currentSpan ctx0
        \/ sp <> marker /\ parent = spanContext marker).
Proof.
  cbv zeta. intros Hv Hids name sp parent Hin.
  assert (H0 : validSpanID (snd (stream (idgen st) (drawn (idgen st)))) = true).
  { pose proof (Hids 0 ltac:(lia)) as H. now rewrite Nat.add_0_r in H. }
  destruct (startSpan_child _ (idgen st) Hv H0) as [Ht [Hs Hm]].
  assert (Hchild : forall g,
             stream g = stream (idgen st) ->
             (drawn g = drawn (idgen st) + 1 \/ drawn g = drawn (idgen st) + 2) ->
             let child := startSpan (handlerContext r (idgen st)) g in
             TraceID (spanContext child)
             = TraceID (currentSpan (Extract (ReqContext r) (ReqHeader r)))
             /\ Sampled (spanContext child)
                = Sampled (currentSpan (Extract (ReqContext r) (ReqHeader r)))
             /\ child <> startSpan (Extract (ReqContext r) (ReqHeader r)) (idgen st)).
  { intros g Hg Hd. cbv zeta.
    destruct (startSpan_child (handlerContext r (idgen st)) g) as [Ht' [Hs' _]].
    - exact Hm.
    - rewrite Hg. destruct Hd as [-> | ->]; apply Hids; lia.
    - cbn [handlerContext currentSpan] in Ht', Hs'. rewrite Ht', Hs'.
      repeat split; try assumption.
      intros Heq. apply (f_equal spanHandle) in Heq. cbn [startSpan spanHandle] in Heq.
      lia. }
  assert (Hg1 : stream (handlerGen r (idgen st)) = stream (idgen st)
                /\ (drawn (handlerGen r (idgen st)) = drawn (idgen st) + 1
                    \/ drawn (handlerGen r (idgen st)) = drawn (idgen st) + 2)).
  { rewrite handlerGen_stream, handlerGen_drawn. split; [reflexivity|lia]. }
  assert (Hg2 : stream (afterStart (handlerContext r (idgen st)) (handlerGen r (idgen st)))
                = stream (idgen st)
                /\ (drawn (afterStart (handlerContext r (idgen st)) (handlerGen r (idgen st)))
                    = drawn (idgen st) + 1
                    \/ drawn (afterStart (handlerContext r (idgen st)) (handlerGen r (idgen st)))
                       = drawn (idgen st) + 2)).
  { rewrite afterStart_stream, afterStart_drawn, handlerGen_stream, handlerGen_drawn.
    split; [reflexivity|lia]. }
  assert (Hmarker : forall n s p,
             SpanStarted (markerName n) (startSpan (Extract (ReqContext r) (ReqHeader r)) (idgen st))
               (currentSpan (Extract (ReqContext r) (ReqHeader r)))
             = SpanStarted s sp p ->
             TraceID (spanContext sp) = TraceID (currentSpan (Extract (ReqContext r) (ReqHeader r)))
             /\ Sampled (spanContext sp)
                = Sampled (currentSpan (Extract (ReqContext r) (ReqHeader r)))
             /\ (sp = startSpan (Extract (ReqContext r) (ReqHeader r)) (idgen st)
                 /\ p = currentSpan (Extract (ReqContext r) (ReqHeader r))
                 \/ sp <> startSpan (Extract (ReqContext r) (ReqHeader r)) (idgen st)
                    /\ p = spanContext (startSpan (Extract (ReqContext r) (ReqHeader r)) (idgen st)))).
  { intros n s p Heq. injection Heq as _ <- <-. repeat split; try assumption. now left. }
  assert (Hcall : forall g n s p,
             stream g = stream (idgen st) ->
             (drawn g = drawn (idgen st) + 1 \/ drawn g = drawn (idgen st) + 2) ->
             SpanStarted n (startSpan (handlerContext r (idgen st)) g)
               (currentSpan (handlerContext r (idgen st)))
             = SpanStarted s sp p ->
             TraceID (spanContext sp) = TraceID (currentSpan (Extract (ReqContext r) (ReqHeader r)))
             /\ Sampled (spanContext sp)
                = Sampled (currentSpan (Extract (ReqContext r) (ReqHeader r)))
             /\ (sp = startSpan (Extract (ReqContext r) (ReqHeader r)) (idgen st)
                 /\ p = currentSpan (Extract (ReqContext r) (ReqHeader r))
                 \/ sp <> startSpan (Extract (ReqContext r) (ReqHeader r)) (idgen st)
                    /\ p = spanContext (startSpan (Extract (ReqContext r) (ReqHeader r)) (idgen st)))).
  { intros g n s p Hg Hd Heq. destruct (Hchild g Hg Hd) as [Ht' [Hs' Hne]].
    injection Heq as _ <- <-. repeat split; try assumption. right. repeat split; assumption. }
  destruct Hin as [Hin|Hin].
  - rewrite temperatureHandler_run in Hin. cbv zeta in Hin.
    destruct (negb _) in Hin; [|destruct (_ || _) in Hin; [|destruct (isErr _) in Hin]];
      cbn [fst snd] in Hin; rewrite newEvents_app in Hin;
      unfold handlerMarker, markerEvents, ServiceB.temperatureHandler, locationEvents,
        weatherEvents, callEvents, closeEvents in Hin;
      repeat match type of Hin with
             | context [match ?x with inl _ => _ | inr _ => _ end] => destruct x
             end;
      cbn [app In] in Hin;
      repeat (destruct Hin as [Hin|Hin]; try discriminate Hin);
      try contradiction;
      first [ eapply Hmarker; exact Hin
            | eapply (Hcall _ _ _ _ (proj1 Hg1) (proj2 Hg1)); exact Hin
            | eapply (Hcall _ _ _ _ (proj1 Hg2) (proj2 Hg2)); exact Hin ].
  - rewrite zipCodeHandler_run in Hin. cbv zeta in Hin.
    destruct (negb _) in Hin;
      [|destruct (snd (decodedRequest r)) in Hin; [|destruct (negb _) in Hin]];
      cbn [fst snd] in Hin; rewrite newEvents_app in Hin;
      unfold handlerMarker, markerEvents, downstreamEvents, callEvents, closeEvents in Hin;
      cbv zeta in Hin;
      repeat match type of Hin with
             | context [match ?x with inl _ => _ | inr _ => _ end] => destruct x
             end;
      cbn [app In] in Hin;
      repeat (destruct Hin as [Hin|Hin]; try discriminate Hin);
      try contradiction;
      first [ eapply Hmarker; exact Hin
            | eapply (Hcall _ _ _ _ (proj1 Hg1) (proj2 Hg1)); exact Hin ].
Qed.

Lemma X14_spans_share_the_trace_witness :
  List.Forall
    (fun e => match e with
              | SpanStarted _ sp _ =>
                  TraceID (spanContext sp) = "4bf92f3577b34da6a3ce929d0e0e4736"
              | _ => True
              end)
    (newEvents (initState (counterStream 1))
       (snd (ServiceB.temperatureHandler cfgB providersHappy newWriter
               (mkRequest "GET" sampleHeader [("zipcode", "01310900")] [] Background)
               (initState (counterStream 1))))).
Proof.
  apply List.Forall_forall. intros e Hin.
  destruct e as [name sp parent| | | |]; try exact I.
  destruct (X14_spans_share_the_trace cfgA cfgB providersHappy (realServiceB providersHappy)
              (mkRequest "GET" sampleHeader [("zipcode", "01310900")] [] Background)
              (initState (counterStream 1))) with (name := name) (sp := sp) (parent := parent)
    as [Ht _].
  - reflexivity.
  - intros n Hn. destruct n as [|[|[|n]]]; try reflexivity. lia.
  - left. exact Hin.
  - exact Ht.
Defined.

End SpansOfARequest.

(** ** The variants with and without tracing calls *)

Section Variants.

(** X15: tracing does not change what the resolution service does for its
    caller or its providers.  The instrumented and the plain handler send
    the same requests to the providers, and for a code of eight bytes they
    give the same answer; for any other code both reject it with the same
    message and differ only in the status, 412 against 422. *)
Theorem X15_resolution_variants_agree
        (cfg : Config) (env : ServiceB.Providers) (r : Request) (st st' : State) :
  let run := ServiceB.temperatureHandler cfg env newWriter r st in
  let plain := ServiceBPlain.temperatureHandler env newWriter r st' in
  let zipCode := Query_Get (Query r) "zipcode" in
  requestsSent (newEvents st (snd run)) = requestsSent (newEvents st' (snd plain))
  /\ (String.length zipCode = 8 -> fst (fst run) = fst plain)
  /\ (String.length zipCode <> 8 ->
      fst (fst run) = http_Error newWriter (Msg "invalid zipcode") 412
      /\ fst plain = http_Error newWriter (Msg "invalid zipcode") 422).
Proof.
  cbv zeta. rewrite temperatureHandler_run, plain_temperatureHandler_run. cbv zeta.
  destruct (String.length (Query_Get (Query r) "zipcode") =? 8) eqn:Elen; cbn [negb].
  - apply Nat.eqb_eq in Elen.
    destruct (_ || _); [|destruct (isErr _)]; cbn [fst snd]; rewrite !newEvents_app;
      unfold handlerMarker, markerEvents, locationEvents, weatherEvents, callEvents,
        plainCallEvents, closeEvents;
      destruct (ServiceB.viacep env _); try destruct (ServiceB.weatherapi env _);
      (split; [reflexivity|split; [reflexivity|intros H; contradiction]]).
  - apply Nat.eqb_neq in Elen. cbn [fst snd]. rewrite newEvents_app.
    split; [|split; [intros H; contradiction|split; reflexivity]].
    unfold newEvents. now rewrite List.skipn_all.
Qed.

Lemma X15_resolution_variants_agree_witness :
  fst (fst (ServiceB.temperatureHandler cfgB providersHappy newWriter (requestB "01310900")
              (initState (counterStream 1))))
  = fst (ServiceBPlain.temperatureHandler providersHappy newWriter (requestB "01310900")
           (initState (counterStream 5))).
Proof.
  apply (X15_resolution_variants_agree cfgB providersHappy (requestB "01310900")
           (initState (counterStream 1)) (initState (counterStream 5))).
  reflexivity.
Defined.

Lemma plain_relay_run (w : ResponseWriter) (res : goError + Response) (st : State) :
  fst (ServiceAPlain.relay w res st)
  = match res with
    | inl err => http_Error w (ErrorText err) StatusInternalServerError
    | inr resp => ServiceAPlain.relayResponse w resp
    end.
Proof. destruct res; reflexivity. Qed.

Lemma plain_zipCodeHandler_forwards
      (serviceB : ServiceA.Downstream_t) (w : ResponseWriter) (r : Request) (st : State) :
  Method r = "POST" ->
  snd (decodedRequest r) = None ->
  isValidZipCode (ServiceA.CEP (fst (decodedRequest r))) = true ->
  ServiceAPlain.zipCodeHandler serviceB w r st
  = ServiceAPlain.relay w
      (serviceB (ServiceA.downstreamURL (ServiceA.CEP (fst (decodedRequest r)))) ∅)
      (mkState (idgen st)
         (log st ++ [RequestSent Downstream
                       (ServiceA.downstreamURL (ServiceA.CEP (fst (decodedRequest r)))) ∅;
                     ResponseReceived Downstream
                       (serviceB (ServiceA.downstreamURL
                                    (ServiceA.CEP (fst (decodedRequest r)))) ∅)])).
Proof.
  intros Hpost Hdec Hvalid. unfold ServiceAPlain.zipCodeHandler.
  rewrite Hpost. cbn [String.eqb Ascii.eqb Bool.eqb andb negb].
  unfold decodedRequest in *.
  destruct (Decode ServiceA.requestFields (ReqBody r) (ServiceA.mkZipCodeRequest ""))
    as [req err].
  cbn [fst snd] in *. subst err. rewrite Hvalid. cbn [negb]. go_run.
  rewrite <- app_assoc. reflexivity.
Qed.

(** X16: the plain entry service has no branch for a downstream 404.  It
    answers a downstream 404 whose body is the plain-text message with 500
    and the JSON decoder's syntax error, where the instrumented one
    answers 404 "can not find zipcode"; for every downstream response with
    another status the two variants relay alike.  Its outbound request
    carries no header at all. *)
Theorem X16_plain_entry_has_no_not_found
        (serviceB : ServiceA.Downstream_t) (r : Request) (st : State) (resp : Response) :
  let plain := ServiceAPlain.zipCodeHandler serviceB newWriter r st in
  let url := ServiceA.downstreamURL (ServiceA.CEP (fst (decodedRequest r))) in
  Method r = "POST" ->
  snd (decodedRequest r) = None ->
  isValidZipCode (ServiceA.CEP (fst (decodedRequest r))) = true ->
  serviceB url ∅ = inr resp ->
  requestsSent (newEvents st (snd plain)) = [RequestSent Downstream url ∅]
  /\ (StatusCode resp <> StatusNotFound ->
      fst plain = ServiceA.relayResponse newWriter resp)
  /\ (StatusCode resp = StatusNotFound ->
      (exists m rest, RespBody resp = ChunkText m :: rest) ->
      StatusCode (finish (fst plain)) = StatusInternalServerError
      /\ RespBody (finish (fst plain)) = [ChunkText (ErrorText ErrJSONSyntax)]
      /\ StatusCode (finish (ServiceA.relayResponse newWriter resp)) = StatusNotFound).
Proof.
  cbv zeta. intros Hpost Hdec Hvalid Hreply.
  rewrite (plain_zipCodeHandler_forwards serviceB newWriter r st Hpost Hdec Hvalid).
  rewrite Hreply. split; [|split].
  - cbn [ServiceAPlain.relay]. go_run. rewrite <- app_assoc, newEvents_app. reflexivity.
  - intros Hs. rewrite plain_relay_run.
    unfold ServiceAPlain.relayResponse, ServiceA.relayResponse.
    apply Nat.eqb_neq in Hs. now rewrite Hs.
  - intros Hs [m [rest Hb]]. rewrite plain_relay_run.
    unfold ServiceAPlain.relayResponse, ServiceA.relayResponse.
    rewrite Hs, Hb. cbn [Decode Nat.eqb]. repeat split.
Qed.

Lemma X16_plain_entry_has_no_not_found_witness :
  StatusCode (finish (fst (ServiceAPlain.zipCodeHandler (realServiceB providersUnknown)
                             newWriter (requestA ∅ (cepBody "01310900"))
                             (initState (counterStream 1)))))
  = StatusInternalServerError.
Proof.
  destruct (X16_plain_entry_has_no_not_found (realServiceB providersUnknown)
              (requestA ∅ (cepBody "01310900")) (initState (counterStream 1))
              (mkResponse StatusNotFound
                 {[ "Content-Type" := ["text/plain; charset=utf-8"];
                    "X-Content-Type-Options" := ["nosniff"] ]}
                 [ChunkText (Msg "can not find zipcode")])) as [_ [_ H]].
  - reflexivity.
  - reflexivity.
  - reflexivity.
  - vm_compute. reflexivity.
  - apply H; [reflexivity|]. eexists _, _. reflexivity.
Defined.

End Variants.

(** ** URLs of the provider calls *)

Section ProviderURLs.

Lemma hexDigitUpper_unreserved (c : ascii) :
  unreserved (hexDigitUpper (nat_of_ascii c / 16)) = true
  /\ unreserved (hexDigitUpper (nat_of_ascii c mod 16)) = true.
Proof.
  destruct c as [[] [] [] [] [] [] [] []]; split; vm_compute; reflexivity.
Qed.

Lemma QueryEscape_bytes (s : string) :
  forallb queryByte (list_ascii_of_string (QueryEscape s)) = true.
Proof.
  induction s as [|c s IH]; [reflexivity|].
  cbn [QueryEscape]. destruct (unreserved c) eqn:Eu.
  - cbn [list_ascii_of_string forallb]. unfold queryByte at 1. now rewrite Eu, IH.
  - destruct (Ascii.eqb c " ").
    + cbn [list_ascii_of_string forallb]. now rewrite IH.
    + destruct (hexDigitUpper_unreserved c) as [Hh Hl].
      cbn [list_ascii_of_string forallb]. unfold queryByte at 2 3.
      now rewrite Hh, Hl, IH.
Qed.

Lemma QueryEscape_unreserved (s : string) :
  forallb unreserved (list_ascii_of_string s) = true -> QueryEscape s = s.
Proof.
  induction s as [|c s IH]; intros H; [reflexivity|].
  cbn [list_ascii_of_string forallb] in H. apply andb_true_iff in H as [Hc Hs].
  cbn [QueryEscape]. now rewrite Hc, (IH Hs).
Qed.

Lemma queryByte_not_delimiter (c : ascii) :
  queryByte c = true ->
  c <> "&"%char /\ c <> "="%char /\ c <> "#"%char /\ c <> "?"%char /\ c <> "/"%char
  /\ c <> " "%char.
Proof.
  intros H. repeat split; intros ->; discriminate H.
Qed.

(** X17: the weather URL is the fixed prefix followed by the escaped
    locality, and the escaped part consists only of unreserved bytes, "+"
    and "%": whatever bytes the locality holds, it cannot add a parameter,
    a fragment or a path segment to the URL ("&", "=", "#", "?", "/" and
    the space never occur in it).  A locality of unreserved bytes is put
    into the URL as it is. *)
Theorem X17_weather_url_is_escaped (city : string) :
  exists q,
    ServiceB.weatherURL city = weatherBase ++ q
    /\ forallb queryByte (list_ascii_of_string q) = true
    /\ (forall c, In c (list_ascii_of_string q) ->
          c <> "&"%char /\ c <> "="%char /\ c <> "#"%char /\ c <> "?"%char /\ c <> "/"%char
          /\ c <> " "%char)
    /\ (forallb unreserved (list_ascii_of_string city) = true -> q = city).
Proof.
  exists (QueryEscape city). split; [reflexivity|]. split; [apply QueryEscape_bytes|]. split.
  - intros c Hin. apply queryByte_not_delimiter.
    pose proof (QueryEscape_bytes city) as H.
    rewrite List.forallb_forall in H. now apply H.
  - apply QueryEscape_unreserved.
Qed.

Lemma X17_weather_url_is_escaped_witness :
  exists q, ServiceB.weatherURL "Curitiba" = weatherBase ++ q /\ q = "Curitiba".
Proof.
  destruct (X17_weather_url_is_escaped "Curitiba") as [q [Hq [_ [_ Hid]]]].
  exists q. split; [exact Hq|]. apply Hid. reflexivity.
Defined.

End ProviderURLs.

(** ** The trace a request is handled in *)

Section RequestTrace.

Lemma Extract_invalid (ctx : Context) (h : gmap string (list string)) :
  IsValid (extract h) = false -> Extract ctx h = ctx.
Proof. intros Hv. unfold Extract. now rewrite Hv. Qed.

Lemma observed_fresh_root (cfg : Config) (h : gmap string (list string))
      (m : string) (q : list (string * string)) (b : Body)
      (ids : nat -> string * string) (rest : list Event) :
  IsValid (extract h) = false ->
  IsValid (mkSpanContext (fst (ids 0)) (snd (ids 0)) true false) = true ->
  observedTraceID
    (handlerMarker cfg
       (mkRequest m h q b
          (mkContext (fst (newSpanContext (currentSpan (Extract Background h))
                             (idgen (initState ids))))))
       (snd (newSpanContext (currentSpan (Extract Background h)) (idgen (initState ids))))
       ++ rest)
  = Some (fst (ids 0)).
Proof.
  intros Hh Hroot. unfold handlerMarker. rewrite observed_marker.
  cbn [ReqContext ReqHeader]. rewrite !(Extract_invalid _ h Hh).
  change (fst (newSpanContext (currentSpan Background) (idgen (initState ids))))
    with (mkSpanContext (fst (ids 0)) (snd (ids 0)) true false).
  now rewrite startSpan_trace.
Qed.

(** X18: the trace a request is handled in.  Each service continues the
    trace of a valid inbound traceparent header; without a valid header
    (absent, malformed, all-zero ids) the request starts a new trace,
    whose id is the first draw of the service's id generator.  This holds
    on every exit path of the handlers. *)
Theorem X18_trace_of_a_request
        (cfgA' cfgB' : Config) (serviceB : ServiceA.Downstream_t) (env : ServiceB.Providers)
        (ids : nat -> string * string) (r : Request) (url : string)
        (hdr : gmap string (list string)) :
  let traceA := observedTraceID (log (snd (serviceA_run cfgA' serviceB ids r))) in
  let traceB := observedTraceID (log (snd (serviceB_run cfgB' env ids url hdr))) in
  let root := mkSpanContext (fst (ids 0)) (snd (ids 0)) true false in
  (IsValid (extract (ReqHeader r)) = true ->
   traceA = Some (TraceID (extract (ReqHeader r))))
  /\ (IsValid (extract hdr) = true -> traceB = Some (TraceID (extract hdr)))
  /\ (ReqContext r = Background -> IsValid (extract (ReqHeader r)) = false ->
      IsValid root = true -> traceA = Some (fst (ids 0)))
  /\ (IsValid (extract hdr) = false -> IsValid root = true -> traceB = Some (fst (ids 0))).
Proof.
  cbv zeta. split; [|split; [|split]].
  - apply entry_service_observes_inbound_trace.
  - apply resolution_service_observes_inbound_trace.
  - intros Hctx Hh Hroot. unfold serviceA_run, otelhttp_NewHandler. go_run.
    rewrite zipCodeHandler_run. cbv zeta. rewrite Hctx.
    destruct (negb _);
      [|destruct (snd (decodedRequest _)); [|destruct (negb _)]];
      cbn [fst snd log idgen initState app];
      try (rewrite <- (app_nil_r (handlerMarker _ _ _)));
      now apply observed_fresh_root.
  - intros Hh Hroot. unfold serviceB_run, otelhttp_NewHandler. go_run.
    rewrite temperatureHandler_run. cbv zeta. unfold inbound.
    cbn [Method ReqHeader Query ReqBody ReqContext].
    destruct (negb _); [|destruct (_ || _); [|destruct (isErr _)]];
      cbn [fst snd log idgen initState app];
      try (rewrite <- (app_nil_r (handlerMarker _ _ _)));
      now apply observed_fresh_root.
Qed.

Lemma X18_trace_of_a_request_witness :
  observedTraceID (log (snd (serviceA_run cfgA (realServiceB providersHappy) (counterStream 1)
                               (requestA ∅ (cepBody "01310900")))))
  = Some "00000000000000000000000000000001"
  /\ observedTraceID (log (snd (serviceB_run cfgB providersHappy (counterStream 1)
                                  "http://service-b:8081/zipcode?zipcode=01310900"
                                  sampleHeader)))
     = Some "4bf92f3577b34da6a3ce929d0e0e4736".
Proof.
  destruct (X18_trace_of_a_request cfgA cfgB (realServiceB providersHappy) providersHappy
              (counterStream 1) (requestA ∅ (cepBody "01310900"))
              "http://service-b:8081/zipcode?zipcode=01310900" sampleHeader)
    as [_ [HB [HA _]]].
  split.
  - apply HA; reflexivity.
  - apply HB. reflexivity.
Defined.

End RequestTrace.

(** ** What [Inject] does to the inbound request *)

Section InboundHeaders.

Lemma temperatureHandler_request (cfg : Config) (env : ServiceB.Providers)
      (w : ResponseWriter) (r : Request) (st : State) :
  snd (fst (ServiceB.temperatureHandler cfg env w r st)) = handlerRequest r (idgen st).
Proof.
  rewrite temperatureHandler_run. cbv zeta.
  destruct (negb _); [reflexivity|].
  destruct (_ || _); [reflexivity|].
  destruct (isErr _); reflexivity.
Qed.

Lemma zipCodeHandler_request (cfg : Config) (serviceB : ServiceA.Downstream_t)
      (w : ResponseWriter) (r : Request) (st : State) :
  snd (fst (ServiceA.zipCodeHandler cfg serviceB w r st)) = handlerRequest r (idgen st).
Proof.
  rewrite zipCodeHandler_run. cbv zeta.
  destruct (negb _); [reflexivity|].
  destruct (snd (decodedRequest r)); [reflexivity|].
  destruct (negb _); reflexivity.
Qed.

(** X19: the only thing either handler may change in the request it was
    given are the trace-context entries of its header map, traceparent and
    tracestate, on every exit path: method, query, body and context are as
    before and every header other than these two reads as before; when the
    marker span's context is valid the traceparent entry becomes
    "00-<trace id>-<marker span id>-<01 or 00>", replacing what the caller
    sent, and otherwise the header map is not touched. *)
Theorem X19_inject_rewrites_inbound_traceparent
        (cfgA' cfgB' : Config) (env : ServiceB.Providers) (serviceB : ServiceA.Downstream_t)
        (r : Request) (st : State) :
  let rB := snd (fst (ServiceB.temperatureHandler cfgB' env newWriter r st)) in
  let rA := snd (fst (ServiceA.zipCodeHandler cfgA' serviceB newWriter r st)) in
  let sc := spanContext (startSpan (Extract (ReqContext r) (ReqHeader r)) (idgen st)) in
  rA = rB
  /\ Method rB = Method r /\ Query rB = Query r /\ ReqBody rB = ReqBody r
  /\ ReqContext rB = ReqContext r
  /\ (forall key,
        CanonicalMIMEHeaderKey key <> "Traceparent" ->
        CanonicalMIMEHeaderKey key <> "Tracestate" ->
        Header_Get (ReqHeader rB) key = Header_Get (ReqHeader r) key)
  /\ (IsValid sc = true ->
      Header_Get (ReqHeader rB) "traceparent"
      = "00-" ++ TraceID sc ++ "-" ++ SpanID sc ++ "-" ++ (if Sampled sc then "01" else "00"))
  /\ (IsValid sc = false -> ReqHeader rB = ReqHeader r).
Proof.
  cbv zeta. rewrite temperatureHandler_request, zipCodeHandler_request.
  unfold handlerRequest, withHeader, handlerContext, Inject.
  cbn [Method Query ReqBody ReqContext ReqHeader currentSpan].
  repeat split.
  - intros key Hkey _.
    destruct (IsValid _); [|reflexivity].
    unfold Header_Get, Header_Set.
    rewrite lookup_insert_ne; [reflexivity|].
    intros Heq. apply Hkey. now rewrite <- Heq.
  - intros Hv. rewrite Hv. apply Header_Get_Set.
  - intros Hv. now rewrite Hv.
Qed.

Lemma X19_inject_rewrites_inbound_traceparent_witness :
  Header_Get (ReqHeader (snd (fst (ServiceB.temperatureHandler cfgB providersHappy newWriter
     (mkRequest "GET" sampleHeader [("zipcode", "01310900")] [] Background)
     (initState (counterStream 1)))))) "traceparent"
  = "00-4bf92f3577b34da6a3ce929d0e0e4736-0000000000000001-01".
Proof.
  destruct (X19_inject_rewrites_inbound_traceparent cfgA cfgB providersHappy
              (realServiceB providersHappy)
              (mkRequest "GET" sampleHeader [("zipcode", "01310900")] [] Background)
              (initState (counterStream 1))) as [_ [_ [_ [_ [_ [_ [H _]]]]]]].
  rewrite H; reflexivity.
Defined.

End InboundHeaders.

(** ** Process start-up *)

Section StartupProperties.

Import Startup.

(** X20: [initProvider] succeeds exactly when both the resource and the
    exporter can be created.  On failure it returns the cause wrapped with
    a prefix naming the step (the resource's failure first) and installs
    nothing.  On success it installs the W3C trace-context propagator and
    a tracer provider that carries the service name and TWO batch
    processors on the one exporter, because [WithBatcher] and
    [WithSpanProcessor] each register one: every ended span is handed to
    the collector's exporter twice. *)
Theorem X20_initProvider (boot : Boot) (serviceName collectorURL : string) (s : PState) :
  let run := initProvider boot serviceName collectorURL s in
  steps (snd run) = steps s
  /\ (forall e, resourceNew boot = Some e ->
        fst run = Some (inr (Wrapped "failed to create resource" e)) /\ snd run = s)
  /\ (forall e, resourceNew boot = None -> exporterNew boot = Some e ->
        fst run = Some (inr (Wrapped "failed to create http connection to collector" e))
        /\ snd run = s)
  /\ (resourceNew boot = None -> exporterNew boot = None ->
      exists tp,
        fst run = Some (inl tp)
        /\ tracerProvider (globals (snd run)) = Some tp
        /\ traceContextPropagator (globals (snd run)) = true
        /\ routes (globals (snd run)) = routes (globals s)
        /\ resource tp = serviceName
        /\ exportersOnEnd tp = [OTLPExporter collectorURL; OTLPExporter collectorURL]).
Proof.
  cbv zeta. unfold initProvider.
  destruct (resourceNew boot) as [e1|]; [|destruct (exporterNew boot) as [e2|]].
  - split; [reflexivity|]. split; [|split]; try discriminate.
    intros e He. injection He as <-. destruct s. split; reflexivity.
  - split; [reflexivity|]. split; [|split]; try discriminate.
    intros e _ He. injection He as <-. destruct s. split; reflexivity.
  - split; [reflexivity|]. split; [|split]; try discriminate.
    intros _ _. eexists. repeat split.
Qed.

Lemma X20_initProvider_witness :
  exists tp,
    fst (initProvider (mkBoot "service-a" "otel-collector:4318" None None
                         (ErrTransport "listen tcp :8080: bind: address already in use") true)
           "service-a" "otel-collector:4318" start) = Some (inl tp)
    /\ exportersOnEnd tp
       = [OTLPExporter "otel-collector:4318"; OTLPExporter "otel-collector:4318"].
Proof.
  destruct (X20_initProvider
              (mkBoot "service-a" "otel-collector:4318" None None
                 (ErrTransport "listen tcp :8080: bind: address already in use") true)
              "service-a" "otel-collector:4318" start) as [_ [_ [_ H]]].
  destruct (H eq_refl eq_refl) as [tp [H1 [_ [_ [_ [_ H2]]]]]].
  exists tp. split; assumption.
Defined.

(** X21: [main] never returns to its caller.  When [initProvider] fails it
    ends in [log.Fatal], that is in [os.Exit(1)], with no route registered
    and the server never started.  Otherwise the routes "/metrics" and
    "/zipcode" are registered with the tracer provider installed and the
    server is started: while [ListenAndServe] serves, [main] stays inside
    it, and if [ListenAndServe] returns, [main] ends in [log.Fatal] with
    the error it returned.  In no case does a deferred call run (the
    tracer provider's shutdown and the context's cancel included), and the
    select statement with its shutdown messages is never reached. *)
Theorem X21_main_serves_or_exits (handler addr : string) (stops : bool) (boot : Boot) :
  let run := main handler addr stops boot start in
  fst run = None
  /\ List.filter isDeferred (steps (snd run)) = []
  /\ match initProvider boot (OTEL_SERVICE_NAME boot) (OTEL_EXPORTER_OTLP_ENDPOINT boot) start with
     | (Some (inr err), _) =>
         steps (snd run) = [SignalNotify; Fatal err; Exit 1]
         /\ globals (snd run) = noGlobals
     | (Some (inl tp), _) =>
         steps (snd run)
         = (if stops
            then [SignalNotify; Listen addr; Fatal (Plain (listenAndServe boot)); Exit 1]
            else [SignalNotify; Serving addr])
         /\ routes (globals (snd run))
            = [("/metrics", "promhttp.Handler"); ("/zipcode", handler)]
         /\ tracerProvider (globals (snd run)) = Some tp
     | (None, _) => False
     end.
Proof.
  cbv zeta. unfold main, initProvider, http_ListenAndServe.
  destruct (resourceNew boot) as [e1|]; [|destruct (exporterNew boot) as [e2|]];
    destruct stops; repeat split.
Qed.

End StartupProperties.
